(** * O3DE vehicle-camera scaffold: a shallow embedding of [o3de_setup_script.py]

    The script drives a host editor through bus calls, keeps a registry of
    the entities it created, prints a running commentary and writes three
    artifacts to disk.  The embedding threads one explicit [state] (the
    object's two attributes, the trace of everything the script did to the
    outside world, and the file store) through an exception monad.

    The host editor ([azlmbr]) and the file system are external: the host is
    an oracle answering each bus call from the history of events so far, the
    file system fails where a fault plan says it does.  The script's output
    goes to the console the editor gives its Python interpreter as
    [sys.stdout]; that console is part of the host, and it too may refuse a
    line (a console that cannot encode the check marks and emoji the script
    prints raises [UnicodeEncodeError] from [print]). *)

From Stdlib Require Import Ascii String ZArith Floats.
From stdpp Require Import gmap strings list pretty.

Set Warnings "-inexact-float,-register-all".

(** ** Python values that cross the host boundary *)

(** Handles handed out by the host are opaque to the script. *)
Definition EntityId := N.
Definition TypeId := N.
Definition ComponentId := N.

(** An instance of [Exception], identified with its [str()].  Signals that
    derive from [BaseException] only (keyboard interrupt, interpreter exit)
    are not exceptions in this sense and are outside the model. *)
Definition exn := string.

(** Numeric literals: [0] is an [int], [0.0] a binary64 [float]. *)
Inductive PyNum :=
| PyInt (z : Z)
| PyFloat (f : float).

(** [math.Vector3(x, y, z)] *)
Inductive Vec3 :=
| Vector3 (x y z : PyNum).

Inductive Quat :=
| Quaternion_CreateFromEulerAngles (v : Vec3).

Inductive Transform :=
| Transform_CreateTranslation (v : Vec3)
| Transform_CreateScale (v : Vec3)
| Transform_CreateRotation (q : Quat).

(** A property value: the script passes floats and 3-vectors. *)
Inductive Value :=
| VNum (x : PyNum)
| VVec (v : Vec3).

(** ** Events *)

(** The bus calls the script issues, with their arguments.  The component
    argument of [SetComponentProperty] is an optional handle because the
    value the script holds is the result of [add_component], which may be
    [None]. *)
Inductive HostCall :=
| GetGameFolder
| CreateNewEntity (parent_id : option EntityId)
| SetName (entity_id : EntityId) (name : string)
| FindComponentTypeIdsByEntityType (names : list string) (entity_type : Z)
| AddComponentsOfType (entity_id : EntityId) (component_type : list TypeId)
| SetComponentProperty (component_id : option ComponentId)
    (property_path : string) (value : Value)
| SetWorldTM (entity_id : EntityId) (transform : Transform)
| SetLocalTM (entity_id : EntityId) (transform : Transform).

(** Everything observable the script does, oldest first in a trace. *)
Inductive Event :=
| Call (c : HostCall)                    (* a bus call was issued *)
| Stdout (line : string)                 (* print(line), accepted by the console *)
| Traceback (e : exn)                    (* traceback.print_exc() *)
| Makedirs (path : string)               (* os.makedirs(path, exist_ok=True) *)
| OpenW (path : string)                  (* open(path, 'w') *)
| WriteTo (path : string) (data : string). (* f.write(data) on that file *)

(** ** Outcomes and the exception-state monad *)

Inductive outcome (A : Type) :=
| Return (a : A)
| Raise (e : exn).
Arguments Return {A} a.
Arguments Raise {A} e.

(** The host: every answer may depend on the history, and may be an
    exception.  [hStdout] is [sys.stdout] as the editor provides it: what
    happens when [print] writes a line to it.  [truthy] is the truth value
    Python gives a component handle in [if component:]; [str_entity] is
    [str()] of an entity handle. *)
Record Host := mkHost {
  hGetGameFolder : list Event -> outcome string;
  hCreateNewEntity : list Event -> option EntityId -> outcome EntityId;
  hSetName : list Event -> EntityId -> string -> outcome unit;
  hFindComponentTypeIds : list Event -> list string -> Z -> outcome (list TypeId);
  hAddComponentsOfType : list Event -> EntityId -> list TypeId -> outcome (list ComponentId);
  hSetComponentProperty : list Event -> option ComponentId -> string -> Value -> outcome bool;
  hSetWorldTM : list Event -> EntityId -> Transform -> outcome unit;
  hSetLocalTM : list Event -> EntityId -> Transform -> outcome unit;
  hStdout : list Event -> string -> outcome unit;
  truthy : ComponentId -> bool;
  str_entity : EntityId -> string
}.

(** The file system's fault plan, by path: whether creating the directory
    raises, whether opening for writing raises, and whether writing raises
    after some number of characters reached the file. *)
Record Faults := mkFaults {
  makedirs_fault : string -> option exn;
  open_fault : string -> option exn;
  write_fault : string -> option (nat * exn)
}.

(** [self] and the world.  [created_entities] is a Python dict: insertion
    ordered, one entry per key. *)
Record state := mkState {
  created_entities : list (string * EntityId);
  project_path : string;
  trace : list Event;
  files : gmap string string
}.

Definition M (A : Type) : Type := state -> outcome A * state.

#[export] Instance M_ret : MRet M := fun A a s => (Return a, s).

#[export] Instance M_bind : MBind M := fun A B k m s =>
  match m s with
  | (Return a, s') => k a s'
  | (Raise e, s') => (Raise e, s')
  end.

(** [try: body except Exception as e: handler] *)
Definition try_except {A} (body : M A) (handler : exn -> M A) : M A := fun s =>
  match body s with
  | (Return a, s') => (Return a, s')
  | (Raise e, s') => handler e s'
  end.

(** [for x in l: body x] *)
Fixpoint for_each {A} (l : list A) (body : A -> M unit) : M unit :=
  match l with
  | [] => mret tt
  | x :: l' => body x;; for_each l' body
  end.

(** ** State access *)

Definition log (e : Event) (s : state) : state :=
  {| created_entities := created_entities s;
     project_path := project_path s;
     trace := trace s ++ [e];
     files := files s |}.

Definition set_files (fs : gmap string string) (s : state) : state :=
  {| created_entities := created_entities s;
     project_path := project_path s;
     trace := trace s;
     files := fs |}.

(** [d[k] = v] on an insertion-ordered dict *)
Fixpoint dict_set {V} (k : string) (v : V) (d : list (string * V)) : list (string * V) :=
  match d with
  | [] => [(k, v)]
  | (k', v') :: d' =>
      if String.eqb k' k then (k', v) :: d' else (k', v') :: dict_set k v d'
  end.

Fixpoint dict_get {V} (k : string) (d : list (string * V)) : option V :=
  match d with
  | [] => None
  | (k', v') :: d' => if String.eqb k' k then Some v' else dict_get k d'
  end.

(** [self.created_entities[role] = entity_id] *)
Definition set_created_entity (role : string) (entity_id : EntityId) : M unit := fun s =>
  (Return tt,
   {| created_entities := dict_set role entity_id (created_entities s);
      project_path := project_path s;
      trace := trace s;
      files := files s |}).

(** [self.created_entities.items()] *)
Definition created_entities_items : M (list (string * EntityId)) := fun s =>
  (Return (created_entities s), s).

(** [self.project_path] *)
Definition get_project_path : M string := fun s => (Return (project_path s), s).

(** [traceback.print_exc()]: written to [sys.stderr], whose error handler
    ([backslashreplace]) encodes every character. *)
Definition traceback_print_exc (e : exn) : M unit := fun s =>
  (Return tt, log (Traceback e) s).

(** ** Strings and paths *)

Definition nl : string := String "010"%char EmptyString.
Definition dq : string := String "034"%char EmptyString.

(** [s * n] *)
Fixpoint str_mul (s : string) (n : nat) : string :=
  match n with
  | O => EmptyString
  | S n' => s +:+ str_mul s n'
  end.

Definition is_sep (c : ascii) : bool := Ascii.eqb c "/"%char.

Definition startswith_sep (s : string) : bool :=
  match s with
  | String c _ => is_sep c
  | EmptyString => false
  end.

Fixpoint endswith_sep (s : string) : bool :=
  match s with
  | EmptyString => false
  | String c EmptyString => is_sep c
  | String _ s' => endswith_sep s'
  end.

Definition str_empty (s : string) : bool :=
  match s with
  | EmptyString => true
  | String _ _ => false
  end.

(** [os.path.join(a, *p)], POSIX flavour: a component that starts with the
    separator restarts the path; otherwise it is appended, with a separator
    unless the path so far is empty or already ends with one. *)
Fixpoint os_path_join (a : string) (p : list string) : string :=
  match p with
  | [] => a
  | b :: p' =>
      os_path_join
        (if startswith_sep b then b
         else if str_empty a || endswith_sep a then a +:+ b
         else a +:+ "/" +:+ b)
        p'
  end.

(** [p[:p.rfind('/') + 1]] *)
Fixpoint upto_last_sep (l : list ascii) : list ascii :=
  match l with
  | [] => []
  | c :: l' =>
      let r := upto_last_sep l' in
      if is_sep c then c :: r
      else match r with [] => [] | _ => c :: r end
  end.

Fixpoint lstrip_sep (l : list ascii) : list ascii :=
  match l with
  | [] => []
  | c :: l' => if is_sep c then lstrip_sep l' else l
  end.

(** [head.rstrip('/')] *)
Definition rstrip_sep (l : list ascii) : list ascii := rev (lstrip_sep (rev l)).

(** [os.path.dirname(p)], POSIX flavour. *)
Definition os_path_dirname (p : string) : string :=
  let head := upto_last_sep (list_ascii_of_string p) in
  string_of_list_ascii
    (if negb (forallb is_sep head) then rstrip_sep head else head).

(** ** JSON documents, as [json.dump(obj, f, indent=4)] writes them *)

(** The shapes the script builds: integers, strings, lists and dicts with
    string keys (in insertion order). *)
Inductive json :=
| JInt (z : Z)
| JStr (s : string)
| JList (l : list json)
| JDict (l : list (string * json)).

Definition hex_digit (n : N) : ascii :=
  ascii_of_N (if (n <? 10)%N then 48 + n else 87 + n).

(** One character of a string literal, as [ensure_ascii] escapes it. *)
Definition json_escape_char (c : ascii) : string :=
  let n := N_of_ascii c in
  if (n =? 34)%N then "\" +:+ dq
  else if (n =? 92)%N then "\\"
  else if (n =? 10)%N then "\n"
  else if (n =? 13)%N then "\r"
  else if (n =? 9)%N then "\t"
  else if (n =? 8)%N then "\b"
  else if (n =? 12)%N then "\f"
  else if (n <? 32)%N || (126 <? n)%N then
    "\u00" +:+ String (hex_digit (n / 16)) (String (hex_digit (n mod 16)) EmptyString)
  else String c EmptyString.

Fixpoint json_escape (s : string) : string :=
  match s with
  | EmptyString => EmptyString
  | String c s' => json_escape_char c +:+ json_escape s'
  end.

Definition json_quote (s : string) : string := dq +:+ json_escape s +:+ dq.

Fixpoint str_join (sep : string) (l : list string) : string :=
  match l with
  | [] => EmptyString
  | [x] => x
  | x :: l' => x +:+ sep +:+ str_join sep l'
  end.

Definition newline_indent (indent level : nat) : string :=
  nl +:+ str_mul " " (indent * level).

(** [json.dumps(j, indent=indent)] at nesting depth [level]: items of a
    non-empty container go one per line, separated by a comma; keys and
    values are separated by a colon and a space. *)
Fixpoint json_encode (indent level : nat) (j : json) : string :=
  match j with
  | JInt z => pretty z
  | JStr s => json_quote s
  | JList [] => "[]"
  | JList l =>
      "[" +:+ newline_indent indent (S level)
      +:+ str_join ("," +:+ newline_indent indent (S level))
            (map (json_encode indent (S level)) l)
      +:+ newline_indent indent level +:+ "]"
  | JDict [] => "{}"
  | JDict l =>
      "{" +:+ newline_indent indent (S level)
      +:+ str_join ("," +:+ newline_indent indent (S level))
            (map (fun kv => json_quote (fst kv) +:+ ": "
                            +:+ json_encode indent (S level) (snd kv)) l)
      +:+ newline_indent indent level +:+ "}"
  end.

Definition json_dumps (j : json) (indent : nat) : string := json_encode indent 0 j.

(** [d[key]] on a JSON dict *)
Definition json_field (key : string) (j : json) : option json :=
  match j with
  | JDict l => dict_get key l
  | _ => None
  end.

Definition json_items (j : json) : list json :=
  match j with
  | JList l => l
  | _ => []
  end.

Definition json_string (j : json) : option string :=
  match j with
  | JStr s => Some s
  | _ => None
  end.

(** ** The fixed documents the script writes *)

Definition input_binding (name event_generator event_name : string) : json :=
  JDict [("name", JStr name);
         ("event_generator", JStr event_generator);
         ("event_name", JStr event_name)].

(** The [bindings] dict of [create_input_bindings]. *)
Definition bindings : json :=
  JDict [
    ("version", JInt 1);
    ("bindings", JList [
       input_binding "camera_cycle" "keyboard_key_c" "camera_cycle";
       input_binding "camera_look_back" "gamepad_button_r1" "camera_look_back";
       input_binding "camera_menu" "keyboard_key_f1" "camera_menu";
       input_binding "photo_mode" "keyboard_key_f6" "photo_mode";
       input_binding "vehicle_forward" "keyboard_key_w" "vehicle_forward";
       input_binding "vehicle_backward" "keyboard_key_s" "vehicle_backward";
       input_binding "vehicle_left" "keyboard_key_a" "vehicle_left";
       input_binding "vehicle_right" "keyboard_key_d" "vehicle_right"
    ])
  ].

Definition header_content : string :=
"#pragma once

#include <AzCore/Component/Component.h>
#include <AzCore/Component/TransformBus.h>
#include <AzCore/Component/TickBus.h>

namespace VehicleCombat
{
    class VehicleCombatCameraComponent
        : public AZ::Component
        , public AZ::TickBus::Handler
    {
    public:
        AZ_COMPONENT(VehicleCombatCameraComponent, " +:+ dq +:+
"{12345678-1234-1234-1234-123456789012}" +:+ dq +:+
");

        static void Reflect(AZ::ReflectContext* context);
        
        void Activate() override;
        void Deactivate() override;
        void OnTick(float deltaTime, AZ::ScriptTimePoint time) override;

    private:
        AZ::EntityId m_vehicleEntity;
        AZ::EntityId m_cameraEntity;
        AZ::Vector3 m_currentPosition;
    };
}
".

Definition cpp_content : string :=
"#include " +:+ dq +:+
"VehicleCombatCameraComponent.h" +:+ dq +:+
"
#include <AzCore/Serialization/SerializeContext.h>

namespace VehicleCombat
{
    void VehicleCombatCameraComponent::Reflect(AZ::ReflectContext* context)
    {
        if (auto serializeContext = azrtti_cast<AZ::SerializeContext*>(context))
        {
            serializeContext->Class<VehicleCombatCameraComponent, AZ::Component>()
                ->Version(1)
                ->Field(" +:+ dq +:+
"VehicleEntity" +:+ dq +:+
", &VehicleCombatCameraComponent::m_vehicleEntity)
                ->Field(" +:+ dq +:+
"CameraEntity" +:+ dq +:+
", &VehicleCombatCameraComponent::m_cameraEntity);
        }
    }

    void VehicleCombatCameraComponent::Activate()
    {
        AZ::TickBus::Handler::BusConnect();
    }

    void VehicleCombatCameraComponent::Deactivate()
    {
        AZ::TickBus::Handler::BusDisconnect();
    }

    void VehicleCombatCameraComponent::OnTick(float deltaTime, AZ::ScriptTimePoint time)
    {
        // Basic camera follow logic here
        AZ::Vector3 vehiclePos;
        AZ::TransformBus::EventResult(vehiclePos, m_vehicleEntity,
            &AZ::TransformBus::Events::GetWorldTranslation);
        
        // Position camera behind vehicle
        m_currentPosition = vehiclePos + AZ::Vector3(0.0f, -10.0f, 5.0f);
        
        AZ::TransformBus::Event(m_cameraEntity,
            &AZ::TransformBus::Events::SetWorldTranslation, m_currentPosition);
    }
}
".

Definition readme_content : string :=
"# Vehicle Combat Camera System - Setup Complete!

## What Was Created

### Entities:
- **VehicleCamera**: The camera that will follow your vehicle
- **PlayerVehicle**: Your vehicle entity (needs mesh and physics setup)
- **GameManager**: Manages game systems
- **GroundPlane**: A surface to drive on
- **DirectionalLight**: Basic lighting

### Files:
- Input bindings: Config/Input/vehicle_camera.inputbindings
- Component templates: Gem/Code/Source/Components/

## Next Steps

### 1. Add a Vehicle Mesh
1. Select the " +:+ dq +:+
"PlayerVehicle" +:+ dq +:+
" entity in the Entity Outliner
2. Find the " +:+ dq +:+
"Mesh" +:+ dq +:+
" component in the Entity Inspector
3. Click the folder icon next to " +:+ dq +:+
"Model Asset" +:+ dq +:+
"
4. Choose a vehicle mesh from your assets
   (You may need to import one first: Assets → Import)

### 2. Set Up the Camera Link
Since we can't create custom components from Python, we have two options:

**Option A: Use Script Canvas (Easier)**
1. Select " +:+ dq +:+
"GameManager" +:+ dq +:+
" entity
2. Add " +:+ dq +:+
"Script Canvas" +:+ dq +:+
" component
3. Create a new Script Canvas graph
4. Add logic to:
   - Get PlayerVehicle position every frame
   - Set VehicleCamera position behind vehicle
   - Add offset: (0, -10, 5) relative to vehicle

**Option B: Write C++ Component (More powerful)**
1. The template files are in Gem/Code/Source/Components/
2. Fill in the full implementation from the artifacts
3. Rebuild your project
4. Add " +:+ dq +:+
"Vehicle Combat Camera Component" +:+ dq +:+
" to PlayerVehicle

### 3. Test Basic Camera
1. Press Ctrl+G to enter Play Mode
2. The camera should be positioned behind your vehicle
3. If using physics, the vehicle should respond to gravity

### 4. Add Vehicle Controls
Create a Script Canvas graph with:
- Input events (W/A/S/D)
- Apply forces to the vehicle's Rigid Body
- Simple arcade-style driving physics

### 5. Enhance the Camera (Optional)
- Add smooth follow using lerp
- Add look-ahead prediction
- Add camera shake on collisions
- Implement the full combat camera system

## Controls (Once Set Up)

- **W/A/S/D**: Drive vehicle (needs scripting)
- **C**: Cycle camera modes (needs component)
- **F1**: Open camera menu (needs component)
- **F6**: Photo mode (needs component)

## Troubleshooting

**Camera not following vehicle?**
- Make sure the Script Canvas or component is active
- Check that entity IDs are correctly linked
- Verify the vehicle entity is actually moving

**Vehicle falls through ground?**
- Make sure GroundPlane has PhysX Static Rigid Body
- Check that vehicle has PhysX Rigid Body
- Verify collision layers are set correctly

**Nothing visible in viewport?**
- Check that camera is the active camera
- Make sure lighting is set up
- Verify entities are not disabled

## Resources

- O3DE Documentation: https://www.o3de.org/docs/
- Script Canvas Guide: https://www.o3de.org/docs/user-guide/scripting/script-canvas/
- Vehicle Physics Tutorial: Check O3DE YouTube channel

## Need Help?

1. Check the O3DE Discord: https://discord.gg/o3de
2. Forum: https://github.com/o3de/o3de/discussions
3. Documentation: https://www.o3de.org/docs/

Good luck with your Twisted Metal-style game!
".

Section Script.

(** The host editor and the file system's fault plan the script runs
    against. *)
Variable h : Host.
Variable fp : Faults.

(** ** The outside world *)

(** A bus call: recorded in the trace whether or not it raises, answered by
    the host from the history before the call. *)
Definition bus {A} (c : HostCall) (answer : list Event -> outcome A) : M A := fun s =>
  (answer (trace s), log (Call c) s).

(** [print(line)]: the line appears on the console, or the console raises
    and nothing appears. *)
Definition print (line : string) : M unit := fun s =>
  match hStdout h (trace s) line with
  | Return _ => (Return tt, log (Stdout line) s)
  | Raise e => (Raise e, s)
  end.

Definition EditorToolsApplicationRequestBus_GetGameFolder : M string :=
  bus GetGameFolder (hGetGameFolder h).

Definition ToolsApplicationRequestBus_CreateNewEntity (parent_id : option EntityId)
  : M EntityId :=
  bus (CreateNewEntity parent_id) (fun t => hCreateNewEntity h t parent_id).

Definition EditorEntityAPIBus_SetName (entity_id : EntityId) (name : string) : M unit :=
  bus (SetName entity_id name) (fun t => hSetName h t entity_id name).

Definition EditorComponentAPIBus_FindComponentTypeIdsByEntityType
    (names : list string) (entity_type : Z) : M (list TypeId) :=
  bus (FindComponentTypeIdsByEntityType names entity_type)
      (fun t => hFindComponentTypeIds h t names entity_type).

Definition EditorComponentAPIBus_AddComponentsOfType
    (entity_id : EntityId) (component_type : list TypeId) : M (list ComponentId) :=
  bus (AddComponentsOfType entity_id component_type)
      (fun t => hAddComponentsOfType h t entity_id component_type).

Definition EditorComponentAPIBus_SetComponentProperty
    (component_id : option ComponentId) (property_path : string) (value : Value)
  : M bool :=
  bus (SetComponentProperty component_id property_path value)
      (fun t => hSetComponentProperty h t component_id property_path value).

Definition EditorTransformComponentRequestBus_SetWorldTM
    (entity_id : EntityId) (transform : Transform) : M unit :=
  bus (SetWorldTM entity_id transform) (fun t => hSetWorldTM h t entity_id transform).

Definition EditorTransformComponentRequestBus_SetLocalTM
    (entity_id : EntityId) (transform : Transform) : M unit :=
  bus (SetLocalTM entity_id transform) (fun t => hSetLocalTM h t entity_id transform).

(** [os.makedirs(path, exist_ok=True)].  Directories are not part of the
    file store; the call is recorded, and raises where the plan says so. *)
Definition os_makedirs (path : string) : M unit := fun s =>
  (match makedirs_fault fp path with
   | Some e => Raise e
   | None => Return tt
   end, log (Makedirs path) s).

(** [open(path, 'w')]: on success the file exists and is empty. *)
Definition open_w (path : string) : M string := fun s =>
  match open_fault fp path with
  | Some e => (Raise e, log (OpenW path) s)
  | None => (Return path, set_files (<[path := EmptyString]> (files s)) (log (OpenW path) s))
  end.

Definition file_content (path : string) (fs : gmap string string) : string :=
  default EmptyString (fs !! path).

(** [f.write(data)] followed by the flush at the end of the [with] block:
    the data is appended to the file; on a fault only a prefix is. *)
Definition f_write (f : string) (data : string) : M unit := fun s =>
  let s' := log (WriteTo f data) s in
  match write_fault fp f with
  | Some (n, e) =>
      (Raise e,
       set_files (<[f := file_content f (files s) +:+ String.substring 0 n data]> (files s)) s')
  | None =>
      (Return tt, set_files (<[f := file_content f (files s) +:+ data]> (files s)) s')
  end.

(** [with open(path, 'w') as f: body f] *)
Definition with_open_w {A} (path : string) (body : string -> M A) : M A :=
  f ← open_w path; body f.

(** [json.dump(obj, f, indent=indent)] *)
Definition json_dump (obj : json) (f : string) (indent : nat) : M unit :=
  f_write f (json_dumps obj indent).

(** ** class O3DECameraSetup *)

(** [self.created_entities = {}] *)
Definition reset_created_entities : M unit := fun s =>
  (Return tt,
   {| created_entities := [];
      project_path := project_path s;
      trace := trace s;
      files := files s |}).

(** [self.project_path = path] *)
Definition set_project_path (path : string) : M unit := fun s =>
  (Return tt,
   {| created_entities := created_entities s;
      project_path := path;
      trace := trace s;
      files := files s |}).

(** [__init__] *)
Definition init : M unit :=
  reset_created_entities;;
  game_folder ← EditorToolsApplicationRequestBus_GetGameFolder;
  set_project_path (os_path_dirname (os_path_dirname game_folder));;
  project_path ← get_project_path;
  print ("Project path: " +:+ project_path).

Definition create_entity (name : string) (parent_id : option EntityId) : M EntityId :=
  entity_id ← ToolsApplicationRequestBus_CreateNewEntity parent_id;
  EditorEntityAPIBus_SetName entity_id name;;
  print ("✓ Created entity: " +:+ name);;
  mret entity_id.

(** [component[0] if component else None] *)
Definition first_or_none (component : list ComponentId) : option ComponentId :=
  match component with
  | c :: _ => Some c
  | [] => None
  end.

(** Truth value of a list: non-empty. *)
Definition list_truthy {A} (l : list A) : bool :=
  match l with
  | [] => false
  | _ :: _ => true
  end.

(** Truth value of an optional handle: [None] is false. *)
Definition opt_truthy (c : option ComponentId) : bool :=
  match c with
  | Some c => truthy h c
  | None => false
  end.

Definition add_component (entity_id : EntityId) (component_type_name : string)
  : M (option ComponentId) :=
  component_type ←
    EditorComponentAPIBus_FindComponentTypeIdsByEntityType [component_type_name] 0;
  if list_truthy component_type then
    component ← EditorComponentAPIBus_AddComponentsOfType entity_id component_type;
    print ("  ✓ Added component: " +:+ component_type_name);;
    mret (first_or_none component)
  else
    print ("  ✗ Could not find component: " +:+ component_type_name);;
    mret None.

Definition set_component_property (entity_id : EntityId)
    (component_id : option ComponentId) (property_path : string) (value : Value)
  : M bool :=
  outcome_IsSuccess ←
    EditorComponentAPIBus_SetComponentProperty component_id property_path value;
  (if outcome_IsSuccess : bool then
     print ("    ✓ Set property: " +:+ property_path)
   else
     print ("    ✗ Failed to set property: " +:+ property_path));;
  mret outcome_IsSuccess.

Definition setup_camera_entity : M EntityId :=
  print (nl +:+ "=== Setting up Camera Entity ===");;
  camera_id ← create_entity "VehicleCamera" None;
  set_created_entity "camera" camera_id;;
  camera_component ← add_component camera_id "Camera";
  (if opt_truthy camera_component then
     set_component_property camera_id camera_component "Field of View"
       (VNum (PyFloat 90.0));;
     set_component_property camera_id camera_component "Near Clip Distance"
       (VNum (PyFloat 0.1));;
     set_component_property camera_id camera_component "Far Clip Distance"
       (VNum (PyFloat 1000.0));;
     mret tt
   else mret tt);;
  let transform :=
    Transform_CreateTranslation (Vector3 (PyFloat 0.0) (PyFloat (-10.0)) (PyFloat 5.0)) in
  EditorTransformComponentRequestBus_SetWorldTM camera_id transform;;
  mret camera_id.

Definition setup_vehicle_entity : M EntityId :=
  print (nl +:+ "=== Setting up Vehicle Entity ===");;
  vehicle_id ← create_entity "PlayerVehicle" None;
  set_created_entity "vehicle" vehicle_id;;
  mesh_component ← add_component vehicle_id "Mesh";
  rigid_body ← add_component vehicle_id "PhysX Rigid Body";
  (if opt_truthy rigid_body then
     set_component_property vehicle_id rigid_body "Initial linear velocity"
       (VVec (Vector3 (PyInt 0) (PyInt 0) (PyInt 0)));;
     set_component_property vehicle_id rigid_body "Mass" (VNum (PyFloat 1500.0));;
     mret tt
   else mret tt);;
  collider ← add_component vehicle_id "PhysX Collider";
  let transform :=
    Transform_CreateTranslation (Vector3 (PyFloat 0.0) (PyFloat 0.0) (PyFloat 1.0)) in
  EditorTransformComponentRequestBus_SetWorldTM vehicle_id transform;;
  mret vehicle_id.

Definition setup_game_manager : M EntityId :=
  print (nl +:+ "=== Setting up Game Manager ===");;
  manager_id ← create_entity "GameManager" None;
  set_created_entity "manager" manager_id;;
  script_component ← add_component manager_id "Script Canvas";
  mret manager_id.

Definition setup_ground_plane : M EntityId :=
  print (nl +:+ "=== Setting up Ground Plane ===");;
  ground_id ← create_entity "GroundPlane" None;
  set_created_entity "ground" ground_id;;
  mesh_component ← add_component ground_id "Mesh";
  collider ← add_component ground_id "PhysX Static Rigid Body";
  box_collider ← add_component ground_id "PhysX Collider";
  let transform :=
    Transform_CreateScale (Vector3 (PyFloat 100.0) (PyFloat 100.0) (PyFloat 1.0)) in
  EditorTransformComponentRequestBus_SetLocalTM ground_id transform;;
  mret ground_id.

Definition setup_lighting : M EntityId :=
  print (nl +:+ "=== Setting up Lighting ===");;
  light_id ← create_entity "DirectionalLight" None;
  set_created_entity "light" light_id;;
  light_component ← add_component light_id "Directional Light";
  let rotation :=
    Quaternion_CreateFromEulerAngles (Vector3 (PyFloat (-45.0)) (PyFloat 0.0) (PyFloat 0.0)) in
  let transform := Transform_CreateRotation rotation in
  EditorTransformComponentRequestBus_SetLocalTM light_id transform;;
  mret light_id.

Definition create_input_bindings : M bool :=
  print (nl +:+ "=== Creating Input Bindings ===");;
  project_path ← get_project_path;
  let input_folder := os_path_join project_path ["Config"; "Input"] in
  os_makedirs input_folder;;
  let input_file := os_path_join input_folder ["vehicle_camera.inputbindings"] in
  try_except
    (with_open_w input_file (fun f => json_dump bindings f 4);;
     print ("✓ Created input bindings: " +:+ input_file);;
     mret true)
    (fun e =>
     print ("✗ Failed to create input bindings: " +:+ e);;
     mret false).

Definition create_component_source_files : M bool :=
  print (nl +:+ "=== Creating Component Source Files ===");;
  project_path ← get_project_path;
  let gem_code_path := os_path_join project_path ["Gem"; "Code"; "Source"; "Components"] in
  os_makedirs gem_code_path;;
  try_except
    (let header_file := os_path_join gem_code_path ["VehicleCombatCameraComponent.h"] in
     let cpp_file := os_path_join gem_code_path ["VehicleCombatCameraComponent.cpp"] in
     with_open_w header_file (fun f => f_write f header_content);;
     print ("✓ Created: " +:+ header_file);;
     with_open_w cpp_file (fun f => f_write f cpp_content);;
     print ("✓ Created: " +:+ cpp_file);;
     mret true)
    (fun e =>
     print ("✗ Failed to create source files: " +:+ e);;
     mret false).

Definition create_readme : M bool :=
  print (nl +:+ "=== Creating README ===");;
  try_except
    (project_path ← get_project_path;
     let readme_file := os_path_join project_path ["CAMERA_SETUP_README.md"] in
     with_open_w readme_file (fun f => f_write f readme_content);;
     print ("✓ Created: " +:+ readme_file);;
     mret true)
    (fun e =>
     print ("✗ Failed to create README: " +:+ e);;
     mret false).

(** The body of the [try] block of [run_full_setup]. *)
Definition run_full_setup_body : M bool :=
  setup_camera_entity;;
  setup_vehicle_entity;;
  setup_game_manager;;
  setup_ground_plane;;
  setup_lighting;;
  create_input_bindings;;
  create_component_source_files;;
  create_readme;;
  print (nl +:+ str_mul "=" 60);;
  print "✓ SETUP COMPLETE!";;
  print (str_mul "=" 60);;
  print (nl +:+ "What was created:");;
  items ← created_entities_items;
  for_each items (fun item =>
    print ("  • " +:+ fst item +:+ ": Entity ID " +:+ str_entity h (snd item)));;
  print (nl +:+ "Next Steps:");;
  print "  1. Check the Entity Outliner (right side) - you'll see all entities";;
  print "  2. Read CAMERA_SETUP_README.md in your project folder";;
  print "  3. Add a mesh to the PlayerVehicle entity";;
  print "  4. Set up basic vehicle movement with Script Canvas";;
  print "  5. Make VehicleCamera the active camera";;
  print (nl +:+ "Files created:");;
  project_path ← get_project_path;
  print ("  • " +:+ os_path_join project_path ["CAMERA_SETUP_README.md"]);;
  print "  • Config/Input/vehicle_camera.inputbindings";;
  print "  • Gem/Code/Source/Components/VehicleCombatCameraComponent.*";;
  mret true.

Definition run_full_setup : M bool :=
  print (str_mul "=" 60);;
  print "O3DE Vehicle Combat Camera System - Automated Setup";;
  print (str_mul "=" 60);;
  try_except
    run_full_setup_body
    (fun e =>
     print (nl +:+ "✗ Setup failed with error: " +:+ e);;
     traceback_print_exc e;;
     mret false).

(** [main()]: the constructor runs outside any handler. *)
Definition main : M bool :=
  print (nl +:+ str_mul "=" 60);;
  print "Starting O3DE Camera System Setup...";;
  print (str_mul "=" 60 +:+ nl);;
  init;;
  success ← run_full_setup;
  (if success : bool then
     print (nl +:+ "🎉 All done! Check the Entity Outliner to see your new entities.");;
     print ("📖 Read CAMERA_SETUP_README.md for next steps." +:+ nl)
   else
     print (nl +:+ "❌ Setup encountered errors. Check the output above."));;
  mret success.

End Script.

(** The interpreter state before [main()] runs: no object yet, nothing
    observed, the files already on disk. *)
Definition boot (fs : gmap string string) : state :=
  {| created_entities := []; project_path := EmptyString; trace := []; files := fs |}.

(** * Vocabulary of the statements *)

(** ** What a computation may touch *)

(** A footprint bounds what a computation does to the registry, to the file
    store and which events it may emit.  Every computation of the script
    leaves [project_path] alone and only ever extends the trace. *)
Record Footprint := mkFootprint {
  reg_rel : relation (list (string * EntityId));
  fs_rel : relation (gmap string string);
  ev_ok : Event -> Prop
}.

(** The relations of a footprint compose. *)
Class Lawful (F : Footprint) := {
  lawful_reg :: PreOrder (reg_rel F);
  lawful_fs :: PreOrder (fs_rel F)
}.

(** The computation stays within the footprint, from every state. *)
Definition within (F : Footprint) {A} (m : M A) : Prop :=
  forall s, exists o evs reg' fs',
    m s = (o, mkState reg' (project_path s) (trace s ++ evs) fs')
    /\ reg_rel F (created_entities s) reg'
    /\ fs_rel F (files s) fs'
    /\ Forall (ev_ok F) evs.

(** ** Hosts and computations that do not raise *)

(** The host answered, it did not raise. *)
Definition returns {A} (o : outcome A) : Prop :=
  match o with
  | Return _ => True
  | Raise _ => False
  end.

(** The console accepts every line, whatever the history. *)
Definition console_accepts (h : Host) : Prop :=
  forall t line, returns (hStdout h t line).

(** A host none of whose calls raises, whatever the history, and whose
    console accepts every line. *)
Record host_succeeds (h : Host) : Prop := {
  succeeds_CreateNewEntity : forall t p, returns (hCreateNewEntity h t p);
  succeeds_SetName : forall t e n, returns (hSetName h t e n);
  succeeds_FindComponentTypeIds : forall t ns k, returns (hFindComponentTypeIds h t ns k);
  succeeds_AddComponentsOfType : forall t e tys, returns (hAddComponentsOfType h t e tys);
  succeeds_SetComponentProperty : forall t c p v, returns (hSetComponentProperty h t c p v);
  succeeds_SetWorldTM : forall t e tm, returns (hSetWorldTM h t e tm);
  succeeds_SetLocalTM : forall t e tm, returns (hSetLocalTM h t e tm);
  succeeds_Stdout : console_accepts h
}.

(** Whatever the state, the computation returns. *)
Definition never_raises {A} (m : M A) : Prop :=
  forall s, exists a s', m s = (Return a, s').

(** Whatever the computation returns satisfies [P]. *)
Definition returns_only {A} (P : A -> Prop) (m : M A) : Prop :=
  forall s a s', m s = (Return a, s') -> P a.

(** ** Stub hosts and fault plans used as concrete inputs *)

(** The event is the creation of an entity. *)
Definition is_create (e : Event) : bool :=
  match e with
  | Call (CreateNewEntity _) => true
  | _ => false
  end.

(** A stub editor that hands out fresh entity handles 100, 101, ..., resolves
    every component type except those listed in [missing] (the type id is the
    length of the name), and accepts every property and transform. *)
Definition stub_host (missing : list string) : Host :=
  {| hGetGameFolder := fun _ => Return "/home/dev/MyProject/Cache/pc";
     hCreateNewEntity := fun t _ =>
       Return (100 + N.of_nat (length (List.filter is_create t)))%N;
     hSetName := fun _ _ _ => Return tt;
     hFindComponentTypeIds := fun _ names _ =>
       Return (map (fun n => N.of_nat (String.length n))
                 (List.filter (fun n => negb (existsb (String.eqb n) missing)) names));
     hAddComponentsOfType := fun _ e tys => Return (map (fun ty => (e * 1000 + ty)%N) tys);
     hSetComponentProperty := fun _ _ _ _ => Return true;
     hSetWorldTM := fun _ _ _ => Return tt;
     hSetLocalTM := fun _ _ _ => Return tt;
     hStdout := fun _ _ => Return tt;
     truthy := fun _ => true;
     str_entity := fun e => pretty e |}.

(** A stub editor with canned answers: the same handle for every entity. *)
Definition canned_host : Host :=
  {| hGetGameFolder := fun _ => Return "/home/dev/MyProject/Cache/pc";
     hCreateNewEntity := fun _ _ => Return 7%N;
     hSetName := fun _ _ _ => Return tt;
     hFindComponentTypeIds := fun _ names _ => Return (map (fun _ => 1%N) names);
     hAddComponentsOfType := fun _ _ tys => Return tys;
     hSetComponentProperty := fun _ _ _ _ => Return false;
     hSetWorldTM := fun _ _ _ => Return tt;
     hSetLocalTM := fun _ _ _ => Return tt;
     hStdout := fun _ _ => Return tt;
     truthy := fun _ => true;
     str_entity := fun e => pretty e |}.

(** Every character of the line is in the ASCII range. *)
Definition is_ascii (line : string) : bool :=
  forallb (fun c => (N_of_ascii c <? 128)%N) (list_ascii_of_string line).

(** What [print] raises on a console that cannot encode a character. *)
Definition encode_error : exn :=
  "'ascii' codec can't encode character: ordinal not in range(128)".

(** The host [h] behind a console whose encoding is ASCII. *)
Definition ascii_console (h : Host) : Host :=
  {| hGetGameFolder := hGetGameFolder h;
     hCreateNewEntity := hCreateNewEntity h;
     hSetName := hSetName h;
     hFindComponentTypeIds := hFindComponentTypeIds h;
     hAddComponentsOfType := hAddComponentsOfType h;
     hSetComponentProperty := hSetComponentProperty h;
     hSetWorldTM := hSetWorldTM h;
     hSetLocalTM := hSetLocalTM h;
     hStdout := fun _ line => if is_ascii line then Return tt else Raise encode_error;
     truthy := truthy h;
     str_entity := str_entity h |}.

(** A stub editor that rejects the third entity it is asked to create. *)
Definition rejecting_host : Host :=
  {| hGetGameFolder := fun _ => Return "/home/dev/MyProject/Cache/pc";
     hCreateNewEntity := fun t _ =>
       if Nat.eqb (length (List.filter is_create t)) 2
       then Raise "entity limit reached"
       else Return (100 + N.of_nat (length (List.filter is_create t)))%N;
     hSetName := fun _ _ _ => Return tt;
     hFindComponentTypeIds := fun _ names _ => Return (map (fun _ => 1%N) names);
     hAddComponentsOfType := fun _ _ tys => Return tys;
     hSetComponentProperty := fun _ _ _ _ => Return true;
     hSetWorldTM := fun _ _ _ => Return tt;
     hSetLocalTM := fun _ _ _ => Return tt;
     hStdout := fun _ _ => Return tt;
     truthy := fun _ => true;
     str_entity := fun e => pretty e |}.

(** A healthy file system. *)
Definition no_faults : Faults :=
  {| makedirs_fault := fun _ => None;
     open_fault := fun _ => None;
     write_fault := fun _ => None |}.

(** Directories exist or can be made, but no file can be opened for writing. *)
Definition read_only_files : Faults :=
  {| makedirs_fault := fun _ => None;
     open_fault := fun _ => Some "[Errno 13] Permission denied";
     write_fault := fun _ => None |}.

(** The directory [dir] cannot be created; everything else works. *)
Definition unmakeable (dir : string) : Faults :=
  {| makedirs_fault := fun p =>
       if String.eqb p dir then Some "[Errno 30] Read-only file system" else None;
     open_fault := fun _ => None;
     write_fault := fun _ => None |}.

(** Everything works until the device is full: the write to [file] raises
    after [n] characters. *)
Definition short_write (file : string) (n : nat) : Faults :=
  {| makedirs_fault := fun _ => None;
     open_fault := fun _ => None;
     write_fault := fun p =>
       if String.eqb p file then Some (n, "[Errno 28] No space left on device")
       else None |}.

(** Files open, but the device is full: no character of a write gets through. *)
Definition disk_full : Faults :=
  {| makedirs_fault := fun _ => None;
     open_fault := fun _ => None;
     write_fault := fun _ => Some (0, "[Errno 28] No space left on device") |}.

(** A freshly constructed object for the project at [path], over the files
    [fs] already on disk. *)
Definition fresh (path : string) (fs : gmap string string) : state :=
  {| created_entities := []; project_path := path; trace := []; files := fs |}.

(** The state in which the [try] block of [run_full_setup] is entered, the
    console having accepted the three lines of the banner. *)
Definition after_banner (s : state) : state :=
  log (Stdout (str_mul "=" 60))
    (log (Stdout "O3DE Vehicle Combat Camera System - Automated Setup")
       (log (Stdout (str_mul "=" 60)) s)).

(** ** Classes of events *)

(** Bus calls. *)
Definition is_call (e : Event) : bool :=
  match e with
  | Call _ => true
  | _ => false
  end.

(** Calls that create, name or place an entity. *)
Definition entity_call (e : Event) : bool :=
  match e with
  | Call (CreateNewEntity _) | Call (SetName _ _)
  | Call (SetWorldTM _ _) | Call (SetLocalTM _ _) => true
  | _ => false
  end.

(** Property assignments. *)
Definition is_set_property (e : Event) : bool :=
  match e with
  | Call (SetComponentProperty _ _ _) => true
  | _ => false
  end.

(** Events of the file system. *)
Definition fs_event (e : Event) : bool :=
  match e with
  | Makedirs _ | OpenW _ | WriteTo _ _ => true
  | _ => false
  end.

(** Events [add_component] and [set_component_property] may emit. *)
Definition component_event (e : Event) : bool :=
  match e with
  | Call (FindComponentTypeIdsByEntityType _ _) | Call (AddComponentsOfType _ _)
  | Call (SetComponentProperty _ _ _) | Stdout _ => true
  | _ => false
  end.

(** Events [add_component] alone may emit. *)
Definition attach_event (e : Event) : bool :=
  match e with
  | Call (FindComponentTypeIdsByEntityType _ _) | Call (AddComponentsOfType _ _)
  | Stdout _ => true
  | _ => false
  end.

(** Events [create_entity] may emit. *)
Definition create_event (e : Event) : bool :=
  match e with
  | Call (CreateNewEntity _) | Call (SetName _ _) | Stdout _ => true
  | _ => false
  end.

(** ** Footprints of the methods *)

(** A relation that allows any change. *)
Definition any_change {A} : relation A := fun _ _ => True.

(** Changes nothing but the trace, and only with events accepted by [ok]. *)
Definition quiet (ok : Event -> bool) : Footprint :=
  mkFootprint eq eq (fun e => ok e = true).

(** The artifact writers and the final summary touch neither the host nor
    the registry. *)
Definition files_only : Footprint :=
  mkFootprint eq any_change (fun e => is_call e = false).

(** The handle is an answer of the host to a request to create an entity
    without parent. *)
Definition created_by (h : Host) (e : EntityId) : Prop :=
  exists t, hCreateNewEntity h t None = Return e.

(** The entity-level calls of a full scene build, for the five handles the
    host returned. *)
Definition scene_calls (camera vehicle manager ground light : EntityId) : list Event :=
  [Call (CreateNewEntity None); Call (SetName camera "VehicleCamera");
   Call (SetWorldTM camera
           (Transform_CreateTranslation
              (Vector3 (PyFloat 0.0) (PyFloat (-10.0)) (PyFloat 5.0))));
   Call (CreateNewEntity None); Call (SetName vehicle "PlayerVehicle");
   Call (SetWorldTM vehicle
           (Transform_CreateTranslation
              (Vector3 (PyFloat 0.0) (PyFloat 0.0) (PyFloat 1.0))));
   Call (CreateNewEntity None); Call (SetName manager "GameManager");
   Call (CreateNewEntity None); Call (SetName ground "GroundPlane");
   Call (SetLocalTM ground
           (Transform_CreateScale
              (Vector3 (PyFloat 100.0) (PyFloat 100.0) (PyFloat 1.0))));
   Call (CreateNewEntity None); Call (SetName light "DirectionalLight");
   Call (SetLocalTM light
           (Transform_CreateRotation
              (Quaternion_CreateFromEulerAngles
                 (Vector3 (PyFloat (-45.0)) (PyFloat 0.0) (PyFloat 0.0)))))].

(** ** Statements about single methods *)

(** The type lookup found at least one type. *)
Definition resolves (o : outcome (list TypeId)) : Prop :=
  match o with
  | Return (_ :: _) => True
  | _ => False
  end.

(** What [create_entity] does, answer by answer: it asks the host for a new
    entity under [parent_id], gives the handle it got the name [name],
    reports, and returns that handle.  Each of the three steps may raise;
    the registry is not touched ([log] only extends the trace). *)
Definition create_entity_outcome (h : Host) (name : string) (parent_id : option EntityId)
    (s : state) : outcome EntityId * state :=
  let created := log (Call (CreateNewEntity parent_id)) s in
  match hCreateNewEntity h (trace s) parent_id with
  | Raise x => (Raise x, created)
  | Return entity_id =>
      let named := log (Call (SetName entity_id name)) created in
      match hSetName h (trace created) entity_id name with
      | Raise x => (Raise x, named)
      | Return _ =>
          match hStdout h (trace named) ("✓ Created entity: " +:+ name) with
          | Raise x => (Raise x, named)
          | Return _ =>
              (Return entity_id, log (Stdout ("✓ Created entity: " +:+ name)) named)
          end
      end
  end.

(** The method [f] prints its header, calls [create_entity] and registers,
    under [role], the handle that call returned: it is in the registry when
    [f] ends, however [f] ends.  When the header is refused or
    [create_entity] raises, so does [f], in the same state. *)
Definition registers_after_create (h : Host) (role name header : string)
    (f : M EntityId) : Prop :=
  forall s,
    match print h (nl +:+ header) s with
    | (Raise x, s0) => f s = (Raise x, s0)
    | (Return _, s0) =>
        match create_entity h name None s0 with
        | (Return e, _) =>
            created_entities (snd (f s)) = dict_set role e (created_entities s)
        | (Raise x, s1) => f s = (Raise x, s1)
        end
    end.

(** The events a computation appends to the trace when run from [s]. *)
Definition emitted {A} (m : M A) (s : state) : list Event :=
  drop (length (trace s)) (trace (snd (m s))).

(** A property call is well-formed when its component argument is a handle,
    and one that Python treats as true. *)
Definition property_call_ok (h : Host) (e : Event) : Prop :=
  match e with
  | Call (SetComponentProperty c _ _) => opt_truthy h c = true
  | _ => True
  end.

(** Anything may change, but every property call is well-formed. *)
Definition guarded_properties (h : Host) : Footprint :=
  mkFootprint any_change any_change (property_call_ok h).

(** ** Where the artifacts go *)

(** The paths the writers compute from [self.project_path]. *)
Definition input_folder (project_path : string) : string :=
  os_path_join project_path ["Config"; "Input"].

Definition input_file (project_path : string) : string :=
  os_path_join (input_folder project_path) ["vehicle_camera.inputbindings"].

Definition gem_code_path (project_path : string) : string :=
  os_path_join project_path ["Gem"; "Code"; "Source"; "Components"].

Definition header_file (project_path : string) : string :=
  os_path_join (gem_code_path project_path) ["VehicleCombatCameraComponent.h"].

Definition cpp_file (project_path : string) : string :=
  os_path_join (gem_code_path project_path) ["VehicleCombatCameraComponent.cpp"].

Definition readme_file (project_path : string) : string :=
  os_path_join project_path ["CAMERA_SETUP_README.md"].

(** The directory prefix [os.path.join] builds from its first argument: the
    argument itself, followed by a separator unless it is empty or already
    ends with one. *)
Definition root (a : string) : string :=
  if str_empty a || endswith_sep a then a else a +:+ "/".

(** ** The input-binding catalogue *)

(** The records under the "bindings" key. *)
Definition binding_records : list json :=
  match json_field "bindings" bindings with
  | Some l => json_items l
  | None => []
  end.

(** The string stored under [key] in each record that has one. *)
Definition binding_fields (key : string) : list string :=
  omap (fun r => json_field key r ≫= json_string) binding_records.

(** ** Running the setup twice *)

(** A host with canned answers: what it answers does not depend on what was
    asked before. *)
Record history_independent (h : Host) : Prop := {
  same_CreateNewEntity : forall t t' p, hCreateNewEntity h t p = hCreateNewEntity h t' p;
  same_SetName : forall t t' e n, hSetName h t e n = hSetName h t' e n;
  same_FindComponentTypeIds :
    forall t t' ns k, hFindComponentTypeIds h t ns k = hFindComponentTypeIds h t' ns k;
  same_AddComponentsOfType :
    forall t t' e tys, hAddComponentsOfType h t e tys = hAddComponentsOfType h t' e tys;
  same_SetComponentProperty :
    forall t t' c p v, hSetComponentProperty h t c p v = hSetComponentProperty h t' c p v;
  same_SetWorldTM : forall t t' e tm, hSetWorldTM h t e tm = hSetWorldTM h t' e tm;
  same_SetLocalTM : forall t t' e tm, hSetLocalTM h t e tm = hSetLocalTM h t' e tm;
  same_Stdout : forall t t' line, hStdout h t line = hStdout h t' line
}.

(** For the project at [pp], the computation has one outcome [o] and one
    set [W] of whole-file writes, all to paths in [D], whatever the
    registry, the trace and the file store it starts from: the store it
    leaves is [W] laid over the store it found. *)
Definition fixed_effect (pp : string) (D : gset string) {A} (m : M A) : Prop :=
  exists (W : gmap string string) (o : outcome A),
    dom W ⊆ D
    /\ forall reg tr fs, exists reg' evs,
         m (mkState reg pp tr fs) = (o, mkState reg' pp (tr ++ evs) (W ∪ fs)).

(** The files a run may write, for the project at [pp]. *)
Definition artifact_files (pp : string) : gset string :=
  {[input_file pp; header_file pp; cpp_file pp; readme_file pp]}.

(** The scene-building methods leave the files alone. *)
Definition scene_footprint : Footprint := mkFootprint any_change eq (fun _ => True).

(** ** Further vocabulary: what the methods do beyond the scenarios above *)

(** The event is a request to create a directory. *)
Definition is_makedirs (e : Event) : bool :=
  match e with
  | Makedirs _ => true
  | _ => false
  end.

(** The string contains a path separator. *)
Fixpoint has_sep (x : string) : bool :=
  match x with
  | EmptyString => false
  | String c x' => is_sep c || has_sep x'
  end.

(** A directory path that ends with a name: not empty, no trailing
    separator. *)
Definition ends_with_name (x : string) : Prop :=
  str_empty x = false /\ endswith_sep x = false.

(** The state in which [main()] calls the constructor, the console having
    accepted the opening lines. *)
Definition main_started (s : state) : state :=
  log (Stdout (str_mul "=" 60 +:+ nl))
    (log (Stdout "Starting O3DE Camera System Setup...")
       (log (Stdout (nl +:+ str_mul "=" 60)) s)).

(** The object [__init__] builds when the host names [game_folder] and the
    console accepts the line that reports the project path. *)
Definition constructed (game_folder : string) (s : state) : state :=
  log (Stdout ("Project path: " +:+ os_path_dirname (os_path_dirname game_folder)))
    {| created_entities := [];
       project_path := os_path_dirname (os_path_dirname game_folder);
       trace := trace s ++ [Call GetGameFolder];
       files := files s |}.

(** The closing lines of [main()], accepted by the console. *)
Definition main_closing (success : bool) (s : state) : state :=
  if success then
    log (Stdout ("📖 Read CAMERA_SETUP_README.md for next steps." +:+ nl))
      (log (Stdout (nl +:+ "🎉 All done! Check the Entity Outliner to see your new entities.")) s)
  else
    log (Stdout (nl +:+ "❌ Setup encountered errors. Check the output above.")) s.



(** Calls that attach or configure a component. *)
Definition is_attach_call (e : Event) : bool :=
  match e with
  | Call (AddComponentsOfType _ _) | Call (SetComponentProperty _ _ _) => true
  | _ => false
  end.

(** Nothing may be attached or configured. *)
Definition no_attachment : Footprint :=
  mkFootprint any_change any_change (fun e => is_attach_call e = false).

(** A stub editor in which no component type is installed. *)
Definition bare_host : Host :=
  {| hGetGameFolder := fun _ => Return "/home/dev/MyProject/Cache/pc";
     hCreateNewEntity := fun t _ =>
       Return (100 + N.of_nat (length (List.filter is_create t)))%N;
     hSetName := fun _ _ _ => Return tt;
     hFindComponentTypeIds := fun _ _ _ => Return [];
     hAddComponentsOfType := fun _ _ _ => Return [];
     hSetComponentProperty := fun _ _ _ _ => Return true;
     hSetWorldTM := fun _ _ _ => Return tt;
     hSetLocalTM := fun _ _ _ => Return tt;
     hStdout := fun _ _ => Return tt;
     truthy := fun _ => true;
     str_entity := fun e => pretty e |}.

(** Whenever the method [f] returns, the handle it returns is the one
    registered under [role], and the entries of the other roles are as they
    were. *)
Definition returns_registered (role : string) (f : M EntityId) : Prop :=
  forall s e s',
    f s = (Return e, s') ->
    dict_get role (created_entities s') = Some e
    /\ forall k, k <> role ->
         dict_get k (created_entities s') = dict_get k (created_entities s).

(** ** The order of host calls and file operations *)

(** Whatever happens to the registry, the files stay as they are and no
    file-system event is emitted. *)
Definition host_only : Footprint :=
  mkFootprint any_change eq (fun e => fs_event e = false).

(** The host is used before the file system: the events the computation
    emits split into a first part without file-system events and a second
    part without bus calls. *)
Definition host_then_files {A} (m : M A) : Prop :=
  forall s, exists before after,
    trace (snd (m s)) = trace s ++ before ++ after
    /\ List.filter fs_event before = []
    /\ List.filter is_call after = [].

(** When the computation raises, it has not touched the file system. *)
Definition raises_before_files {A} (m : M A) : Prop :=
  forall s e s1,
    m s = (Raise e, s1) ->
    files s1 = files s
    /\ exists evs, trace s1 = trace s ++ evs /\ List.filter fs_event evs = [].

(** ** What the host is asked to attach, and to which entities *)

(** A request to attach components names at least one type; a lookup asks
    for one type name, among the components of game entities. *)
Definition attach_call_ok (e : Event) : Prop :=
  match e with
  | Call (AddComponentsOfType _ tys) => tys <> []
  | Call (FindComponentTypeIdsByEntityType names entity_type) =>
      length names = 1 /\ entity_type = 0%Z
  | _ => True
  end.

Definition guarded_attachments : Footprint :=
  mkFootprint any_change any_change attach_call_ok.

(** A call that names, equips or places an entity does so for a handle the
    host returned for a creation request. *)
Definition own_entity_call (h : Host) (e : Event) : Prop :=
  match e with
  | Call (SetName entity_id _) | Call (AddComponentsOfType entity_id _)
  | Call (SetWorldTM entity_id _) | Call (SetLocalTM entity_id _) =>
      created_by h entity_id
  | Call (CreateNewEntity parent_id) => parent_id = None
  | _ => True
  end.

Definition own_entities (h : Host) : Footprint :=
  mkFootprint any_change any_change (own_entity_call h).

(** ** The closing report *)

(** What a run that reaches the end of its body prints last: the list of
    registered entities, the next steps and the files. *)
Definition closing_report (h : Host) (reg : list (string * EntityId)) (pp : string)
  : list Event :=
  [Stdout (nl +:+ str_mul "=" 60); Stdout "✓ SETUP COMPLETE!"; Stdout (str_mul "=" 60);
   Stdout (nl +:+ "What was created:")]
  ++ map (fun item => Stdout ("  • " +:+ fst item +:+ ": Entity ID " +:+ str_entity h (snd item)))
       reg
  ++ [Stdout (nl +:+ "Next Steps:");
      Stdout "  1. Check the Entity Outliner (right side) - you'll see all entities";
      Stdout "  2. Read CAMERA_SETUP_README.md in your project folder";
      Stdout "  3. Add a mesh to the PlayerVehicle entity";
      Stdout "  4. Set up basic vehicle movement with Script Canvas";
      Stdout "  5. Make VehicleCamera the active camera";
      Stdout (nl +:+ "Files created:");
      Stdout ("  • " +:+ readme_file pp);
      Stdout "  • Config/Input/vehicle_camera.inputbindings";
      Stdout "  • Gem/Code/Source/Components/VehicleCombatCameraComponent.*"].

(** A writer whose failures stay inside: it returns, leaves the registry and
    the project path alone, and when no file can be opened it leaves the
    file store as it was. *)
Definition contained_writer (fp : Faults) (m : M bool) : Prop :=
  forall s, exists b s1,
    m s = (Return b, s1)
    /\ created_entities s1 = created_entities s
    /\ project_path s1 = project_path s
    /\ ((forall p, open_fault fp p <> None) -> files s1 = files s).

(** * Reasoning about runs *)

(** Facts about string concatenation. *)
Lemma str_app_cons (x : ascii) (a b : string) : String x a +:+ b = String x (a +:+ b).
Proof. reflexivity. Qed.

Lemma str_app_assoc (a b c : string) : (a +:+ b) +:+ c = a +:+ (b +:+ c).
Proof. induction a as [|x a IH]; [done|]. by rewrite !str_app_cons, IH. Qed.

Lemma str_empty_app (a b : string) : str_empty b = false -> str_empty (a +:+ b) = false.
Proof. by destruct a, b. Qed.

Lemma endswith_sep_app (a b : string) :
  str_empty b = false -> endswith_sep (a +:+ b) = endswith_sep b.
Proof.
  intros Hb. induction a as [|x a IH]; [done|].
  rewrite str_app_cons. cbn [endswith_sep]. rewrite IH.
  destruct (a +:+ b) eqn:Hab; [|done].
  by destruct a, b.
Qed.

Arguments String.append : simpl never.
Arguments os_path_join : simpl never.
Arguments json_dumps : simpl never.
Arguments str_mul : simpl never.

(** Unfold the monad and the primitive operations, leaving the host's
    answers and the fault plan's verdicts as the only things to case on. *)
Ltac unfold_prims :=
  unfold EditorToolsApplicationRequestBus_GetGameFolder,
    ToolsApplicationRequestBus_CreateNewEntity, EditorEntityAPIBus_SetName,
    EditorComponentAPIBus_FindComponentTypeIdsByEntityType,
    EditorComponentAPIBus_AddComponentsOfType,
    EditorComponentAPIBus_SetComponentProperty,
    EditorTransformComponentRequestBus_SetWorldTM,
    EditorTransformComponentRequestBus_SetLocalTM,
    with_open_w, json_dump, os_makedirs, open_w, f_write,
    bus, print, traceback_print_exc, set_created_entity, get_project_path,
    created_entities_items, reset_created_entities, set_project_path,
    try_except, log, set_files,
    mbind, M_bind, mret, M_ret in *.

Lemma run_bind {A B} (m : M A) (k : A -> M B) (s : state) :
  (m ≫= k) s =
  match m s with
  | (Return a, s') => k a s'
  | (Raise e, s') => (Raise e, s')
  end.
Proof. reflexivity. Qed.

Lemma run_try {A} (body : M A) (handler : exn -> M A) (s : state) :
  try_except body handler s =
  match body s with
  | (Return a, s') => (Return a, s')
  | (Raise e, s') => handler e s'
  end.
Proof. reflexivity. Qed.

(** [print] on a console that accepts the line. *)
Lemma print_accepted (h : Host) (line : string) (s : state) :
  returns (hStdout h (trace s) line) ->
  print h line s = (Return tt, log (Stdout line) s).
Proof. unfold print. by destruct (hStdout h (trace s) line) as [[]|e]. Qed.

Lemma print_then {B} (h : Host) (line : string) (k : M B) (s : state) :
  returns (hStdout h (trace s) line) ->
  (print h line ≫= fun _ => k) s = k (log (Stdout line) s).
Proof. intros Hl. by rewrite run_bind, print_accepted. Qed.

(** ** Footprints *)

Section Footprints.

Context (F : Footprint) `{!Lawful F}.

Lemma within_ret {A} (a : A) : within F (mret a).
Proof.
  intros s. exists (Return a), [], (created_entities s), (files s).
  rewrite app_nil_r. split_and!; [by destruct s | done | done | constructor].
Qed.

Lemma within_bind {A B} (m : M A) (k : A -> M B) :
  within F m -> (forall a, within F (k a)) -> within F (m ≫= k).
Proof.
  intros Hm Hk s. rewrite run_bind.
  destruct (Hm s) as (o & evs & reg1 & fs1 & -> & Hr & Hf & He).
  destruct o as [a|e].
  - destruct (Hk a (mkState reg1 (project_path s) (trace s ++ evs) fs1))
      as (o2 & evs2 & reg2 & fs2 & -> & Hr2 & Hf2 & He2); cbn in *.
    exists o2, (evs ++ evs2), reg2, fs2. rewrite app_assoc.
    split_and!; [done | by etrans | by etrans | by apply Forall_app].
  - by exists (Raise e), evs, reg1, fs1.
Qed.

Lemma within_try {A} (body : M A) (handler : exn -> M A) :
  within F body -> (forall e, within F (handler e)) -> within F (try_except body handler).
Proof.
  intros Hm Hk s. rewrite run_try.
  destruct (Hm s) as (o & evs & reg1 & fs1 & -> & Hr & Hf & He).
  destruct o as [a|e].
  - by exists (Return a), evs, reg1, fs1.
  - destruct (Hk e (mkState reg1 (project_path s) (trace s ++ evs) fs1))
      as (o2 & evs2 & reg2 & fs2 & -> & Hr2 & Hf2 & He2); cbn in *.
    exists o2, (evs ++ evs2), reg2, fs2. rewrite app_assoc.
    split_and!; [done | by etrans | by etrans | by apply Forall_app].
Qed.

Lemma within_for_each {A} (l : list A) (body : A -> M unit) :
  (forall x, within F (body x)) -> within F (for_each l body).
Proof.
  intros Hb. induction l as [|x l IH]; cbn [for_each].
  - apply within_ret.
  - apply within_bind; auto.
Qed.

Lemma within_emit (e : Event) :
  ev_ok F e -> within F (fun s => (Return tt, log e s)).
Proof.
  intros He s. exists (Return tt), [e], (created_entities s), (files s).
  split_and!; [done | done | done | by constructor].
Qed.

Lemma within_print (h : Host) (line : string) :
  ev_ok F (Stdout line) -> within F (print h line).
Proof.
  intros He s. unfold print. destruct (hStdout h (trace s) line) as [[]|e].
  - exists (Return tt), [Stdout line], (created_entities s), (files s).
    split_and!; [done | done | done | by constructor].
  - exists (Raise e), [], (created_entities s), (files s).
    rewrite app_nil_r. split_and!; [by destruct s | done | done | constructor].
Qed.

Lemma within_traceback (e : exn) : ev_ok F (Traceback e) -> within F (traceback_print_exc e).
Proof. apply within_emit. Qed.

Lemma within_bus {A} (c : HostCall) (answer : list Event -> outcome A) :
  ev_ok F (Call c) -> within F (bus c answer).
Proof.
  intros He s. exists (answer (trace s)), [Call c], (created_entities s), (files s).
  split_and!; [done | done | done | by constructor].
Qed.

Lemma within_get_project_path : within F get_project_path.
Proof.
  intros s. exists (Return (project_path s)), [], (created_entities s), (files s).
  rewrite app_nil_r. split_and!; [by destruct s | done | done | constructor].
Qed.

Lemma within_items : within F created_entities_items.
Proof.
  intros s. exists (Return (created_entities s)), [], (created_entities s), (files s).
  rewrite app_nil_r. split_and!; [by destruct s | done | done | constructor].
Qed.

Lemma within_set_created_entity (role : string) (e : EntityId) :
  (forall reg, reg_rel F reg (dict_set role e reg)) ->
  within F (set_created_entity role e).
Proof.
  intros Hr s. exists (Return tt), [], (dict_set role e (created_entities s)), (files s).
  rewrite app_nil_r. split_and!; [done | done | done | constructor].
Qed.

Lemma within_makedirs (fp : Faults) (path : string) :
  ev_ok F (Makedirs path) -> within F (os_makedirs fp path).
Proof.
  intros He s. unfold os_makedirs.
  eexists _, [Makedirs path], (created_entities s), (files s).
  split_and!; [done | done | done | by constructor].
Qed.

Lemma within_open_w (fp : Faults) (path : string) :
  ev_ok F (OpenW path) ->
  (forall fs, fs_rel F fs (<[path := EmptyString]> fs)) ->
  within F (open_w fp path).
Proof.
  intros He Hf s. unfold open_w. destruct (open_fault fp path) as [e|].
  - exists (Raise e), [OpenW path], (created_entities s), (files s).
    split_and!; [done | done | done | by constructor].
  - eexists (Return path), [OpenW path], (created_entities s), _.
    split_and!; [done | done | apply Hf | by constructor].
Qed.

Lemma within_f_write (fp : Faults) (f data : string) :
  ev_ok F (WriteTo f data) ->
  (forall fs c, fs_rel F fs (<[f := c]> fs)) ->
  within F (f_write fp f data).
Proof.
  intros He Hf s. unfold f_write. destruct (write_fault fp f) as [[n e]|].
  - eexists (Raise e), [WriteTo f data], (created_entities s), _.
    split_and!; [done | done | apply Hf | by constructor].
  - eexists (Return tt), [WriteTo f data], (created_entities s), _.
    split_and!; [done | done | apply Hf | by constructor].
Qed.

Lemma within_with_open_w {A} (fp : Faults) (path : string) (body : string -> M A) :
  ev_ok F (OpenW path) ->
  (forall fs, fs_rel F fs (<[path := EmptyString]> fs)) ->
  within F (body path) ->
  within F (with_open_w fp path body).
Proof.
  intros He Hf Hb s. unfold with_open_w. rewrite run_bind.
  destruct (within_open_w fp path He Hf s) as (o & evs & reg1 & fs1 & Hrun & Hr & Hfs & Hev).
  rewrite Hrun.
  assert (o = Raise (default EmptyString (open_fault fp path)) \/ o = Return path) as [->| ->].
  { unfold open_w in Hrun. destruct (open_fault fp path); inversion Hrun; auto. }
  - by eexists _, evs, reg1, fs1.
  - destruct (Hb (mkState reg1 (project_path s) (trace s ++ evs) fs1))
      as (o2 & evs2 & reg2 & fs2 & -> & Hr2 & Hf2 & He2); cbn in *.
    exists o2, (evs ++ evs2), reg2, fs2. rewrite app_assoc.
    split_and!; [done | by etrans | by etrans | by apply Forall_app].
Qed.

End Footprints.

Lemma within_if {A} (F : Footprint) (b : bool) (m1 m2 : M A) :
  (b = true -> within F m1) -> (b = false -> within F m2) ->
  within F (if b then m1 else m2).
Proof. destruct b; auto. Qed.

(** A syntax-directed proof of [within]: one rule per construct, leaving the
    conditions on events and relations as goals. *)
Ltac within_step :=
  lazymatch goal with
  | |- Lawful _ => apply _
  | |- within _ (mret _) => apply within_ret
  | |- within _ (_ ≫= _) => apply within_bind; [ | | intros ?]
  | |- within _ (try_except _ _) => apply within_try; [ | | intros ?]
  | |- within _ (for_each _ _) => apply within_for_each; [ | intros ?]
  | |- within _ (if _ then _ else _) => apply within_if; intros ?
  | |- within _ (print _ _) => apply within_print
  | |- within _ (traceback_print_exc _) => apply within_traceback
  | |- within _ (bus _ _) => apply within_bus
  | |- within _ get_project_path => apply within_get_project_path
  | |- within _ created_entities_items => apply within_items
  | |- within _ (set_created_entity _ _) => apply within_set_created_entity
  | |- within _ (os_makedirs _ _) => apply within_makedirs
  | |- within _ (with_open_w _ _ _) => apply within_with_open_w
  | |- within _ (f_write _ _ _) => apply within_f_write
  | |- within _ (json_dump _ _ _ _) => unfold json_dump
  | |- within _ (ToolsApplicationRequestBus_CreateNewEntity _ _) =>
      unfold ToolsApplicationRequestBus_CreateNewEntity
  | |- within _ (EditorEntityAPIBus_SetName _ _ _) =>
      unfold EditorEntityAPIBus_SetName
  | |- within _ (EditorComponentAPIBus_FindComponentTypeIdsByEntityType _ _ _) =>
      unfold EditorComponentAPIBus_FindComponentTypeIdsByEntityType
  | |- within _ (EditorComponentAPIBus_AddComponentsOfType _ _ _) =>
      unfold EditorComponentAPIBus_AddComponentsOfType
  | |- within _ (EditorComponentAPIBus_SetComponentProperty _ _ _ _) =>
      unfold EditorComponentAPIBus_SetComponentProperty
  | |- within _ (EditorTransformComponentRequestBus_SetWorldTM _ _ _) =>
      unfold EditorTransformComponentRequestBus_SetWorldTM
  | |- within _ (EditorTransformComponentRequestBus_SetLocalTM _ _ _) =>
      unfold EditorTransformComponentRequestBus_SetLocalTM
  end.

Ltac within_auto := repeat within_step.

(** ** Computations that cannot raise *)

Lemma returns_only_ret {A} (P : A -> Prop) (a : A) : P a -> returns_only P (mret a).
Proof. intros HP s a' s' [= <- _]. exact HP. Qed.

Lemma returns_only_bind {A B} (P : B -> Prop) (m : M A) (k : A -> M B) :
  (forall a, returns_only P (k a)) -> returns_only P (m ≫= k).
Proof.
  intros Hk s b s'. rewrite run_bind.
  destruct (m s) as [[a|e] s1]; [apply Hk | discriminate].
Qed.

Lemma never_raises_ret {A} (a : A) : never_raises (mret a).
Proof. intros s. by exists a, s. Qed.

Lemma never_raises_bind {A B} (m : M A) (k : A -> M B) :
  never_raises m -> (forall a, never_raises (k a)) -> never_raises (m ≫= k).
Proof.
  intros Hm Hk s. rewrite run_bind.
  destruct (Hm s) as (a & s1 & ->). apply Hk.
Qed.

Lemma never_raises_try {A} (body : M A) (handler : exn -> M A) :
  (forall e, never_raises (handler e)) -> never_raises (try_except body handler).
Proof.
  intros Hh s. rewrite run_try.
  destruct (body s) as [[a|e] s1]; [by exists a, s1 | apply Hh].
Qed.

Lemma never_raises_for_each {A} (l : list A) (body : A -> M unit) :
  (forall x, never_raises (body x)) -> never_raises (for_each l body).
Proof.
  intros Hb. induction l as [|x l IH]; cbn [for_each].
  - apply never_raises_ret.
  - apply never_raises_bind; auto.
Qed.

Lemma never_raises_if {A} (b : bool) (m1 m2 : M A) :
  never_raises m1 -> never_raises m2 -> never_raises (if b then m1 else m2).
Proof. by destruct b. Qed.

Lemma never_raises_print (h : Host) (line : string) :
  console_accepts h -> never_raises (print h line).
Proof.
  intros Hcon s. unfold print. specialize (Hcon (trace s) line).
  destruct (hStdout h (trace s) line) as [[]|e]; [by eexists _, _ | done].
Qed.

Lemma never_raises_traceback (e : exn) : never_raises (traceback_print_exc e).
Proof. intros s. by eexists _, _. Qed.

Lemma never_raises_set_created_entity role e : never_raises (set_created_entity role e).
Proof. intros s. by eexists _, _. Qed.

Lemma never_raises_get_project_path : never_raises get_project_path.
Proof. intros s. by eexists _, _. Qed.

Lemma never_raises_items : never_raises created_entities_items.
Proof. intros s. by eexists _, _. Qed.

Lemma never_raises_bus {A} (c : HostCall) (answer : list Event -> outcome A) :
  (forall t, returns (answer t)) -> never_raises (bus c answer).
Proof.
  intros Ha s. unfold bus. specialize (Ha (trace s)).
  destruct (answer (trace s)) as [a|e]; [by eexists _, _ | done].
Qed.

Lemma never_raises_makedirs (fp : Faults) (path : string) :
  makedirs_fault fp path = None -> never_raises (os_makedirs fp path).
Proof. intros Hp s. unfold os_makedirs. rewrite Hp. by eexists _, _. Qed.

Create HintDb total discriminated.

#[export] Hint Resolve never_raises_ret never_raises_bind never_raises_try
  never_raises_for_each never_raises_if never_raises_print never_raises_traceback
  never_raises_set_created_entity never_raises_get_project_path never_raises_items
  never_raises_makedirs succeeds_Stdout : total.

Section WritersTotality.

Variable h : Host.
Variable fp : Faults.
Hypothesis Hcon : console_accepts h.

(** The three artifact writers, on a console that accepts their lines: a
    failure to open or to write is caught; only [os.makedirs], which runs
    before the [try], can escape. *)
Lemma create_readme_never_raises : never_raises (create_readme h fp).
Proof. unfold create_readme. auto 20 with total. Qed.

Lemma create_input_bindings_never_raises :
  (forall p, makedirs_fault fp p = None) -> never_raises (create_input_bindings h fp).
Proof. intros Hd. unfold create_input_bindings. auto 20 with total. Qed.

Lemma create_component_source_files_never_raises :
  (forall p, makedirs_fault fp p = None) ->
  never_raises (create_component_source_files h fp).
Proof. intros Hd. unfold create_component_source_files. auto 20 with total. Qed.

End WritersTotality.

Section Totality.

Variable h : Host.
Variable fp : Faults.
Hypothesis Hh : host_succeeds h.

Lemma create_entity_never_raises name parent : never_raises (create_entity h name parent).
Proof.
  unfold create_entity.
  repeat (apply never_raises_bind; [|intros]); auto with total;
    apply never_raises_bus; intros; apply Hh.
Qed.

Lemma add_component_never_raises e n : never_raises (add_component h e n).
Proof.
  unfold add_component.
  apply never_raises_bind; [apply never_raises_bus; intros; apply Hh|].
  intros tys. apply never_raises_if.
  - repeat (apply never_raises_bind; [|intros]); auto with total.
    apply never_raises_bus; intros; apply Hh.
  - auto with total.
Qed.

Lemma set_component_property_never_raises e c p v :
  never_raises (set_component_property h e c p v).
Proof.
  unfold set_component_property.
  apply never_raises_bind; [apply never_raises_bus; intros; apply Hh|].
  intros b. auto with total.
Qed.

Hint Resolve create_entity_never_raises add_component_never_raises
  set_component_property_never_raises : total.

Lemma SetWorldTM_never_raises e tm :
  never_raises (EditorTransformComponentRequestBus_SetWorldTM h e tm).
Proof. apply never_raises_bus; intros; apply Hh. Qed.

Lemma SetLocalTM_never_raises e tm :
  never_raises (EditorTransformComponentRequestBus_SetLocalTM h e tm).
Proof. apply never_raises_bus; intros; apply Hh. Qed.

Hint Resolve SetWorldTM_never_raises SetLocalTM_never_raises : total.

Lemma setup_camera_entity_never_raises : never_raises (setup_camera_entity h).
Proof. unfold setup_camera_entity. auto 20 with total. Qed.

Lemma setup_vehicle_entity_never_raises : never_raises (setup_vehicle_entity h).
Proof. unfold setup_vehicle_entity. auto 20 with total. Qed.

Lemma setup_game_manager_never_raises : never_raises (setup_game_manager h).
Proof. unfold setup_game_manager. auto 20 with total. Qed.

Lemma setup_ground_plane_never_raises : never_raises (setup_ground_plane h).
Proof. unfold setup_ground_plane. auto 20 with total. Qed.

Lemma setup_lighting_never_raises : never_raises (setup_lighting h).
Proof. unfold setup_lighting. auto 20 with total. Qed.

Hint Resolve setup_camera_entity_never_raises setup_vehicle_entity_never_raises
  setup_game_manager_never_raises setup_ground_plane_never_raises
  setup_lighting_never_raises create_readme_never_raises
  create_input_bindings_never_raises create_component_source_files_never_raises : total.

Lemma run_full_setup_body_never_raises :
  (forall p, makedirs_fault fp p = None) -> never_raises (run_full_setup_body h fp).
Proof. intros Hd. unfold run_full_setup_body. auto 40 with total. Qed.

End Totality.

Lemma run_full_setup_body_returns_true (h : Host) (fp : Faults) :
  returns_only (fun b => b = true) (run_full_setup_body h fp).
Proof.
  unfold run_full_setup_body.
  repeat (apply returns_only_bind; intros). by apply returns_only_ret.
Qed.

(** * The stubs are what they are meant to be *)

Lemma stub_host_succeeds (missing : list string) : host_succeeds (stub_host missing).
Proof. by split. Qed.


(** * The orchestrator's aggregate result *)

(** On a console that accepts the banner, [run_full_setup] is its [try]
    statement, entered after the three banner lines. *)
Lemma run_full_setup_try (h : Host) (fp : Faults) (s : state) :
  console_accepts h ->
  run_full_setup h fp s =
  try_except (run_full_setup_body h fp)
    (fun e => print h (nl +:+ "✗ Setup failed with error: " +:+ e);;
              traceback_print_exc e;; mret false) (after_banner s).
Proof.
  intros Hcon. unfold run_full_setup, after_banner.
  by rewrite !print_then by apply Hcon.
Qed.

(** The part of C1 that holds, on a console that accepts what the script
    prints: [run_full_setup] then never raises.  It returns [True] exactly
    when its body runs to the end, and the body's result does not depend on
    what the individual steps reported: against a host whose calls do not
    raise and a file system where directories can be made, the run returns
    [True] whatever the fault plan does to opening and writing files (so
    also when all three artifact writers return [False]).  When an exception
    escapes a step, the handler prints the diagnostic line, prints the
    traceback and the run returns [False]. *)
Lemma run_full_setup_aggregate (h : Host) (fp : Faults) (s : state) :
  console_accepts h ->
  match run_full_setup_body h fp (after_banner s) with
  | (Return _, s1) => run_full_setup h fp s = (Return true, s1)
  | (Raise e, s1) =>
      run_full_setup h fp s =
      (Return false,
       log (Traceback e) (log (Stdout (nl +:+ "✗ Setup failed with error: " +:+ e)) s1))
  end
  /\ (host_succeeds h -> (forall p, makedirs_fault fp p = None) ->
      exists s', run_full_setup h fp s = (Return true, s')).
Proof.
  intros Hcon.
  assert (Hmatch :
    match run_full_setup_body h fp (after_banner s) with
    | (Return _, s1) => run_full_setup h fp s = (Return true, s1)
    | (Raise e, s1) =>
        run_full_setup h fp s =
        (Return false,
         log (Traceback e) (log (Stdout (nl +:+ "✗ Setup failed with error: " +:+ e)) s1))
    end).
  { rewrite run_full_setup_try, run_try by done.
    destruct (run_full_setup_body h fp (after_banner s)) as [[b|e] s1] eqn:Hbody.
    - by rewrite (run_full_setup_body_returns_true h fp _ _ _ Hbody).
    - by rewrite print_then by apply Hcon. }
  split; [exact Hmatch|].
  intros Hh Hd.
  destruct (run_full_setup_body_never_raises h fp Hh Hd (after_banner s)) as (b & s1 & Hbody).
  rewrite Hbody in Hmatch. by exists s1.
Qed.

(** Every file refuses to open, all three writers report failure, and the
    run still reports success. *)
Example run_with_no_file_written :
  exists s', run_full_setup (stub_host []) read_only_files (fresh "/proj" ∅) = (Return true, s').
Proof.
  destruct (run_full_setup_aggregate (stub_host []) read_only_files (fresh "/proj" ∅))
    as [_ H]; [by intros t line|].
  apply H; [apply stub_host_succeeds | reflexivity].
Qed.

(** When the handler's own line is refused, nothing stands between the
    exception and the caller: whatever state the failed step left, the
    console's exception leaves [run_full_setup]. *)
Lemma refused_diagnostic_escapes (h : Host) (fp : Faults) (s s1 : state) (e e' : exn) :
  try_except (run_full_setup_body h fp)
    (fun e => print h (nl +:+ "✗ Setup failed with error: " +:+ e);;
              traceback_print_exc e;; mret false) s = (Raise e', s1) ->
  exists e, run_full_setup_body h fp s = (Raise e, s1)
            /\ hStdout h (trace s1) (nl +:+ "✗ Setup failed with error: " +:+ e) = Raise e'.
Proof.
  rewrite run_try.
  destruct (run_full_setup_body h fp s) as [[b|x] s2] eqn:Hbody; [discriminate|].
  rewrite run_bind. unfold print at 1.
  destruct (hStdout h (trace s2) (nl +:+ "✗ Setup failed with error: " +:+ x)) as [[]|x'] eqn:Hp.
  - discriminate.
  - intros [= <- <-]. by exists x.
Qed.

(** C1, at a failing input.  The console cannot encode the check mark.  All
    host calls succeed and the file system is healthy, yet the first report
    line of [create_entity] raises inside the [try]; the handler catches
    that, and its own diagnostic line, which starts with a cross mark, is
    refused too.  The second exception leaves [run_full_setup]: the run
    returns nothing, prints no diagnostic and no traceback.  One entity has
    been created and named; it is not registered. *)
Theorem refused_diagnostic_leaves_the_run :
  run_full_setup (ascii_console (stub_host [])) no_faults (fresh "/proj" ∅)
  = (Raise encode_error,
     {| created_entities := [];
        project_path := "/proj";
        trace := [Stdout (str_mul "=" 60);
                  Stdout "O3DE Vehicle Combat Camera System - Automated Setup";
                  Stdout (str_mul "=" 60);
                  Stdout (nl +:+ "=== Setting up Camera Entity ===");
                  Call (CreateNewEntity None);
                  Call (SetName 100%N "VehicleCamera")];
        files := ∅ |}).
Proof. by vm_compute. Qed.

(** * What each method may do *)

#[export] Instance any_change_preorder {A} : PreOrder (@any_change A).
Proof. by split. Qed.

#[export] Instance lawful_footprint R1 R2 ok :
  PreOrder R1 -> PreOrder R2 -> Lawful (mkFootprint R1 R2 ok).
Proof. by split. Qed.

(** An explicit reading of [within] for a quiet computation. *)
Lemma quiet_run {A} (ok : Event -> bool) (m : M A) reg pp tr fs :
  within (quiet ok) m ->
  exists o evs, m (mkState reg pp tr fs) = (o, mkState reg pp (tr ++ evs) fs)
                /\ Forall (fun e => ok e = true) evs.
Proof.
  intros Hm. destruct (Hm (mkState reg pp tr fs)) as (o & evs & reg' & fs' & Hrun & Hr & Hf & He).
  cbn in *. subst. by exists o, evs.
Qed.

Lemma quiet_total_run {A} (ok : Event -> bool) (m : M A) reg pp tr fs :
  within (quiet ok) m -> never_raises m ->
  exists a evs, m (mkState reg pp tr fs) = (Return a, mkState reg pp (tr ++ evs) fs)
                /\ Forall (fun e => ok e = true) evs.
Proof.
  intros Hm Ht. destruct (quiet_run ok m reg pp tr fs Hm) as (o & evs & Hrun & He).
  destruct (Ht (mkState reg pp tr fs)) as (a & s' & Hret).
  rewrite Hrun in Hret. injection Hret as -> _. by exists a, evs.
Qed.

Lemma filter_none {A} (f g : A -> bool) (l : list A) :
  (forall x, g x = true -> f x = false) ->
  Forall (fun x => g x = true) l -> List.filter f l = [].
Proof.
  intros Hfg Hl. induction Hl as [|x l Hx Hl IH]; [done|].
  cbn. by rewrite (Hfg x Hx).
Qed.

Lemma attach_no_entity_call evs :
  Forall (fun e => attach_event e = true) evs -> List.filter entity_call evs = [].
Proof. apply filter_none. by intros [[]| | | | |]. Qed.

Lemma component_no_entity_call evs :
  Forall (fun e => component_event e = true) evs -> List.filter entity_call evs = [].
Proof. apply filter_none. by intros [[]| | | | |]. Qed.

Lemma attach_no_set_property evs :
  Forall (fun e => attach_event e = true) evs -> List.filter is_set_property evs = [].
Proof. apply filter_none. by intros [[]| | | | |]. Qed.

Lemma create_no_set_property evs :
  Forall (fun e => create_event e = true) evs -> List.filter is_set_property evs = [].
Proof. apply filter_none. by intros [[]| | | | |]. Qed.

Section Methods.

Variable h : Host.

Lemma create_entity_quiet name parent :
  within (quiet create_event) (create_entity h name parent).
Proof. unfold create_entity. within_auto; done. Qed.

Lemma add_component_quiet e n : within (quiet attach_event) (add_component h e n).
Proof. unfold add_component. within_auto; done. Qed.

Lemma set_component_property_quiet e c p v :
  within (quiet component_event) (set_component_property h e c p v).
Proof. unfold set_component_property. within_auto; done. Qed.

End Methods.

(** * Building the scene against a host whose calls succeed *)

(** Refute the case in which a call of a succeeding host raised. *)
Ltac host_contra Hh E :=
  exfalso;
  lazymatch type of E with
  | hCreateNewEntity _ ?t ?p = _ =>
      pose proof (succeeds_CreateNewEntity _ Hh t p) as X; by rewrite E in X
  | hSetName _ ?t ?e ?n = _ =>
      pose proof (succeeds_SetName _ Hh t e n) as X; by rewrite E in X
  | hFindComponentTypeIds _ ?t ?ns ?k = _ =>
      pose proof (succeeds_FindComponentTypeIds _ Hh t ns k) as X; by rewrite E in X
  | hAddComponentsOfType _ ?t ?e ?tys = _ =>
      pose proof (succeeds_AddComponentsOfType _ Hh t e tys) as X; by rewrite E in X
  | hSetComponentProperty _ ?t ?c ?p ?v = _ =>
      pose proof (succeeds_SetComponentProperty _ Hh t c p v) as X; by rewrite E in X
  | hSetWorldTM _ ?t ?e ?tm = _ =>
      pose proof (succeeds_SetWorldTM _ Hh t e tm) as X; by rewrite E in X
  | hSetLocalTM _ ?t ?e ?tm = _ =>
      pose proof (succeeds_SetLocalTM _ Hh t e tm) as X; by rewrite E in X
  | hStdout _ ?t ?line = _ =>
      pose proof (succeeds_Stdout _ Hh t line) as X; by rewrite E in X
  end.

(** Case on the truth value of the component handle the goal tests. *)
Ltac case_truthy :=
  lazymatch goal with
  | |- context [if opt_truthy ?h ?c then _ else _] => destruct (opt_truthy h c); cbn
  end.

(** Case on the next host answer the goal waits for; it is a [Return]. *)
Ltac host_returns Hh :=
  lazymatch goal with
  | |- context [match ?o with Return _ => _ | Raise _ => _ end] =>
      let E := fresh "E" in
      destruct o eqn:E; [cbn | host_contra Hh E]
  end.

Section Scene.

Variable h : Host.
Hypothesis Hh : host_succeeds h.

Lemma create_entity_run name parent reg pp tr fs :
  exists e,
    hCreateNewEntity h tr parent = Return e
    /\ create_entity h name parent (mkState reg pp tr fs) =
       (Return e,
        mkState reg pp
          (tr ++ [Call (CreateNewEntity parent); Call (SetName e name);
                  Stdout ("✓ Created entity: " +:+ name)]) fs).
Proof.
  unfold create_entity. unfold_prims. cbn.
  do 3 host_returns Hh.
  eexists; split; [done|]. by rewrite <- !app_assoc.
Qed.

Lemma add_component_run e n reg pp tr fs :
  exists c evs,
    add_component h e n (mkState reg pp tr fs) =
    (Return c, mkState reg pp (tr ++ evs) fs)
    /\ Forall (fun ev => attach_event ev = true) evs.
Proof.
  apply quiet_total_run;
    [apply add_component_quiet | by apply add_component_never_raises].
Qed.

Lemma set_component_property_run e c p v reg pp tr fs :
  exists b evs,
    set_component_property h e c p v (mkState reg pp tr fs) =
    (Return b, mkState reg pp (tr ++ evs) fs)
    /\ Forall (fun ev => component_event ev = true) evs.
Proof.
  apply quiet_total_run;
    [apply set_component_property_quiet | by apply set_component_property_never_raises].
Qed.

End Scene.

(** Run the next [create_entity], [add_component] or
    [set_component_property] the goal waits for. *)
Ltac run_create Hh :=
  lazymatch goal with
  | |- context [create_entity ?h ?n ?p (mkState ?reg ?pp ?tr ?fs)] =>
      let e := fresh "e" in
      let He := fresh "He" in
      let Hrun := fresh "Hrun" in
      destruct (create_entity_run h Hh n p reg pp tr fs) as (e & He & Hrun);
      rewrite Hrun; clear Hrun; cbn
  end.

Ltac run_attach Hh :=
  lazymatch goal with
  | |- context [add_component ?h ?e ?n (mkState ?reg ?pp ?tr ?fs)] =>
      let c := fresh "c" in
      let evs := fresh "evs" in
      let Hrun := fresh "Hrun" in
      let Hevs := fresh "Hevs" in
      destruct (add_component_run h Hh e n reg pp tr fs) as (c & evs & Hrun & Hevs);
      apply attach_no_entity_call in Hevs;
      rewrite Hrun; clear Hrun; cbn
  end.

Ltac run_set_property Hh :=
  lazymatch goal with
  | |- context [set_component_property ?h ?e ?c ?p ?v (mkState ?reg ?pp ?tr ?fs)] =>
      let b := fresh "b" in
      let evs := fresh "evs" in
      let Hrun := fresh "Hrun" in
      let Hevs := fresh "Hevs" in
      destruct (set_component_property_run h Hh e c p v reg pp tr fs)
        as (b & evs & Hrun & Hevs);
      apply component_no_entity_call in Hevs;
      rewrite Hrun; clear Hrun; cbn
  end.

(** Close the goal of a run lemma: name the events appended, filter them,
    and point at the host answer the handle came from. *)
Ltac close_run :=
  rewrite <- ?app_assoc;
  eexists; split; [reflexivity|]; split; [|unfold created_by; eauto];
  rewrite ?List.filter_app; cbn;
  repeat match goal with H : List.filter _ _ = [] |- _ => rewrite H; clear H end;
  reflexivity.

Section SceneRuns.

Variable h : Host.
Hypothesis Hh : host_succeeds h.

Lemma setup_camera_entity_run reg pp tr fs :
  exists e evs,
    setup_camera_entity h (mkState reg pp tr fs) =
    (Return e, mkState (dict_set "camera" e reg) pp (tr ++ evs) fs)
    /\ List.filter entity_call evs =
       [Call (CreateNewEntity None); Call (SetName e "VehicleCamera");
        Call (SetWorldTM e
                (Transform_CreateTranslation
                   (Vector3 (PyFloat 0.0) (PyFloat (-10.0)) (PyFloat 5.0))))]
    /\ created_by h e.
Proof.
  unfold setup_camera_entity. unfold_prims. cbn.
  host_returns Hh. run_create Hh. run_attach Hh. exists e.
  case_truthy.
  - do 3 run_set_property Hh. host_returns Hh. close_run.
  - host_returns Hh. close_run.
Qed.

Lemma setup_vehicle_entity_run reg pp tr fs :
  exists e evs,
    setup_vehicle_entity h (mkState reg pp tr fs) =
    (Return e, mkState (dict_set "vehicle" e reg) pp (tr ++ evs) fs)
    /\ List.filter entity_call evs =
       [Call (CreateNewEntity None); Call (SetName e "PlayerVehicle");
        Call (SetWorldTM e
                (Transform_CreateTranslation
                   (Vector3 (PyFloat 0.0) (PyFloat 0.0) (PyFloat 1.0))))]
    /\ created_by h e.
Proof.
  unfold setup_vehicle_entity. unfold_prims. cbn.
  host_returns Hh. run_create Hh. do 2 run_attach Hh. exists e.
  case_truthy.
  - do 2 run_set_property Hh. run_attach Hh. host_returns Hh. close_run.
  - run_attach Hh. host_returns Hh. close_run.
Qed.

Lemma setup_game_manager_run reg pp tr fs :
  exists e evs,
    setup_game_manager h (mkState reg pp tr fs) =
    (Return e, mkState (dict_set "manager" e reg) pp (tr ++ evs) fs)
    /\ List.filter entity_call evs =
       [Call (CreateNewEntity None); Call (SetName e "GameManager")]
    /\ created_by h e.
Proof.
  unfold setup_game_manager. unfold_prims. cbn.
  host_returns Hh. run_create Hh. run_attach Hh. exists e. close_run.
Qed.

Lemma setup_ground_plane_run reg pp tr fs :
  exists e evs,
    setup_ground_plane h (mkState reg pp tr fs) =
    (Return e, mkState (dict_set "ground" e reg) pp (tr ++ evs) fs)
    /\ List.filter entity_call evs =
       [Call (CreateNewEntity None); Call (SetName e "GroundPlane");
        Call (SetLocalTM e
                (Transform_CreateScale
                   (Vector3 (PyFloat 100.0) (PyFloat 100.0) (PyFloat 1.0))))]
    /\ created_by h e.
Proof.
  unfold setup_ground_plane. unfold_prims. cbn.
  host_returns Hh. run_create Hh. do 3 run_attach Hh. exists e. host_returns Hh. close_run.
Qed.

Lemma setup_lighting_run reg pp tr fs :
  exists e evs,
    setup_lighting h (mkState reg pp tr fs) =
    (Return e, mkState (dict_set "light" e reg) pp (tr ++ evs) fs)
    /\ List.filter entity_call evs =
       [Call (CreateNewEntity None); Call (SetName e "DirectionalLight");
        Call (SetLocalTM e
                (Transform_CreateRotation
                   (Quaternion_CreateFromEulerAngles
                      (Vector3 (PyFloat (-45.0)) (PyFloat 0.0) (PyFloat 0.0)))))]
    /\ created_by h e.
Proof.
  unfold setup_lighting. unfold_prims. cbn.
  host_returns Hh. run_create Hh. run_attach Hh. exists e. host_returns Hh. close_run.
Qed.

End SceneRuns.

Lemma files_only_run {A} (m : M A) reg pp tr fs :
  within files_only m ->
  exists o evs fs',
    m (mkState reg pp tr fs) = (o, mkState reg pp (tr ++ evs) fs')
    /\ List.filter is_call evs = [].
Proof.
  intros Hm.
  destruct (Hm (mkState reg pp tr fs)) as (o & evs & reg' & fs' & Hrun & Hr & _ & He).
  cbn in *. subst. exists o, evs, fs'. split; [done|].
  clear Hrun. induction He as [|x l Hx Hl IH]; [done|]. cbn. by rewrite Hx.
Qed.

Lemma no_call_no_entity_call evs :
  List.filter is_call evs = [] -> List.filter entity_call evs = [].
Proof.
  induction evs as [|[c| | | | |] evs IH]; cbn; try done.
Qed.

Section FullBuild.

Variable h : Host.
Variable fp : Faults.
Hypothesis Hh : host_succeeds h.

Lemma run_full_setup_body_scene reg pp tr fs :
  exists camera vehicle manager ground light o evs fs',
    run_full_setup_body h fp (mkState reg pp tr fs) =
    (o, mkState
          (dict_set "light" light (dict_set "ground" ground (dict_set "manager" manager
             (dict_set "vehicle" vehicle (dict_set "camera" camera reg)))))
          pp (tr ++ evs) fs')
    /\ List.filter entity_call evs = scene_calls camera vehicle manager ground light
    /\ Forall (created_by h) [camera; vehicle; manager; ground; light].
Proof.
  unfold run_full_setup_body.
  rewrite run_bind.
  destruct (setup_camera_entity_run h Hh reg pp tr fs) as (e1 & evs1 & -> & H1 & C1).
  rewrite run_bind.
  edestruct (setup_vehicle_entity_run h Hh) as (e2 & evs2 & -> & H2 & C2).
  rewrite run_bind.
  edestruct (setup_game_manager_run h Hh) as (e3 & evs3 & -> & H3 & C3).
  rewrite run_bind.
  edestruct (setup_ground_plane_run h Hh) as (e4 & evs4 & -> & H4 & C4).
  rewrite run_bind.
  edestruct (setup_lighting_run h Hh) as (e5 & evs5 & -> & H5 & C5).
  match goal with
  | |- context [?m (mkState ?r ?p ?t ?f)] =>
      destruct (files_only_run m r p t f) as (o & evs6 & fs' & -> & H6)
  end.
  { unfold create_input_bindings, create_component_source_files, create_readme.
    within_auto; done. }
  apply no_call_no_entity_call in H6.
  exists e1, e2, e3, e4, e5, o. rewrite <- !app_assoc.
  eexists _, fs'. split; [reflexivity|]. split; [|by repeat constructor].
  rewrite !List.filter_app, H1, H2, H3, H4, H5, H6. reflexivity.
Qed.

End FullBuild.

(** C3. Against a host whose calls all succeed, a full run of a freshly
    constructed object registers exactly the five roles camera, vehicle,
    manager, ground and light, each with a handle the host returned for a
    creation request; and the entity-level calls it issues are exactly
    [scene_calls] for these handles: one creation per role, each followed by
    its fixed display name, then a world-space translation (0, -10, 5) for
    camera and (0, 0, 1) for vehicle, a local-space scale (100, 100, 1) for
    ground, a local-space rotation from Euler angles (-45, 0, 0) for light,
    and no transform for manager. *)
Theorem scaffold_build_five_roles (h : Host) (fp : Faults) (s : state) :
  host_succeeds h ->
  created_entities s = [] ->
  exists camera vehicle manager ground light b evs s',
    run_full_setup h fp s = (Return b, s')
    /\ created_entities s' =
       [("camera", camera); ("vehicle", vehicle); ("manager", manager);
        ("ground", ground); ("light", light)]
    /\ Forall (created_by h) [camera; vehicle; manager; ground; light]
    /\ trace s' = trace s ++ evs
    /\ List.filter entity_call evs = scene_calls camera vehicle manager ground light.
Proof.
  intros Hh Hreg. destruct s as [reg pp tr fs]. cbn in Hreg. subst reg.
  rewrite run_full_setup_try, run_try by apply Hh. unfold after_banner, log. cbn.
  match goal with
  | |- context [run_full_setup_body h fp (mkState ?r ?p ?t ?f)] =>
      destruct (run_full_setup_body_scene h fp Hh r p t f)
        as (e1 & e2 & e3 & e4 & e5 & o & evs & fs' & -> & Hcalls & Hcreated)
  end.
  exists e1, e2, e3, e4, e5.
  destruct o as [b|e]; [|rewrite print_then by apply Hh]; unfold_prims; cbn.
  - eexists b, _, _. split; [reflexivity|]. cbn. split; [reflexivity|].
    split; [exact Hcreated|].
    rewrite <- !app_assoc. split; [reflexivity|].
    rewrite !List.filter_app, Hcalls. reflexivity.
  - eexists false, _, _. split; [reflexivity|]. cbn. split; [reflexivity|].
    split; [exact Hcreated|].
    rewrite <- !app_assoc. split; [reflexivity|].
    rewrite !List.filter_app, Hcalls. reflexivity.
Qed.

Lemma scaffold_build_five_roles_witness :
  exists camera vehicle manager ground light b evs s',
    run_full_setup (stub_host []) no_faults (fresh "/proj" ∅) = (Return b, s')
    /\ created_entities s' =
       [("camera", camera); ("vehicle", vehicle); ("manager", manager);
        ("ground", ground); ("light", light)]
    /\ Forall (created_by (stub_host [])) [camera; vehicle; manager; ground; light]
    /\ trace s' = trace (fresh "/proj" ∅) ++ evs
    /\ List.filter entity_call evs = scene_calls camera vehicle manager ground light.
Proof.
  apply (scaffold_build_five_roles (stub_host []) no_faults (fresh "/proj" ∅)).
  - apply stub_host_succeeds.
  - reflexivity.
Defined.

(** * A component type the host does not know *)



(** * Who registers an entity *)

(** Run the next [create_entity], [add_component] or
    [set_component_property] the goal waits for, against any host: it may
    raise, and it leaves registry, project path and files alone. *)
Ltac run_quiet :=
  lazymatch goal with
  | |- context [create_entity ?h ?n ?p (mkState ?reg ?pp ?tr ?fs)] =>
      let o := fresh "o" in
      let evs := fresh "evs" in
      let Hrun := fresh "Hrun" in
      let Hevs := fresh "Hevs" in
      destruct (quiet_run create_event (create_entity h n p) reg pp tr fs
                  (create_entity_quiet h n p)) as (o & evs & Hrun & Hevs);
      rewrite Hrun; clear Hrun; destruct o; cbn
  | |- context [add_component ?h ?e ?n (mkState ?reg ?pp ?tr ?fs)] =>
      let o := fresh "o" in
      let evs := fresh "evs" in
      let Hrun := fresh "Hrun" in
      let Hevs := fresh "Hevs" in
      destruct (quiet_run attach_event (add_component h e n) reg pp tr fs
                  (add_component_quiet h e n)) as (o & evs & Hrun & Hevs);
      rewrite Hrun; clear Hrun; destruct o; cbn
  | |- context [set_component_property ?h ?e ?c ?p ?v (mkState ?reg ?pp ?tr ?fs)] =>
      let o := fresh "o" in
      let evs := fresh "evs" in
      let Hrun := fresh "Hrun" in
      let Hevs := fresh "Hevs" in
      destruct (quiet_run component_event (set_component_property h e c p v) reg pp tr fs
                  (set_component_property_quiet h e c p v)) as (o & evs & Hrun & Hevs);
      rewrite Hrun; clear Hrun; destruct o; cbn
  end.

(** Case on the next host answer the goal waits for. *)
Ltac host_any :=
  lazymatch goal with
  | |- context [match ?o with Return _ => _ | Raise _ => _ end] =>
      destruct o; cbn
  end.

(** C5, as the code has it.  [create_entity] creates the scene object,
    names the handle the host returned for it and returns that handle; it
    leaves the registry as it was.  The registration is done by each of the
    five [setup_*] methods, which stores the handle returned by its
    [create_entity] call under its own fixed role, right after the call and
    whatever happens in the rest of the method. *)
Theorem registration_is_done_by_the_setup_methods (h : Host) :
  (forall name parent s,
     create_entity h name parent s = create_entity_outcome h name parent s
     /\ created_entities (snd (create_entity h name parent s)) = created_entities s)
  /\ registers_after_create h "camera" "VehicleCamera"
       "=== Setting up Camera Entity ===" (setup_camera_entity h)
  /\ registers_after_create h "vehicle" "PlayerVehicle"
       "=== Setting up Vehicle Entity ===" (setup_vehicle_entity h)
  /\ registers_after_create h "manager" "GameManager"
       "=== Setting up Game Manager ===" (setup_game_manager h)
  /\ registers_after_create h "ground" "GroundPlane"
       "=== Setting up Ground Plane ===" (setup_ground_plane h)
  /\ registers_after_create h "light" "DirectionalLight"
       "=== Setting up Lighting ===" (setup_lighting h).
Proof.
  split_and!.
  - intros name parent [reg pp tr fs]. split.
    + unfold create_entity, create_entity_outcome. unfold_prims. cbn.
      repeat (host_any; [|reflexivity]). reflexivity.
    + run_quiet; reflexivity.
  - intros [reg pp tr fs]. unfold setup_camera_entity. unfold_prims. cbn.
    host_any; [|reflexivity].
    run_quiet; [|reflexivity]. run_quiet; [|reflexivity].
    case_truthy.
    + do 3 (run_quiet; [|reflexivity]). host_any; reflexivity.
    + host_any; reflexivity.
  - intros [reg pp tr fs]. unfold setup_vehicle_entity. unfold_prims. cbn.
    host_any; [|reflexivity].
    run_quiet; [|reflexivity]. do 2 (run_quiet; [|reflexivity]).
    case_truthy.
    + do 3 (run_quiet; [|reflexivity]). host_any; reflexivity.
    + run_quiet; [|reflexivity]. host_any; reflexivity.
  - intros [reg pp tr fs]. unfold setup_game_manager. unfold_prims. cbn.
    host_any; [|reflexivity].
    run_quiet; [|reflexivity]. run_quiet; reflexivity.
  - intros [reg pp tr fs]. unfold setup_ground_plane. unfold_prims. cbn.
    host_any; [|reflexivity].
    run_quiet; [|reflexivity]. do 3 (run_quiet; [|reflexivity]). host_any; reflexivity.
  - intros [reg pp tr fs]. unfold setup_lighting. unfold_prims. cbn.
    host_any; [|reflexivity].
    run_quiet; [|reflexivity]. run_quiet; [|reflexivity]. host_any; reflexivity.
Qed.

(** C5, as the claim states it, fails: a call of [create_entity] returns a
    handle and the registry is still empty. *)
Lemma create_entity_registers_nothing :
  exists s',
    create_entity (stub_host []) "VehicleCamera" None (fresh "/proj" ∅) = (Return 100%N, s')
    /\ created_entities s' = []
    /\ dict_get "camera" (created_entities s') = None.
Proof. eexists. split; [reflexivity|]. by split. Qed.

(** * Property assignment needs a component *)

Lemma within_emitted {A} (F : Footprint) (m : M A) (s : state) :
  within F m -> Forall (ev_ok F) (emitted m s).
Proof.
  intros Hm. destruct (Hm s) as (o & evs & reg' & fs' & Hrun & _ & _ & He).
  unfold emitted. rewrite Hrun. cbn. by rewrite drop_app_length.
Qed.

Lemma run_full_setup_guarded (h : Host) (fp : Faults) :
  within (guarded_properties h) (run_full_setup h fp).
Proof.
  unfold run_full_setup, run_full_setup_body,
    setup_camera_entity, setup_vehicle_entity, setup_game_manager,
    setup_ground_plane, setup_lighting,
    create_input_bindings, create_component_source_files, create_readme,
    create_entity, add_component, set_component_property.
  within_auto; done.
Qed.

(** Close a goal [filter is_set_property (drop (length tr) (tr ++ ...)) = []]. *)
Ltac close_emitted :=
  rewrite <- ?app_assoc, ?app_nil_r;
  first [rewrite drop_app_length | rewrite drop_all];
  rewrite ?List.filter_app; cbn;
  repeat match goal with H : List.filter _ _ = [] |- _ => rewrite H; clear H end;
  reflexivity.

(** C10. No property is ever assigned through a missing component: every
    [SetComponentProperty] call of a full run carries a handle that tested
    true; and when attaching the camera component (the rigid body) yields
    nothing, the camera build (the vehicle build) issues no property call at
    all. *)
Theorem properties_need_a_component (h : Host) :
  (forall fp s, Forall (property_call_ok h) (emitted (run_full_setup h fp) s))
  /\ ((forall e s c s', add_component h e "Camera" s = (Return c, s') -> c = None) ->
      forall s, List.filter is_set_property (emitted (setup_camera_entity h) s) = [])
  /\ ((forall e s c s', add_component h e "PhysX Rigid Body" s = (Return c, s') -> c = None) ->
      forall s, List.filter is_set_property (emitted (setup_vehicle_entity h) s) = []).
Proof.
  split_and!.
  - intros fp s. apply (within_emitted (guarded_properties h)), run_full_setup_guarded.
  - intros Hnone [reg pp tr fs]. unfold emitted, setup_camera_entity. unfold_prims. cbn.
    host_any; [|close_emitted].
    run_quiet; apply create_no_set_property in Hevs; [|close_emitted].
    lazymatch goal with
    | |- context [add_component h ?e ?n (mkState ?r ?p ?t ?f)] =>
        destruct (quiet_run attach_event (add_component h e n) r p t f
                    (add_component_quiet h e n)) as (o & evs' & Hrun & Hevs');
        apply attach_no_set_property in Hevs';
        destruct o as [c|x];
        [rewrite (Hnone _ _ _ _ Hrun) in Hrun|]; rewrite Hrun; clear Hrun; cbn
    end; [|close_emitted].
    host_any; close_emitted.
  - intros Hnone [reg pp tr fs]. unfold emitted, setup_vehicle_entity. unfold_prims. cbn.
    host_any; [|close_emitted].
    run_quiet; apply create_no_set_property in Hevs; [|close_emitted].
    run_quiet; apply attach_no_set_property in Hevs0; [|close_emitted].
    lazymatch goal with
    | |- context [add_component h ?e ?n (mkState ?r ?p ?t ?f)] =>
        destruct (quiet_run attach_event (add_component h e n) r p t f
                    (add_component_quiet h e n)) as (o & evs' & Hrun & Hevs');
        apply attach_no_set_property in Hevs';
        destruct o as [c|x];
        [rewrite (Hnone _ _ _ _ Hrun) in Hrun|]; rewrite Hrun; clear Hrun; cbn
    end; [|close_emitted].
    run_quiet; apply attach_no_set_property in Hevs1; [|close_emitted].
    host_any; close_emitted.
Qed.

(** A host that knows neither the camera nor the rigid-body type. *)
Lemma properties_need_a_component_witness :
  Forall (property_call_ok (stub_host ["Camera"; "PhysX Rigid Body"]))
    (emitted (run_full_setup (stub_host ["Camera"; "PhysX Rigid Body"]) no_faults)
       (fresh "/proj" ∅))
  /\ List.filter is_set_property
       (emitted (setup_camera_entity (stub_host ["Camera"; "PhysX Rigid Body"]))
          (fresh "/proj" ∅)) = []
  /\ List.filter is_set_property
       (emitted (setup_vehicle_entity (stub_host ["Camera"; "PhysX Rigid Body"]))
          (fresh "/proj" ∅)) = [].
Proof.
  destruct (properties_need_a_component (stub_host ["Camera"; "PhysX Rigid Body"]))
    as (H1 & H2 & H3).
  split_and!.
  - apply H1.
  - apply H2. intros e [reg pp tr fs] c s'.
    unfold add_component. unfold_prims. cbn. by intros [= <- _].
  - apply H3. intros e [reg pp tr fs] c s'.
    unfold add_component. unfold_prims. cbn. by intros [= <- _].
Defined.

(** * The artifact paths are project-relative and distinct *)

Lemma os_path_join_one (a b : string) :
  startswith_sep b = false -> os_path_join a [b] = root a +:+ b.
Proof.
  intros Hb. unfold os_path_join, root. rewrite Hb.
  destruct (str_empty a || endswith_sep a); [done|].
  by rewrite str_app_assoc.
Qed.

(** Joining onto a path that ends with a name other than a separator. *)
Lemma os_path_join_after (a b c : string) :
  str_empty b = false -> endswith_sep b = false -> startswith_sep c = false ->
  os_path_join (a +:+ b) [c] = a +:+ (b +:+ "/" +:+ c).
Proof.
  intros Hb1 Hb2 Hc. rewrite os_path_join_one by done.
  unfold root. rewrite str_empty_app, endswith_sep_app, Hb2 by done.
  cbn [orb]. by rewrite !str_app_assoc.
Qed.

Lemma os_path_join_cons (a b : string) (p : list string) :
  os_path_join a (b :: p) = os_path_join (os_path_join a [b]) p.
Proof. reflexivity. Qed.

Lemma input_folder_relative pp : input_folder pp = root pp +:+ "Config/Input".
Proof.
  unfold input_folder.
  rewrite os_path_join_cons, (os_path_join_one pp) by done.
  by rewrite os_path_join_after.
Qed.

Lemma input_file_relative pp :
  input_file pp = root pp +:+ "Config/Input/vehicle_camera.inputbindings".
Proof.
  unfold input_file. rewrite input_folder_relative.
  by rewrite os_path_join_after.
Qed.

Lemma gem_code_path_relative pp :
  gem_code_path pp = root pp +:+ "Gem/Code/Source/Components".
Proof.
  unfold gem_code_path.
  rewrite os_path_join_cons, (os_path_join_one pp) by done.
  rewrite os_path_join_cons, os_path_join_after by done.
  rewrite os_path_join_cons, os_path_join_after by done.
  by rewrite os_path_join_after.
Qed.

Lemma header_file_relative pp :
  header_file pp = root pp +:+ "Gem/Code/Source/Components/VehicleCombatCameraComponent.h".
Proof.
  unfold header_file. rewrite gem_code_path_relative.
  by rewrite os_path_join_after.
Qed.

Lemma cpp_file_relative pp :
  cpp_file pp = root pp +:+ "Gem/Code/Source/Components/VehicleCombatCameraComponent.cpp".
Proof.
  unfold cpp_file. rewrite gem_code_path_relative.
  by rewrite os_path_join_after.
Qed.

Lemma readme_file_relative pp : readme_file pp = root pp +:+ "CAMERA_SETUP_README.md".
Proof. unfold readme_file. by rewrite os_path_join_one. Qed.

(** Two paths under the same root differ when their relative parts do. *)
Lemma under_root_ne (pp a b : string) : a <> b -> root pp +:+ a <> root pp +:+ b.
Proof. intros Hab Heq. apply Hab. by apply (String.app_inj (root pp)). Qed.

(** The four artifact files are pairwise distinct, whatever the project. *)
Lemma artifact_files_distinct pp :
  input_file pp <> header_file pp /\ input_file pp <> cpp_file pp
  /\ input_file pp <> readme_file pp /\ header_file pp <> cpp_file pp
  /\ header_file pp <> readme_file pp /\ cpp_file pp <> readme_file pp.
Proof.
  rewrite input_file_relative, header_file_relative, cpp_file_relative,
    readme_file_relative.
  split_and!; by apply under_root_ne.
Qed.

(** * What each artifact writer does, fault by fault *)

(** Resolve every answer of a console that accepts every line. *)
Ltac console_returns Hcon :=
  repeat lazymatch goal with
  | |- context [hStdout ?h ?t ?line] =>
      let X := fresh "X" in
      pose proof (Hcon t line) as X;
      destruct (hStdout h t line) as [[]|]; [clear X; cbn | done]
  end.

Section Writers.

Variable h : Host.
Variable fp : Faults.

(** [with open(path, 'w') as f: f.write(data)] *)
Lemma write_file_run (path data : string) reg pp tr fs :
  with_open_w fp path (fun f => f_write fp f data) (mkState reg pp tr fs) =
  match open_fault fp path with
  | Some e => (Raise e, mkState reg pp (tr ++ [OpenW path]) fs)
  | None =>
      match write_fault fp path with
      | Some (n, e) =>
          (Raise e,
           mkState reg pp (tr ++ [OpenW path; WriteTo path data])
             (<[path := String.substring 0 n data]> fs))
      | None =>
          (Return tt,
           mkState reg pp (tr ++ [OpenW path; WriteTo path data]) (<[path := data]> fs))
      end
  end.
Proof.
  unfold with_open_w, open_w, f_write, file_content. rewrite run_bind.
  destruct (open_fault fp path) as [e|]; [done|].
  unfold set_files, log. cbn.
  rewrite lookup_insert_eq, <- app_assoc. cbn.
  destruct (write_fault fp path) as [[n e]|]; by rewrite insert_insert_eq.
Qed.

(** The [except] block of a writer: it reports [e] on the line that starts
    with [prefix] and returns [False], unless the console refuses that
    line. *)
Lemma handler_run (prefix : string) (e : exn) (s : state) :
  (print h (prefix +:+ e) ≫= fun _ => mret false) s =
  match hStdout h (trace s) (prefix +:+ e) with
  | Return _ => (Return false, log (Stdout (prefix +:+ e)) s)
  | Raise x => (Raise x, s)
  end.
Proof.
  rewrite run_bind. unfold print.
  by destruct (hStdout h (trace s) (prefix +:+ e)) as [[]|x].
Qed.

(** [create_input_bindings], case by case: what the console says to the
    header, what the file system says to the directory, to opening and to
    writing the file, and what the console says to the closing line. *)
Lemma create_input_bindings_cases reg pp tr fs :
  create_input_bindings h fp (mkState reg pp tr fs) =
  let header := nl +:+ "=== Creating Input Bindings ===" in
  let started := tr ++ [Stdout header; Makedirs (input_folder pp)] in
  let written :=
    started ++ [OpenW (input_file pp); WriteTo (input_file pp) (json_dumps bindings 4)] in
  let failed e tr' fs' :=
    (print h ("✗ Failed to create input bindings: " +:+ e) ≫= fun _ => mret false)
      (mkState reg pp tr' fs') in
  match hStdout h tr header with
  | Raise x => (Raise x, mkState reg pp tr fs)
  | Return _ =>
      match makedirs_fault fp (input_folder pp) with
      | Some e => (Raise e, mkState reg pp started fs)
      | None =>
          match open_fault fp (input_file pp) with
          | Some e => failed e (started ++ [OpenW (input_file pp)]) fs
          | None =>
              match write_fault fp (input_file pp) with
              | Some (n, e) =>
                  failed e written
                    (<[input_file pp := String.substring 0 n (json_dumps bindings 4)]> fs)
              | None =>
                  match hStdout h written
                          ("✓ Created input bindings: " +:+ input_file pp) with
                  | Return _ =>
                      (Return true,
                       mkState reg pp
                         (written
                          ++ [Stdout ("✓ Created input bindings: " +:+ input_file pp)])
                         (<[input_file pp := json_dumps bindings 4]> fs))
                  | Raise x =>
                      failed x written (<[input_file pp := json_dumps bindings 4]> fs)
                  end
              end
          end
      end
  end.
Proof.
  cbn zeta. unfold create_input_bindings, json_dump.
  rewrite run_bind. unfold print at 1. cbn [trace].
  destruct (hStdout h tr (nl +:+ "=== Creating Input Bindings ===")) as [[]|x]; [|done].
  unfold log. cbn.
  rewrite run_bind. unfold get_project_path at 1. cbn.
  rewrite run_bind. unfold os_makedirs, log. cbn.
  fold (input_folder pp). fold (input_file pp).
  rewrite <- app_assoc. cbn.
  destruct (makedirs_fault fp (input_folder pp)) as [e|]; [done|].
  rewrite run_try, run_bind, write_file_run.
  destruct (open_fault fp (input_file pp)) as [e|];
    [by rewrite <- app_assoc|].
  rewrite <- app_assoc. cbn.
  destruct (write_fault fp (input_file pp)) as [[n e]|]; [done|].
  rewrite run_bind. unfold print at 1. cbn.
  by destruct (hStdout h _ ("✓ Created input bindings: " +:+ input_file pp)) as [[]|x].
Qed.

(** [create_component_source_files], case by case. *)
Lemma create_component_source_files_cases reg pp tr fs :
  create_component_source_files h fp (mkState reg pp tr fs) =
  let header := nl +:+ "=== Creating Component Source Files ===" in
  let started := tr ++ [Stdout header; Makedirs (gem_code_path pp)] in
  let header_written :=
    started ++ [OpenW (header_file pp); WriteTo (header_file pp) header_content] in
  let header_done := header_written ++ [Stdout ("✓ Created: " +:+ header_file pp)] in
  let cpp_written :=
    header_done ++ [OpenW (cpp_file pp); WriteTo (cpp_file pp) cpp_content] in
  let failed e tr' fs' :=
    (print h ("✗ Failed to create source files: " +:+ e) ≫= fun _ => mret false)
      (mkState reg pp tr' fs') in
  match hStdout h tr header with
  | Raise x => (Raise x, mkState reg pp tr fs)
  | Return _ =>
      match makedirs_fault fp (gem_code_path pp) with
      | Some e => (Raise e, mkState reg pp started fs)
      | None =>
          match open_fault fp (header_file pp) with
          | Some e => failed e (started ++ [OpenW (header_file pp)]) fs
          | None =>
              match write_fault fp (header_file pp) with
              | Some (n, e) =>
                  failed e header_written
                    (<[header_file pp := String.substring 0 n header_content]> fs)
              | None =>
                  match hStdout h header_written ("✓ Created: " +:+ header_file pp) with
                  | Raise x =>
                      failed x header_written (<[header_file pp := header_content]> fs)
                  | Return _ =>
                      match open_fault fp (cpp_file pp) with
                      | Some e =>
                          failed e (header_done ++ [OpenW (cpp_file pp)])
                            (<[header_file pp := header_content]> fs)
                      | None =>
                          match write_fault fp (cpp_file pp) with
                          | Some (n, e) =>
                              failed e cpp_written
                                (<[cpp_file pp := String.substring 0 n cpp_content]>
                                   (<[header_file pp := header_content]> fs))
                          | None =>
                              match hStdout h cpp_written
                                      ("✓ Created: " +:+ cpp_file pp) with
                              | Return _ =>
                                  (Return true,
                                   mkState reg pp
                                     (cpp_written
                                      ++ [Stdout ("✓ Created: " +:+ cpp_file pp)])
                                     (<[cpp_file pp := cpp_content]>
                                        (<[header_file pp := header_content]> fs)))
                              | Raise x =>
                                  failed x cpp_written
                                    (<[cpp_file pp := cpp_content]>
                                       (<[header_file pp := header_content]> fs))
                              end
                          end
                      end
                  end
              end
          end
      end
  end.
Proof.
  cbn zeta. unfold create_component_source_files.
  rewrite run_bind. unfold print at 1. cbn [trace].
  destruct (hStdout h tr (nl +:+ "=== Creating Component Source Files ===")) as [[]|x];
    [|done].
  unfold log. cbn.
  rewrite run_bind. unfold get_project_path at 1. cbn.
  rewrite run_bind. unfold os_makedirs, log. cbn.
  fold (gem_code_path pp). fold (header_file pp). fold (cpp_file pp).
  rewrite <- app_assoc. cbn.
  destruct (makedirs_fault fp (gem_code_path pp)) as [e|]; [done|].
  rewrite run_try, run_bind, write_file_run.
  destruct (open_fault fp (header_file pp)) as [e|];
    [by rewrite <- app_assoc|].
  rewrite <- app_assoc. cbn.
  destruct (write_fault fp (header_file pp)) as [[n e]|]; [done|].
  rewrite run_bind. unfold print at 1. cbn.
  destruct (hStdout h _ ("✓ Created: " +:+ header_file pp)) as [[]|x]; [|done].
  unfold log. cbn.
  rewrite run_bind, write_file_run.
  destruct (open_fault fp (cpp_file pp)) as [e|];
    [by rewrite <- app_assoc|].
  rewrite <- app_assoc. cbn.
  destruct (write_fault fp (cpp_file pp)) as [[n e]|]; [done|].
  rewrite run_bind. unfold print at 1. cbn.
  by destruct (hStdout h _ ("✓ Created: " +:+ cpp_file pp)) as [[]|x].
Qed.

(** [create_readme], case by case. *)
Lemma create_readme_cases reg pp tr fs :
  create_readme h fp (mkState reg pp tr fs) =
  let header := nl +:+ "=== Creating README ===" in
  let started := tr ++ [Stdout header] in
  let written :=
    started ++ [OpenW (readme_file pp); WriteTo (readme_file pp) readme_content] in
  let failed e tr' fs' :=
    (print h ("✗ Failed to create README: " +:+ e) ≫= fun _ => mret false)
      (mkState reg pp tr' fs') in
  match hStdout h tr header with
  | Raise x => (Raise x, mkState reg pp tr fs)
  | Return _ =>
      match open_fault fp (readme_file pp) with
      | Some e => failed e (started ++ [OpenW (readme_file pp)]) fs
      | None =>
          match write_fault fp (readme_file pp) with
          | Some (n, e) =>
              failed e written
                (<[readme_file pp := String.substring 0 n readme_content]> fs)
          | None =>
              match hStdout h written ("✓ Created: " +:+ readme_file pp) with
              | Return _ =>
                  (Return true,
                   mkState reg pp (written ++ [Stdout ("✓ Created: " +:+ readme_file pp)])
                     (<[readme_file pp := readme_content]> fs))
              | Raise x => failed x written (<[readme_file pp := readme_content]> fs)
              end
          end
      end
  end.
Proof.
  cbn zeta. unfold create_readme.
  rewrite run_bind. unfold print at 1. cbn [trace].
  destruct (hStdout h tr (nl +:+ "=== Creating README ===")) as [[]|x]; [|done].
  unfold log. cbn.
  rewrite run_try, run_bind. unfold get_project_path at 1. cbn.
  fold (readme_file pp).
  rewrite run_bind, write_file_run.
  destruct (open_fault fp (readme_file pp)) as [e|];
    [by rewrite <- app_assoc|].
  rewrite <- app_assoc. cbn.
  destruct (write_fault fp (readme_file pp)) as [[n e]|]; [done|].
  rewrite run_bind. unfold print at 1. cbn.
  by destruct (hStdout h _ ("✓ Created: " +:+ readme_file pp)) as [[]|x].
Qed.

(** ** On a console that accepts every line *)

Hypothesis Hcon : console_accepts h.

Lemma create_input_bindings_run reg pp tr fs :
  create_input_bindings h fp (mkState reg pp tr fs) =
  let started :=
    tr ++ [Stdout (nl +:+ "=== Creating Input Bindings ===");
           Makedirs (input_folder pp)] in
  match makedirs_fault fp (input_folder pp) with
  | Some e => (Raise e, mkState reg pp started fs)
  | None =>
      match open_fault fp (input_file pp) with
      | Some e =>
          (Return false,
           mkState reg pp
             (started ++ [OpenW (input_file pp);
                          Stdout ("✗ Failed to create input bindings: " +:+ e)]) fs)
      | None =>
          match write_fault fp (input_file pp) with
          | Some (n, e) =>
              (Return false,
               mkState reg pp
                 (started ++ [OpenW (input_file pp);
                              WriteTo (input_file pp) (json_dumps bindings 4);
                              Stdout ("✗ Failed to create input bindings: " +:+ e)])
                 (<[input_file pp := String.substring 0 n (json_dumps bindings 4)]> fs))
          | None =>
              (Return true,
               mkState reg pp
                 (started ++ [OpenW (input_file pp);
                              WriteTo (input_file pp) (json_dumps bindings 4);
                              Stdout ("✓ Created input bindings: " +:+ input_file pp)])
                 (<[input_file pp := json_dumps bindings 4]> fs))
          end
      end
  end.
Proof.
  rewrite create_input_bindings_cases. cbn zeta. unfold log; cbn.
  console_returns Hcon;
    repeat (case_match; rewrite ?handler_run; unfold log; cbn; console_returns Hcon);
    by rewrite <- ?app_assoc.
Qed.

Lemma create_component_source_files_run reg pp tr fs :
  create_component_source_files h fp (mkState reg pp tr fs) =
  let started :=
    tr ++ [Stdout (nl +:+ "=== Creating Component Source Files ===");
           Makedirs (gem_code_path pp)] in
  let failed e := Stdout ("✗ Failed to create source files: " +:+ e) in
  let header_done :=
    started ++ [OpenW (header_file pp); WriteTo (header_file pp) header_content;
                Stdout ("✓ Created: " +:+ header_file pp)] in
  match makedirs_fault fp (gem_code_path pp) with
  | Some e => (Raise e, mkState reg pp started fs)
  | None =>
      match open_fault fp (header_file pp) with
      | Some e =>
          (Return false,
           mkState reg pp (started ++ [OpenW (header_file pp); failed e]) fs)
      | None =>
          match write_fault fp (header_file pp) with
          | Some (n, e) =>
              (Return false,
               mkState reg pp
                 (started ++ [OpenW (header_file pp);
                              WriteTo (header_file pp) header_content; failed e])
                 (<[header_file pp := String.substring 0 n header_content]> fs))
          | None =>
              match open_fault fp (cpp_file pp) with
              | Some e =>
                  (Return false,
                   mkState reg pp (header_done ++ [OpenW (cpp_file pp); failed e])
                     (<[header_file pp := header_content]> fs))
              | None =>
                  match write_fault fp (cpp_file pp) with
                  | Some (n, e) =>
                      (Return false,
                       mkState reg pp
                         (header_done ++ [OpenW (cpp_file pp);
                                          WriteTo (cpp_file pp) cpp_content; failed e])
                         (<[cpp_file pp := String.substring 0 n cpp_content]>
                            (<[header_file pp := header_content]> fs)))
                  | None =>
                      (Return true,
                       mkState reg pp
                         (header_done ++ [OpenW (cpp_file pp);
                                          WriteTo (cpp_file pp) cpp_content;
                                          Stdout ("✓ Created: " +:+ cpp_file pp)])
                         (<[cpp_file pp := cpp_content]>
                            (<[header_file pp := header_content]> fs)))
                  end
              end
          end
      end
  end.
Proof.
  rewrite create_component_source_files_cases. cbn zeta. unfold log; cbn.
  console_returns Hcon;
    repeat (case_match; rewrite ?handler_run; unfold log; cbn; console_returns Hcon);
    by rewrite <- ?app_assoc.
Qed.

Lemma create_readme_run reg pp tr fs :
  create_readme h fp (mkState reg pp tr fs) =
  let started := tr ++ [Stdout (nl +:+ "=== Creating README ===")] in
  let failed e := Stdout ("✗ Failed to create README: " +:+ e) in
  match open_fault fp (readme_file pp) with
  | Some e =>
      (Return false, mkState reg pp (started ++ [OpenW (readme_file pp); failed e]) fs)
  | None =>
      match write_fault fp (readme_file pp) with
      | Some (n, e) =>
          (Return false,
           mkState reg pp
             (started ++ [OpenW (readme_file pp);
                          WriteTo (readme_file pp) readme_content; failed e])
             (<[readme_file pp := String.substring 0 n readme_content]> fs))
      | None =>
          (Return true,
           mkState reg pp
             (started ++ [OpenW (readme_file pp);
                          WriteTo (readme_file pp) readme_content;
                          Stdout ("✓ Created: " +:+ readme_file pp)])
             (<[readme_file pp := readme_content]> fs))
      end
  end.
Proof.
  rewrite create_readme_cases. cbn zeta. unfold log; cbn.
  console_returns Hcon;
    repeat (case_match; rewrite ?handler_run; unfold log; cbn; console_returns Hcon);
    by rewrite <- ?app_assoc.
Qed.

End Writers.

(** * What the catalogue holds *)

(** C9. In each of the 8 records of the catalogue the logical event name is
    the binding name: the "name" and "event_name" fields are both present,
    both strings, and equal. *)
Theorem event_name_is_name :
  length binding_records = 8
  /\ Forall (fun r => exists n,
               json_field "name" r = Some (JStr n)
               /\ json_field "event_name" r = Some (JStr n)) binding_records
  /\ binding_fields "event_name" = binding_fields "name".
Proof.
  split; [reflexivity|]. split; [|reflexivity].
  repeat (apply Forall_cons; split; [eexists; split; reflexivity|]).
  apply Forall_nil_2.
Qed.

(** * A directory that cannot be created *)

(** [os.makedirs] runs before the [try] block of [create_input_bindings] and
    of [create_component_source_files]: what it raises escapes the writer. *)
Lemma makedirs_fault_escapes (h : Host) (fp : Faults) (s : state) (e : exn) :
  console_accepts h ->
  (makedirs_fault fp (input_folder (project_path s)) = Some e ->
   fst (create_input_bindings h fp s) = Raise e)
  /\ (makedirs_fault fp (gem_code_path (project_path s)) = Some e ->
      fst (create_component_source_files h fp s) = Raise e).
Proof.
  intros Hcon. destruct s as [reg pp tr fs]. cbn [project_path].
  rewrite create_input_bindings_run, create_component_source_files_run by done.
  cbn zeta. split; by intros ->.
Qed.

(** Once the directory exists (or can be made), a failure to open the
    artifact's file is caught by the writer, which returns [False]. *)
Lemma open_fault_is_reported (h : Host) (fp : Faults) (s : state) (e : exn) :
  console_accepts h ->
  (makedirs_fault fp (input_folder (project_path s)) = None ->
   open_fault fp (input_file (project_path s)) = Some e ->
   fst (create_input_bindings h fp s) = Return false)
  /\ (makedirs_fault fp (gem_code_path (project_path s)) = None ->
      open_fault fp (header_file (project_path s)) = Some e ->
      fst (create_component_source_files h fp s) = Return false)
  /\ (open_fault fp (readme_file (project_path s)) = Some e ->
      fst (create_readme h fp s) = Return false).
Proof.
  intros Hcon. destruct s as [reg pp tr fs]. cbn [project_path].
  rewrite create_input_bindings_run, create_component_source_files_run,
    create_readme_run by done. cbn zeta.
  split_and!; intros; by repeat match goal with H : _ = _ |- _ => rewrite H end.
Qed.

(** C2, at a failing input.  The project has no [Config/Input] directory and
    the file system refuses to create it: the exception leaves
    [create_input_bindings] instead of being reported as [False], the
    orchestrator's handler catches it, the run returns [False], and the
    other two writers are never invoked: the only file-system event of the
    whole run is the failed [os.makedirs]. *)
Theorem unmakeable_directory_aborts_the_run :
  fst (create_input_bindings (stub_host []) (unmakeable "/proj/Config/Input")
         (fresh "/proj" ∅))
  = Raise "[Errno 30] Read-only file system"
  /\ fst (run_full_setup (stub_host []) (unmakeable "/proj/Config/Input") (fresh "/proj" ∅))
     = Return false
  /\ List.filter fs_event
       (trace (snd (run_full_setup (stub_host []) (unmakeable "/proj/Config/Input")
                      (fresh "/proj" ∅))))
     = [Makedirs "/proj/Config/Input"].
Proof. by vm_compute. Qed.

(** * Writes are not atomic *)

(** C8, as the claim states it, fails.  The bindings file holds an earlier
    version; the file opens (and is thereby truncated) but the device is
    full: the writer reports failure and the file is left empty, not in its
    pre-write state. *)
Lemma failed_write_truncates_the_file :
  exists s',
    create_input_bindings (stub_host []) disk_full
      (fresh "/proj" {["/proj/Config/Input/vehicle_camera.inputbindings" := "{}"]})
    = (Return false, s')
    /\ files (fresh "/proj" {["/proj/Config/Input/vehicle_camera.inputbindings" := "{}"]})
         !! "/proj/Config/Input/vehicle_camera.inputbindings" = Some "{}"
    /\ files s' !! "/proj/Config/Input/vehicle_camera.inputbindings" = Some EmptyString.
Proof.
  eexists. split; [by vm_compute|]. split; by vm_compute.
Qed.

(** Every case of a writer: what the console and the file system answer. *)
Ltac writer_cases :=
  cbn zeta; repeat first [case_match | rewrite handler_run]; unfold log; cbn.

(** C8, as the code has it.  A writer that cannot open its file leaves the
    file store as it was.  A writer whose write fails after the file was
    opened leaves in the file the part of the new content that got through
    (the file was truncated on opening), and reports failure; this holds for
    the bindings file, the header, the implementation file and the guide.
    And a later failure touches no earlier artifact: the header written
    before keeps its content when the implementation file cannot be opened
    or written, the source-file writer leaves the bindings file alone, and
    the guide writer leaves the bindings file and both source files alone,
    whether they succeed or fail.  What is said of the file store holds
    whatever the console does; a report of failure needs a console that
    accepts the line. *)
Theorem artifact_writes_are_not_atomic (h : Host) (fp : Faults) (s : state) :
  let pp := project_path s in
  (forall e, open_fault fp (input_file pp) = Some e ->
     files (snd (create_input_bindings h fp s)) = files s)
  /\ (forall e, open_fault fp (header_file pp) = Some e ->
        files (snd (create_component_source_files h fp s)) = files s)
  /\ (forall e, open_fault fp (cpp_file pp) = Some e ->
        files (snd (create_component_source_files h fp s)) !! cpp_file pp
        = files s !! cpp_file pp)
  /\ (forall e, open_fault fp (readme_file pp) = Some e ->
        files (snd (create_readme h fp s)) = files s)
  /\ (console_accepts h ->
      (forall n e,
         makedirs_fault fp (input_folder pp) = None ->
         open_fault fp (input_file pp) = None ->
         write_fault fp (input_file pp) = Some (n, e) ->
         fst (create_input_bindings h fp s) = Return false
         /\ files (snd (create_input_bindings h fp s)) !! input_file pp
            = Some (String.substring 0 n (json_dumps bindings 4)))
      /\ (forall n e,
            makedirs_fault fp (gem_code_path pp) = None ->
            open_fault fp (header_file pp) = None ->
            write_fault fp (header_file pp) = Some (n, e) ->
            fst (create_component_source_files h fp s) = Return false
            /\ files (snd (create_component_source_files h fp s)) !! header_file pp
               = Some (String.substring 0 n header_content)
            /\ files (snd (create_component_source_files h fp s)) !! cpp_file pp
               = files s !! cpp_file pp)
      /\ (forall e,
            makedirs_fault fp (gem_code_path pp) = None ->
            open_fault fp (header_file pp) = None ->
            write_fault fp (header_file pp) = None ->
            open_fault fp (cpp_file pp) = Some e ->
            fst (create_component_source_files h fp s) = Return false
            /\ files (snd (create_component_source_files h fp s)) !! header_file pp
               = Some header_content
            /\ files (snd (create_component_source_files h fp s)) !! cpp_file pp
               = files s !! cpp_file pp)
      /\ (forall n e,
            makedirs_fault fp (gem_code_path pp) = None ->
            open_fault fp (header_file pp) = None ->
            write_fault fp (header_file pp) = None ->
            open_fault fp (cpp_file pp) = None ->
            write_fault fp (cpp_file pp) = Some (n, e) ->
            fst (create_component_source_files h fp s) = Return false
            /\ files (snd (create_component_source_files h fp s)) !! header_file pp
               = Some header_content
            /\ files (snd (create_component_source_files h fp s)) !! cpp_file pp
               = Some (String.substring 0 n cpp_content))
      /\ (forall n e,
            open_fault fp (readme_file pp) = None ->
            write_fault fp (readme_file pp) = Some (n, e) ->
            fst (create_readme h fp s) = Return false
            /\ files (snd (create_readme h fp s)) !! readme_file pp
               = Some (String.substring 0 n readme_content)))
  /\ files (snd (create_component_source_files h fp s)) !! input_file pp
     = files s !! input_file pp
  /\ (forall p, p ∈ [input_file pp; header_file pp; cpp_file pp] ->
        files (snd (create_readme h fp s)) !! p = files s !! p).
Proof.
  destruct s as [reg pp tr fs]. cbn [project_path]. cbn zeta.
  destruct (artifact_files_distinct pp) as (Hih & Hic & Hir & Hhc & Hhr & Hcr).
  split_and!.
  - intros e He. rewrite create_input_bindings_cases. writer_cases; congruence || done.
  - intros e He. rewrite create_component_source_files_cases.
    writer_cases; congruence || done.
  - intros e He. rewrite create_component_source_files_cases.
    writer_cases; try congruence; by rewrite ?lookup_insert_ne.
  - intros e He. rewrite create_readme_cases. writer_cases; congruence || done.
  - intros Hcon.
    rewrite create_input_bindings_run, create_component_source_files_run,
      create_readme_run by done. cbn zeta.
    split_and!.
    + intros n e -> -> ->. cbn. by rewrite lookup_insert_eq.
    + intros n e -> -> ->. cbn. by rewrite lookup_insert_eq, lookup_insert_ne.
    + intros e -> -> -> ->. cbn. by rewrite lookup_insert_eq, lookup_insert_ne.
    + intros n e -> -> -> -> ->. cbn.
      by rewrite lookup_insert_eq, lookup_insert_ne, lookup_insert_eq.
    + intros n e -> ->. cbn. by rewrite lookup_insert_eq.
  - rewrite create_component_source_files_cases.
    writer_cases; by rewrite ?lookup_insert_ne.
  - intros p Hp.
    assert (readme_file pp <> p) as Hne.
    { apply list_elem_of_In in Hp. cbn in Hp.
      destruct Hp as [<-|[<-|[<-|[]]]]; by apply not_eq_sym. }
    rewrite create_readme_cases. writer_cases; by rewrite ?lookup_insert_ne.
Qed.

(** The device fills up after ten characters of the implementation file:
    the writer reports failure, the header is complete, and the
    implementation file holds those ten characters. *)
Lemma artifact_writes_are_not_atomic_witness :
  fst (create_component_source_files (stub_host []) (short_write (cpp_file "/proj") 10)
         (fresh "/proj" ∅)) = Return false
  /\ files (snd (create_component_source_files (stub_host [])
                   (short_write (cpp_file "/proj") 10) (fresh "/proj" ∅)))
       !! header_file "/proj" = Some header_content
  /\ files (snd (create_component_source_files (stub_host [])
                   (short_write (cpp_file "/proj") 10) (fresh "/proj" ∅)))
       !! cpp_file "/proj" = Some (String.substring 0 10 cpp_content).
Proof.
  destruct (artifact_writes_are_not_atomic (stub_host [])
              (short_write (cpp_file "/proj") 10) (fresh "/proj" ∅))
    as (_ & _ & _ & _ & H & _).
  destruct H as (_ & _ & _ & H & _); [by intros t line|].
  apply (H 10 "[Errno 28] No space left on device"); by vm_compute.
Defined.

(** * Running the setup twice *)

Section FixedEffect.

Variable pp : string.
Variable D : gset string.

Lemma fixed_ret {A} (a : A) : fixed_effect pp D (mret a).
Proof.
  exists ∅, (Return a). split; [set_solver|]. intros reg tr fs.
  exists reg, []. by rewrite app_nil_r, (left_id_L ∅ (∪)).
Qed.

Lemma fixed_emit (e : Event) : fixed_effect pp D (fun s => (Return tt, log e s)).
Proof.
  exists ∅, (Return tt). split; [set_solver|]. intros reg tr fs.
  exists reg, [e]. by rewrite (left_id_L ∅ (∪)).
Qed.

Lemma fixed_traceback (e : exn) : fixed_effect pp D (traceback_print_exc e).
Proof. apply fixed_emit. Qed.

Lemma fixed_set_created_entity role e : fixed_effect pp D (set_created_entity role e).
Proof.
  exists ∅, (Return tt). split; [set_solver|]. intros reg tr fs.
  exists (dict_set role e reg), []. by rewrite app_nil_r, (left_id_L ∅ (∪)).
Qed.

Lemma fixed_bus {A} (c : HostCall) (answer : list Event -> outcome A) :
  (forall t t', answer t = answer t') -> fixed_effect pp D (bus c answer).
Proof.
  intros Ha. exists ∅, (answer []). split; [set_solver|]. intros reg tr fs.
  exists reg, [Call c]. unfold bus, log. cbn. by rewrite (left_id_L ∅ (∪)), (Ha tr []).
Qed.

Lemma fixed_makedirs (fp : Faults) (path : string) : fixed_effect pp D (os_makedirs fp path).
Proof.
  eexists ∅, _. split; [set_solver|]. intros reg tr fs.
  exists reg, [Makedirs path]. unfold os_makedirs, log. cbn. by rewrite (left_id_L ∅ (∪)).
Qed.

Lemma fixed_write_file (fp : Faults) (path data : string) :
  path ∈ D -> fixed_effect pp D (with_open_w fp path (fun f => f_write fp f data)).
Proof.
  intros Hp.
  destruct (open_fault fp path) as [e|] eqn:Ho;
    [|destruct (write_fault fp path) as [[n e]|] eqn:Hw].
  - exists ∅, (Raise e). split; [set_solver|]. intros reg tr fs.
    exists reg, [OpenW path]. by rewrite write_file_run, Ho, (left_id_L ∅ (∪)).
  - exists {[path := String.substring 0 n data]}, (Raise e).
    split; [rewrite dom_singleton_L; set_solver|]. intros reg tr fs.
    exists reg, [OpenW path; WriteTo path data].
    by rewrite write_file_run, Ho, Hw, insert_union_singleton_l.
  - exists {[path := data]}, (Return tt).
    split; [rewrite dom_singleton_L; set_solver|]. intros reg tr fs.
    exists reg, [OpenW path; WriteTo path data].
    by rewrite write_file_run, Ho, Hw, insert_union_singleton_l.
Qed.

Lemma fixed_bind {A B} (m : M A) (k : A -> M B) :
  fixed_effect pp D m -> (forall a, fixed_effect pp D (k a)) ->
  fixed_effect pp D (m ≫= k).
Proof.
  intros (W1 & o1 & HD1 & Hm) Hk. destruct o1 as [a|e].
  - destruct (Hk a) as (W2 & o2 & HD2 & Hka).
    exists (W2 ∪ W1), o2. split; [rewrite dom_union_L; by apply union_least|].
    intros reg tr fs. rewrite run_bind.
    destruct (Hm reg tr fs) as (reg1 & evs1 & ->).
    destruct (Hka reg1 (tr ++ evs1) (W1 ∪ fs)) as (reg2 & evs2 & ->).
    exists reg2, (evs1 ++ evs2). by rewrite app_assoc, (assoc_L (∪)).
  - exists W1, (Raise e). split; [done|].
    intros reg tr fs. rewrite run_bind.
    destruct (Hm reg tr fs) as (reg1 & evs1 & ->). by exists reg1, evs1.
Qed.

(** [self.project_path] is [pp] here, so only that continuation matters. *)
Lemma fixed_bind_project_path {B} (k : string -> M B) :
  fixed_effect pp D (k pp) -> fixed_effect pp D (get_project_path ≫= k).
Proof.
  intros (W & o & HD & Hk). exists W, o. split; [done|].
  intros reg tr fs. rewrite run_bind. unfold get_project_path. cbn. apply Hk.
Qed.

Lemma fixed_try {A} (body : M A) (handler : exn -> M A) :
  fixed_effect pp D body -> (forall e, fixed_effect pp D (handler e)) ->
  fixed_effect pp D (try_except body handler).
Proof.
  intros (W1 & o1 & HD1 & Hm) Hk. destruct o1 as [a|e].
  - exists W1, (Return a). split; [done|].
    intros reg tr fs. rewrite run_try.
    destruct (Hm reg tr fs) as (reg1 & evs1 & ->). by exists reg1, evs1.
  - destruct (Hk e) as (W2 & o2 & HD2 & Hke).
    exists (W2 ∪ W1), o2. split; [rewrite dom_union_L; by apply union_least|].
    intros reg tr fs. rewrite run_try.
    destruct (Hm reg tr fs) as (reg1 & evs1 & ->).
    destruct (Hke reg1 (tr ++ evs1) (W1 ∪ fs)) as (reg2 & evs2 & ->).
    exists reg2, (evs1 ++ evs2). by rewrite app_assoc, (assoc_L (∪)).
Qed.

Lemma fixed_if {A} (b : bool) (m1 m2 : M A) :
  fixed_effect pp D m1 -> fixed_effect pp D m2 ->
  fixed_effect pp D (if b then m1 else m2).
Proof. by destruct b. Qed.

(** ** Printing, on a console that accepts every line *)

Section Console.

Variable h : Host.
Hypothesis Hcon : console_accepts h.

Lemma fixed_print (line : string) : fixed_effect pp D (print h line).
Proof.
  exists ∅, (Return tt). split; [set_solver|]. intros reg tr fs.
  exists reg, [Stdout line]. rewrite print_accepted by apply Hcon.
  by rewrite (left_id_L ∅ (∪)).
Qed.

Lemma for_each_print_run {A} (line : A -> string) (l : list A) reg tr fs :
  for_each l (fun x => print h (line x)) (mkState reg pp tr fs) =
  (Return tt, mkState reg pp (tr ++ map (fun x => Stdout (line x)) l) fs).
Proof.
  revert tr. induction l as [|x l IH]; intros tr; cbn [for_each map].
  - by rewrite app_nil_r.
  - rewrite print_then by apply Hcon. unfold log. cbn.
    by rewrite IH, <- app_assoc.
Qed.

(** The summary loop prints one line per registered entity, whichever
    entities these are. *)
Lemma fixed_items_loop {B} (line : string * EntityId -> string) (k : M B) :
  fixed_effect pp D k ->
  fixed_effect pp D
    (created_entities_items ≫= fun items =>
       for_each items (fun item => print h (line item)) ≫= fun _ => k).
Proof.
  intros (W & o & HD & Hk). exists W, o. split; [done|].
  intros reg tr fs. rewrite run_bind. unfold created_entities_items. cbn.
  rewrite run_bind, for_each_print_run.
  destruct (Hk reg (tr ++ map (fun x => Stdout (line x)) reg) fs) as (reg' & evs & ->).
  exists reg', (map (fun x => Stdout (line x)) reg ++ evs). by rewrite app_assoc.
Qed.

End Console.

(** A step that cannot raise and leaves the files alone, followed by a
    continuation that ignores its result. *)
Lemma fixed_after_step {A B} (m : M A) (k : M B) :
  never_raises m ->
  within (mkFootprint any_change eq (fun _ => True)) m ->
  fixed_effect pp D k ->
  fixed_effect pp D (m ≫= fun _ => k).
Proof.
  intros Ht Hm (W & o & HD & Hk). exists W, o. split; [done|].
  intros reg tr fs. rewrite run_bind.
  destruct (Hm (mkState reg pp tr fs)) as (o1 & evs1 & reg1 & fs1 & Hrun & _ & Hfs & _).
  destruct (Ht (mkState reg pp tr fs)) as (a & s1 & Hret).
  cbn in *. subst fs1. rewrite Hrun in Hret. injection Hret as -> _. rewrite Hrun.
  destruct (Hk reg1 (tr ++ evs1) fs) as (reg2 & evs2 & ->).
  exists reg2, (evs1 ++ evs2). by rewrite app_assoc.
Qed.

(** Laying the same writes over the store twice changes nothing more. *)
Lemma fixed_effect_twice {A} (m : M A) :
  fixed_effect pp D m ->
  exists (W : gmap string string) (o : outcome A),
    dom W ⊆ D
    /\ forall s, project_path s = pp ->
         fst (m s) = o
         /\ files (snd (m s)) = W ∪ files s
         /\ project_path (snd (m s)) = pp
         /\ fst (m (snd (m s))) = o
         /\ files (snd (m (snd (m s)))) = files (snd (m s)).
Proof.
  intros (W & o & HD & Hm). exists W, o. split; [done|].
  intros [reg p tr fs] Hp. cbn in Hp. subst p.
  destruct (Hm reg tr fs) as (reg1 & evs1 & ->). cbn.
  destruct (Hm reg1 (tr ++ evs1) (W ∪ fs)) as (reg2 & evs2 & ->). cbn.
  by rewrite (assoc_L (∪)), (idemp_L (∪)).
Qed.

End FixedEffect.

(** A syntax-directed proof of [fixed_effect]; it leaves the conditions on
    the host's answers and on the paths written as goals. *)
Ltac fixed_step :=
  lazymatch goal with
  | |- fixed_effect _ _ (mret _) => apply fixed_ret
  | |- fixed_effect _ _ (get_project_path ≫= _) =>
      apply fixed_bind_project_path; cbn beta
  | |- fixed_effect _ _ (created_entities_items ≫= _) =>
      apply fixed_items_loop; [assumption|]
  | |- fixed_effect _ _ (_ ≫= _) => apply fixed_bind; [ | intros ?]
  | |- fixed_effect _ _ (try_except _ _) => apply fixed_try; [ | intros ?]
  | |- fixed_effect _ _ (if _ then _ else _) => apply fixed_if
  | |- fixed_effect _ _ (print _ _) => apply fixed_print; assumption
  | |- fixed_effect _ _ (traceback_print_exc _) => apply fixed_traceback
  | |- fixed_effect _ _ (set_created_entity _ _) => apply fixed_set_created_entity
  | |- fixed_effect _ _ (bus _ _) => apply fixed_bus
  | |- fixed_effect _ _ (os_makedirs _ _) => apply fixed_makedirs
  | |- fixed_effect _ _ (with_open_w _ _ _) =>
      unfold json_dump; apply fixed_write_file
  | |- fixed_effect _ _ (ToolsApplicationRequestBus_CreateNewEntity _ _) =>
      unfold ToolsApplicationRequestBus_CreateNewEntity
  | |- fixed_effect _ _ (EditorEntityAPIBus_SetName _ _ _) =>
      unfold EditorEntityAPIBus_SetName
  | |- fixed_effect _ _ (EditorComponentAPIBus_FindComponentTypeIdsByEntityType _ _ _) =>
      unfold EditorComponentAPIBus_FindComponentTypeIdsByEntityType
  | |- fixed_effect _ _ (EditorComponentAPIBus_AddComponentsOfType _ _ _) =>
      unfold EditorComponentAPIBus_AddComponentsOfType
  | |- fixed_effect _ _ (EditorComponentAPIBus_SetComponentProperty _ _ _ _) =>
      unfold EditorComponentAPIBus_SetComponentProperty
  | |- fixed_effect _ _ (EditorTransformComponentRequestBus_SetWorldTM _ _ _) =>
      unfold EditorTransformComponentRequestBus_SetWorldTM
  | |- fixed_effect _ _ (EditorTransformComponentRequestBus_SetLocalTM _ _ _) =>
      unfold EditorTransformComponentRequestBus_SetLocalTM
  end.

Ltac fixed_auto := repeat fixed_step.

Lemma scene_keeps_files (h : Host) :
  within scene_footprint (setup_camera_entity h)
  /\ within scene_footprint (setup_vehicle_entity h)
  /\ within scene_footprint (setup_game_manager h)
  /\ within scene_footprint (setup_ground_plane h)
  /\ within scene_footprint (setup_lighting h).
Proof.
  unfold setup_camera_entity, setup_vehicle_entity, setup_game_manager,
    setup_ground_plane, setup_lighting, create_entity, add_component,
    set_component_property.
  split_and!; within_auto; done.
Qed.

Section Rerun.

Variable h : Host.
Variable fp : Faults.
Variable pp : string.
Hypothesis Hcon : console_accepts h.

(** The three writers and the summary that follows them. *)
Lemma artifacts_fixed_effect {A} (k : M A) :
  fixed_effect pp (artifact_files pp) k ->
  fixed_effect pp (artifact_files pp)
    (create_input_bindings h fp ≫= fun _ =>
     create_component_source_files h fp ≫= fun _ =>
     create_readme h fp ≫= fun _ => k).
Proof.
  intros Hk.
  unfold create_input_bindings, create_component_source_files, create_readme.
  fixed_auto; try exact Hk; unfold artifact_files;
    [change (input_file pp ∈ ({[input_file pp; header_file pp; cpp_file pp;
                                readme_file pp]} : gset string))
    |change (header_file pp ∈ ({[input_file pp; header_file pp; cpp_file pp;
                                 readme_file pp]} : gset string))
    |change (cpp_file pp ∈ ({[input_file pp; header_file pp; cpp_file pp;
                              readme_file pp]} : gset string))
    |change (readme_file pp ∈ ({[input_file pp; header_file pp; cpp_file pp;
                                 readme_file pp]} : gset string))];
    set_solver.
Qed.

Lemma run_full_setup_fixed_canned :
  history_independent h -> fixed_effect pp (artifact_files pp) (run_full_setup h fp).
Proof.
  intros Hind. unfold run_full_setup, run_full_setup_body.
  do 3 (apply fixed_bind; [by apply fixed_print|intros _]).
  apply fixed_try; [|intros e; fixed_auto].
  do 5 (apply fixed_bind;
        [unfold setup_camera_entity, setup_vehicle_entity, setup_game_manager,
           setup_ground_plane, setup_lighting, create_entity, add_component,
           set_component_property;
         fixed_auto; intros; apply Hind
        |intros _]).
  apply artifacts_fixed_effect. fixed_auto.
Qed.

Lemma run_full_setup_fixed_succeeding :
  host_succeeds h -> fixed_effect pp (artifact_files pp) (run_full_setup h fp).
Proof.
  intros Hh. unfold run_full_setup, run_full_setup_body.
  destruct (scene_keeps_files h) as (K1 & K2 & K3 & K4 & K5).
  do 3 (apply fixed_bind; [by apply fixed_print|intros _]).
  apply fixed_try; [|intros e; fixed_auto].
  apply fixed_after_step; [by apply setup_camera_entity_never_raises | exact K1 |].
  apply fixed_after_step; [by apply setup_vehicle_entity_never_raises | exact K2 |].
  apply fixed_after_step; [by apply setup_game_manager_never_raises | exact K3 |].
  apply fixed_after_step; [by apply setup_ground_plane_never_raises | exact K4 |].
  apply fixed_after_step; [by apply setup_lighting_never_raises | exact K5 |].
  apply artifacts_fixed_effect. fixed_auto.
Qed.

(** On a console that accepts every line, the [try] of [run_full_setup]
    lets nothing out. *)
Lemma run_full_setup_never_raises : never_raises (run_full_setup h fp).
Proof. unfold run_full_setup. auto 10 with total. Qed.

End Rerun.

Lemma canned_host_independent : history_independent canned_host.
Proof. by split. Qed.

(** C7. Take a host whose console accepts the script's lines and that
    answers the second run as it answered the first (its answers do not
    depend on the history), or a host none of whose calls raises; and a file
    system with a fixed fault plan.  Then a run has one aggregate
    result [success] and one set [written] of whole-file writes, all to the
    four artifact paths of the project, whatever the state it starts from:
    it leaves the store [written ∪ files s], so what an artifact file held
    before is replaced, not merged.  Running again from the state the first
    run left returns the same [success], uses the same project path (hence
    the same artifact paths), and leaves every file exactly as the first run
    left it. *)
Theorem rerun_is_idempotent (h : Host) (fp : Faults) (pp : string) :
  history_independent h /\ console_accepts h \/ host_succeeds h ->
  exists (written : gmap string string) (success : bool),
    dom written ⊆ artifact_files pp
    /\ forall s, project_path s = pp ->
         fst (run_full_setup h fp s) = Return success
         /\ files (snd (run_full_setup h fp s)) = written ∪ files s
         /\ project_path (snd (run_full_setup h fp s)) = pp
         /\ fst (run_full_setup h fp (snd (run_full_setup h fp s))) = Return success
         /\ files (snd (run_full_setup h fp (snd (run_full_setup h fp s))))
            = files (snd (run_full_setup h fp s)).
Proof.
  intros Hhost.
  assert (Hcon : console_accepts h).
  { destruct Hhost as [[_ Hcon]|Hh]; [exact Hcon | apply Hh]. }
  assert (Hfixed : fixed_effect pp (artifact_files pp) (run_full_setup h fp)).
  { destruct Hhost as [[Hind _]|Hh];
      [by apply run_full_setup_fixed_canned
      |by apply run_full_setup_fixed_succeeding]. }
  destruct (fixed_effect_twice pp _ _ Hfixed) as (W & o & HD & Htwice).
  destruct o as [b|e].
  - by exists W, b.
  - exfalso.
    destruct (Htwice (fresh pp ∅) eq_refl) as (Hfst & _).
    destruct (run_full_setup_never_raises h fp Hcon (fresh pp ∅)) as (b & s' & Hrun).
    by rewrite Hrun in Hfst.
Qed.

Lemma rerun_is_idempotent_witness :
  exists (written : gmap string string) (success : bool),
    dom written ⊆ artifact_files "/proj"
    /\ forall s, project_path s = "/proj" ->
         fst (run_full_setup canned_host no_faults s) = Return success
         /\ files (snd (run_full_setup canned_host no_faults s)) = written ∪ files s
         /\ project_path (snd (run_full_setup canned_host no_faults s)) = "/proj"
         /\ fst (run_full_setup canned_host no_faults
                   (snd (run_full_setup canned_host no_faults s))) = Return success
         /\ files (snd (run_full_setup canned_host no_faults
                          (snd (run_full_setup canned_host no_faults s))))
            = files (snd (run_full_setup canned_host no_faults s)).
Proof.
  apply (rerun_is_idempotent canned_host no_faults "/proj").
  left. split; [apply canned_host_independent | by intros t line].
Defined.

(** * The bindings file at the end of a run *)

Lemma within_facts {A} (F : Footprint) (m : M A) (s : state) (o : outcome A) (s' : state) :
  within F m -> m s = (o, s') ->
  project_path s' = project_path s
  /\ reg_rel F (created_entities s) (created_entities s')
  /\ fs_rel F (files s) (files s').
Proof.
  intros Hm Hrun. destruct (Hm s) as (o1 & evs & reg' & fs' & Hrun' & Hr & Hf & _).
  rewrite Hrun in Hrun'. by injection Hrun' as -> ->.
Qed.

Lemma pair_fst {A B} (p : A * B) (a : A) : fst p = a -> p = (a, snd p).
Proof. intros <-. by destruct p. Qed.







(** * Further properties of the artifact writers *)


(** X2. [create_readme] never asks for a directory to be created and
    touches no file but the guide.  Whenever it returns [True], the guide
    file holds the fixed guide text.  On a console that accepts its lines it
    never raises, and returns [True] exactly when the file system lets the
    file be opened and written.  Its report comes after the write: when the
    file was opened and written, the file holds the whole text whatever the
    console then does to the closing line, so a refused line makes the
    method fail, or report failure, over a file that is complete. *)
Theorem create_readme_behaviour (h : Host) (fp : Faults) (s : state) :
  List.filter is_makedirs (emitted (create_readme h fp) s) = []
  /\ (forall p, p <> readme_file (project_path s) ->
        files (snd (create_readme h fp s)) !! p = files s !! p)
  /\ (fst (create_readme h fp s) = Return true ->
      files (snd (create_readme h fp s)) !! readme_file (project_path s)
      = Some readme_content)
  /\ (console_accepts h ->
      exists b, fst (create_readme h fp s) = Return b
        /\ (b = true <->
            open_fault fp (readme_file (project_path s)) = None
            /\ write_fault fp (readme_file (project_path s)) = None))
  /\ (returns (hStdout h (trace s) (nl +:+ "=== Creating README ===")) ->
      open_fault fp (readme_file (project_path s)) = None ->
      write_fault fp (readme_file (project_path s)) = None ->
      files (snd (create_readme h fp s)) !! readme_file (project_path s)
      = Some readme_content).
Proof.
  destruct s as [reg pp tr fs]. unfold emitted. cbn [project_path trace files].
  split_and!.
  - rewrite create_readme_cases.
    writer_cases;
      rewrite <- ?app_assoc; first [rewrite drop_app_length | rewrite drop_all]; done.
  - intros p Hp. rewrite create_readme_cases.
    writer_cases; by rewrite ?lookup_insert_ne.
  - rewrite create_readme_cases.
    writer_cases; try discriminate. intros _. apply lookup_insert_eq.
  - intros Hcon. rewrite create_readme_run by done. cbn zeta.
    destruct (open_fault fp (readme_file pp)) as [e|];
      [|destruct (write_fault fp (readme_file pp)) as [[n e]|]]; cbn.
    + exists false. split; [done|]. split; [done|by intros [? ?]].
    + exists false. split; [done|]. split; [done|by intros [? ?]].
    + by exists true.
  - intros Hheader Ho Hw. rewrite create_readme_cases. cbn zeta.
    destruct (hStdout h tr (nl +:+ "=== Creating README ===")) as [[]|x]; [|done].
    rewrite Ho, Hw.
    writer_cases; apply lookup_insert_eq.
Qed.

(** A healthy file system and a console that accepts every line. *)
Lemma create_readme_behaviour_witness :
  (exists b, fst (create_readme (stub_host []) no_faults (fresh "/proj" ∅)) = Return b
     /\ (b = true <->
         open_fault no_faults (readme_file (project_path (fresh "/proj" ∅))) = None
         /\ write_fault no_faults (readme_file (project_path (fresh "/proj" ∅))) = None))
  /\ files (snd (create_readme (stub_host []) no_faults (fresh "/proj" ∅)))
       !! readme_file "/proj" = Some readme_content.
Proof.
  destruct (create_readme_behaviour (stub_host []) no_faults (fresh "/proj" ∅))
    as (_ & _ & H3 & H4 & _).
  split; [apply H4; by intros t line | apply H3; by vm_compute].
Defined.

(** The console cannot encode the check mark: the guide is written in full,
    and [create_readme] raises. *)
Example readme_written_but_not_reported :
  fst (create_readme (ascii_console (stub_host [])) no_faults (fresh "/proj" ∅))
  = Raise encode_error
  /\ files (snd (create_readme (ascii_console (stub_host [])) no_faults (fresh "/proj" ∅)))
       !! readme_file "/proj" = Some readme_content.
Proof. split; by vm_compute. Qed.

(** X3. The two source files are written one after the other inside one
    [try].  When the writer returns [True], both hold their template.  On a
    console that accepts the writer's lines: when the header was written and
    the implementation file cannot be opened, the writer returns [False],
    the header keeps the new template and the implementation file is
    untouched; and when the header cannot be opened, the implementation file
    is not even attempted. *)
Theorem source_files_are_written_in_sequence (h : Host) (fp : Faults) (s : state) :
  let pp := project_path s in
  (fst (create_component_source_files h fp s) = Return true ->
   files (snd (create_component_source_files h fp s)) !! header_file pp
   = Some header_content
   /\ files (snd (create_component_source_files h fp s)) !! cpp_file pp
      = Some cpp_content)
  /\ (console_accepts h ->
      (forall e,
         makedirs_fault fp (gem_code_path pp) = None ->
         open_fault fp (header_file pp) = None ->
         write_fault fp (header_file pp) = None ->
         open_fault fp (cpp_file pp) = Some e ->
         fst (create_component_source_files h fp s) = Return false
         /\ files (snd (create_component_source_files h fp s)) !! header_file pp
            = Some header_content
         /\ files (snd (create_component_source_files h fp s)) !! cpp_file pp
            = files s !! cpp_file pp)
      /\ (forall e,
            open_fault fp (header_file pp) = Some e ->
            List.filter fs_event (emitted (create_component_source_files h fp) s)
            = Makedirs (gem_code_path pp)
              :: match makedirs_fault fp (gem_code_path pp) with
                 | Some _ => []
                 | None => [OpenW (header_file pp)]
                 end)).
Proof.
  destruct s as [reg pp tr fs]. unfold emitted. cbn [project_path trace files]. cbn zeta.
  destruct (artifact_files_distinct pp) as (_ & _ & _ & Hhc & _).
  split.
  - rewrite create_component_source_files_cases.
    writer_cases; try discriminate.
    intros _. split; [|apply lookup_insert_eq].
    rewrite lookup_insert_ne by done. apply lookup_insert_eq.
  - intros Hcon. rewrite create_component_source_files_run by done. cbn zeta. split.
    + intros e -> -> -> ->. cbn. split; [done|]. split; [apply lookup_insert_eq|].
      by rewrite lookup_insert_ne.
    + intros e ->. destruct (makedirs_fault fp (gem_code_path pp)); cbn.
      * by rewrite drop_app_length.
      * by rewrite <- app_assoc, drop_app_length.
Qed.

Lemma source_files_are_written_in_sequence_witness :
  files (snd (create_component_source_files (stub_host []) no_faults (fresh "/proj" ∅)))
    !! header_file "/proj" = Some header_content
  /\ files (snd (create_component_source_files (stub_host []) no_faults (fresh "/proj" ∅)))
       !! cpp_file "/proj" = Some cpp_content.
Proof.
  destruct (source_files_are_written_in_sequence (stub_host []) no_faults (fresh "/proj" ∅))
    as (H & _).
  apply H. by vm_compute.
Defined.

(** * The constructor and the entry point *)

Lemma list_ascii_of_string_app (a b : string) :
  list_ascii_of_string (a +:+ b) = list_ascii_of_string a ++ list_ascii_of_string b.
Proof.
  induction a as [|c a IH]; [done|].
  rewrite str_app_cons. cbn [list_ascii_of_string]. by rewrite IH.
Qed.

Lemma string_of_list_ascii_app (l k : list ascii) :
  string_of_list_ascii (l ++ k) = string_of_list_ascii l +:+ string_of_list_ascii k.
Proof.
  induction l as [|c l IH]; [done|].
  cbn [app string_of_list_ascii]. by rewrite IH, str_app_cons.
Qed.

Lemma upto_last_sep_no_sep (x : string) :
  has_sep x = false -> upto_last_sep (list_ascii_of_string x) = [].
Proof.
  induction x as [|c x IH]; [done|]. cbn [has_sep list_ascii_of_string upto_last_sep].
  intros [Hc Hx]%orb_false_elim. by rewrite Hc, IH.
Qed.

Lemma upto_last_sep_app (l : list ascii) (x : string) :
  has_sep x = false ->
  upto_last_sep (l ++ "/"%char :: list_ascii_of_string x) = l ++ ["/"%char].
Proof.
  intros Hx. induction l as [|c l IH].
  - cbn. by rewrite upto_last_sep_no_sep.
  - cbn [app upto_last_sep]. rewrite IH. destruct (is_sep c); [done|]. by destruct l.
Qed.

Lemma rstrip_sep_name (l : list ascii) (c : ascii) :
  is_sep c = false -> rstrip_sep (l ++ [c; "/"%char]) = l ++ [c].
Proof.
  intros Hc. unfold rstrip_sep.
  rewrite rev_app_distr. cbn. rewrite Hc. cbn. by rewrite rev_involutive.
Qed.

Lemma not_all_sep (l : list ascii) (c : ascii) :
  is_sep c = false -> forallb is_sep (l ++ [c; "/"%char]) = false.
Proof.
  intros Hc. rewrite forallb_app. cbn. rewrite Hc. apply andb_false_r.
Qed.

(** The directory of [x/y], where [x] ends with a name and [y] holds no
    separator, is [x]. *)
Lemma os_path_dirname_child (x y : string) :
  ends_with_name x -> has_sep y = false -> os_path_dirname (x +:+ "/" +:+ y) = x.
Proof.
  intros [Hne Hend] Hy.
  assert (exists m c, x = m +:+ String c EmptyString /\ is_sep c = false)
    as (m & c & -> & Hc).
  { clear Hy. induction x as [|c x IH]; [done|].
    destruct x as [|c' x'].
    - exists EmptyString, c. by split.
    - destruct IH as (m & c0 & Hm & Hc0); [done|done|].
      exists (String c m), c0. rewrite str_app_cons, <- Hm. by split. }
  unfold os_path_dirname.
  rewrite !list_ascii_of_string_app. cbn [list_ascii_of_string app].
  rewrite <- app_assoc. cbn [app].
  assert (list_ascii_of_string m ++ c :: "/"%char :: list_ascii_of_string y
          = (list_ascii_of_string m ++ [c]) ++ "/"%char :: list_ascii_of_string y) as ->
    by (by rewrite <- app_assoc).
  rewrite upto_last_sep_app by done.
  rewrite <- app_assoc. cbn [app].
  rewrite not_all_sep, rstrip_sep_name by done. cbn [negb].
  rewrite string_of_list_ascii_app, string_of_list_ascii_of_string. done.
Qed.

Lemma child_ends_with_name (x a : string) :
  str_empty a = false -> has_sep a = false -> ends_with_name (x +:+ "/" +:+ a).
Proof.
  intros Ha Hs. split.
  - apply str_empty_app. done.
  - rewrite endswith_sep_app by done.
    assert (endswith_sep a = false) as Hend.
    { clear Ha. induction a as [|c a IH]; [done|].
      cbn in Hs. apply orb_false_elim in Hs as [Hc Hs].
      cbn [endswith_sep]. destruct a; [done|by apply IH]. }
    change ("/" +:+ a) with (String "/" a). cbn [endswith_sep].
    by destruct a.
Qed.

(** X4. The constructor starts from an empty registry and takes as project
    path the directory two levels above the game folder the host names: for
    a game folder [root/a/b], where [root] ends with a name, [a] is a name
    and [b] holds no separator, the project path is [root].  It issues one
    host call, prints one line and leaves the files alone; when the console
    refuses that line, the constructor raises, with the project path
    already set. *)
Theorem init_takes_the_grandparent (h : Host) (s : state) (root_ a b : string) :
  ends_with_name root_ ->
  str_empty a = false -> has_sep a = false -> has_sep b = false ->
  hGetGameFolder h (trace s) = Return (root_ +:+ "/" +:+ a +:+ "/" +:+ b) ->
  exists o s',
    init h s = (o, s')
    /\ project_path s' = root_
    /\ created_entities s' = []
    /\ files s' = files s
    /\ match hStdout h (trace s ++ [Call GetGameFolder]) ("Project path: " +:+ root_) with
       | Return _ =>
           o = Return tt
           /\ trace s' =
              trace s ++ [Call GetGameFolder; Stdout ("Project path: " +:+ root_)]
       | Raise e => o = Raise e /\ trace s' = trace s ++ [Call GetGameFolder]
       end.
Proof.
  intros Hroot Ha Hsa Hsb Hhost. destruct s as [reg pp tr fs]. cbn in Hhost.
  assert (os_path_dirname (os_path_dirname (root_ +:+ "/" +:+ a +:+ "/" +:+ b)) = root_)
    as Hdir.
  { rewrite <- !str_app_assoc.
    rewrite (str_app_assoc root_ "/" a).
    rewrite (str_app_assoc (root_ +:+ "/" +:+ a) "/" b).
    rewrite os_path_dirname_child by (by try apply child_ends_with_name).
    by rewrite os_path_dirname_child. }
  unfold init. unfold_prims. cbn. rewrite Hhost. cbn. rewrite Hdir.
  destruct (hStdout h (tr ++ [Call GetGameFolder]) ("Project path: " +:+ root_))
    as [[]|e]; eexists _, _; (split; [reflexivity|]); cbn;
    by rewrite <- ?app_assoc.
Qed.

Lemma init_takes_the_grandparent_witness :
  exists o s',
    init (stub_host []) (boot ∅) = (o, s')
    /\ project_path s' = "/home/dev/MyProject"
    /\ created_entities s' = []
    /\ files s' = files (boot ∅)
    /\ match hStdout (stub_host []) (trace (boot ∅) ++ [Call GetGameFolder])
               ("Project path: " +:+ "/home/dev/MyProject") with
       | Return _ =>
           o = Return tt
           /\ trace s' =
              trace (boot ∅) ++
              [Call GetGameFolder; Stdout ("Project path: " +:+ "/home/dev/MyProject")]
       | Raise e => o = Raise e /\ trace s' = trace (boot ∅) ++ [Call GetGameFolder]
       end.
Proof.
  apply (init_takes_the_grandparent (stub_host []) (boot ∅)
           "/home/dev/MyProject" "Cache" "pc"); by vm_compute.
Defined.

(** X5. The constructor runs outside any handler, and so does the whole of
    [main()].  On a console that accepts what the script prints: when the
    host cannot name the game folder, [main()] raises that exception, having
    created no entity and touched no file; when it can, [main()] does not
    raise: it runs the setup on the freshly constructed object, prints the
    closing lines that match the result, and returns the result of
    [run_full_setup]. *)
Theorem main_outcome (h : Host) (fp : Faults) (s : state) :
  console_accepts h ->
  match hGetGameFolder h (trace (main_started s)) with
  | Raise e =>
      main h fp s =
      (Raise e,
       {| created_entities := [];
          project_path := project_path s;
          trace := trace (main_started s) ++ [Call GetGameFolder];
          files := files s |})
  | Return game_folder =>
      exists success s1,
        run_full_setup h fp (constructed game_folder (main_started s)) = (Return success, s1)
        /\ main h fp s = (Return success, main_closing success s1)
  end.
Proof.
  intros Hcon. destruct s as [reg pp tr fs].
  destruct (hGetGameFolder h (trace (main_started (mkState reg pp tr fs)))) as [g|e] eqn:Hhost.
  - destruct (run_full_setup_never_raises h fp Hcon
                (constructed g (main_started (mkState reg pp tr fs)))) as (b & s1 & Hrun).
    exists b, s1. split; [exact Hrun|].
    unfold main, init, main_started, constructed, main_closing in *.
    unfold_prims. cbn in *. console_returns Hcon. rewrite Hhost. cbn.
    console_returns Hcon. rewrite Hrun.
    destruct b; cbn; console_returns Hcon; reflexivity.
  - unfold main, init, main_started in *.
    unfold_prims. cbn in *. console_returns Hcon. by rewrite Hhost.
Qed.

(** The stub editor, with a console that accepts every line. *)
Lemma main_outcome_witness :
  exists success s1,
    run_full_setup (stub_host []) no_faults
      (constructed "/home/dev/MyProject/Cache/pc" (main_started (boot ∅)))
    = (Return success, s1)
    /\ main (stub_host []) no_faults (boot ∅) = (Return success, main_closing success s1).
Proof.
  apply (main_outcome (stub_host []) no_faults (boot ∅)). by intros t line.
Defined.

(** On a console that cannot encode the check mark, [main()] raises: the
    exception that leaves [run_full_setup] meets no handler. *)
Example main_on_an_ascii_console :
  fst (main (ascii_console (stub_host [])) no_faults (boot ∅)) = Raise encode_error.
Proof. by vm_compute. Qed.

(** * Further properties of the scene-building methods *)

Lemma dict_get_set_eq {V} (k : string) (v : V) (d : list (string * V)) :
  dict_get k (dict_set k v d) = Some v.
Proof.
  induction d as [|[k' v'] d IH]; cbn.
  - by rewrite String.eqb_refl.
  - destruct (String.eqb k' k) eqn:E; cbn; by rewrite E.
Qed.

Lemma dict_get_set_ne {V} (k k0 : string) (v : V) (d : list (string * V)) :
  k0 <> k -> dict_get k0 (dict_set k v d) = dict_get k0 d.
Proof.
  intros Hne. induction d as [|[k' v'] d IH]; cbn.
  - destruct (String.eqb k k0) eqn:E; [|done].
    apply String.eqb_eq in E. by subst.
  - destruct (String.eqb k' k) eqn:E; cbn.
    + apply String.eqb_eq in E. subst k'.
      destruct (String.eqb k k0) eqn:E'; [|done].
      apply String.eqb_eq in E'. by subst.
    + by rewrite IH.
Qed.

(** Close a leaf of a symbolic run whose result is given by a hypothesis
    [run = (Return e, s')]. *)
Ltac close_registered :=
  let Heq := fresh "Heq" in
  intros Heq;
  first [discriminate Heq
        |injection Heq as <- <-; cbn;
         split; [apply dict_get_set_eq | intros ? ?; by apply dict_get_set_ne]].

(** X6. Each of the five [setup_*] methods returns the handle it has
    registered: whenever the method returns, [created_entities] maps its
    role to the returned handle, and the entries of all other roles are what
    they were before the call. *)
Theorem setup_methods_return_the_registered_handle (h : Host) :
  returns_registered "camera" (setup_camera_entity h)
  /\ returns_registered "vehicle" (setup_vehicle_entity h)
  /\ returns_registered "manager" (setup_game_manager h)
  /\ returns_registered "ground" (setup_ground_plane h)
  /\ returns_registered "light" (setup_lighting h).
Proof.
  split_and!.
  - intros [reg pp tr fs] e s'. unfold setup_camera_entity. unfold_prims. cbn.
    host_any; [|close_registered].
    run_quiet; [|close_registered]. run_quiet; [|close_registered].
    case_truthy.
    + do 3 (run_quiet; [|close_registered]). host_any; close_registered.
    + host_any; close_registered.
  - intros [reg pp tr fs] e s'. unfold setup_vehicle_entity. unfold_prims. cbn.
    host_any; [|close_registered].
    run_quiet; [|close_registered]. do 2 (run_quiet; [|close_registered]).
    case_truthy.
    + do 3 (run_quiet; [|close_registered]). host_any; close_registered.
    + run_quiet; [|close_registered]. host_any; close_registered.
  - intros [reg pp tr fs] e s'. unfold setup_game_manager. unfold_prims. cbn.
    host_any; [|close_registered].
    run_quiet; [|close_registered]. run_quiet; close_registered.
  - intros [reg pp tr fs] e s'. unfold setup_ground_plane. unfold_prims. cbn.
    host_any; [|close_registered].
    run_quiet; [|close_registered]. do 3 (run_quiet; [|close_registered]).
    host_any; close_registered.
  - intros [reg pp tr fs] e s'. unfold setup_lighting. unfold_prims. cbn.
    host_any; [|close_registered].
    run_quiet; [|close_registered]. run_quiet; [|close_registered].
    host_any; close_registered.
Qed.

Lemma setup_methods_return_the_registered_handle_witness :
  dict_get "vehicle"
    (created_entities (snd (setup_vehicle_entity (stub_host []) (fresh "/proj" ∅))))
  = Some 100%N.
Proof.
  destruct (setup_methods_return_the_registered_handle (stub_host [])) as (_ & H & _).
  apply (H (fresh "/proj" ∅) 100%N
           (snd (setup_vehicle_entity (stub_host []) (fresh "/proj" ∅)))).
  apply pair_fst. by vm_compute.
Defined.

Section Attached.

Variable h : Host.
Hypothesis Hh : host_succeeds h.



End Attached.




(** * Host calls and file operations *)

Lemma filter_nil_of_Forall {A} (f : A -> bool) (l : list A) :
  Forall (fun x => f x = false) l -> List.filter f l = [].
Proof.
  intros Hl. induction Hl as [|x l Hx Hl IH]; [done|]. cbn. by rewrite Hx.
Qed.

Lemma host_then_files_late {A} (m : M A) : within files_only m -> host_then_files m.
Proof.
  intros Hm s. destruct (Hm s) as (o & evs & reg' & fs' & -> & _ & _ & He).
  exists [], evs. cbn. split_and!; [done | done | by apply filter_nil_of_Forall].
Qed.

Lemma host_then_files_bind {A B} (m : M A) (k : A -> M B) :
  within host_only m -> (forall a, host_then_files (k a)) -> host_then_files (m ≫= k).
Proof.
  intros Hm Hk s. rewrite run_bind.
  destruct (Hm s) as (o & evs & reg' & fs' & -> & _ & _ & He).
  apply filter_nil_of_Forall in He.
  destruct o as [a|e].
  - destruct (Hk a (mkState reg' (project_path s) (trace s ++ evs) fs'))
      as (before & after & Ht & Hb & Ha).
    cbn in Ht. exists (evs ++ before), after.
    rewrite Ht, <- !app_assoc, List.filter_app, He, Hb. by split_and!.
  - exists evs, []. cbn. rewrite app_nil_r. by split_and!.
Qed.

Lemma host_then_files_try {A} (body : M A) (handler : exn -> M A) :
  host_then_files body -> (forall e, within files_only (handler e)) ->
  host_then_files (try_except body handler).
Proof.
  intros Hb Hk s. rewrite run_try.
  destruct (Hb s) as (before & after & Ht & Hbefore & Hafter).
  destruct (body s) as [[a|e] s1]; cbn in Ht.
  - by exists before, after.
  - destruct (Hk e s1) as (o & evs & reg' & fs' & -> & _ & _ & He).
    apply filter_nil_of_Forall in He.
    exists before, (after ++ evs). cbn.
    rewrite Ht, <- !app_assoc, List.filter_app, Hafter, He. by split_and!.
Qed.

Lemma scene_is_host_only (h : Host) :
  within host_only (setup_camera_entity h)
  /\ within host_only (setup_vehicle_entity h)
  /\ within host_only (setup_game_manager h)
  /\ within host_only (setup_ground_plane h)
  /\ within host_only (setup_lighting h).
Proof.
  unfold setup_camera_entity, setup_vehicle_entity, setup_game_manager,
    setup_ground_plane, setup_lighting, create_entity, add_component,
    set_component_property.
  split_and!; within_auto; done.
Qed.

Lemma run_full_setup_host_then_files (h : Host) (fp : Faults) :
  host_then_files (run_full_setup h fp).
Proof.
  destruct (scene_is_host_only h) as (H1 & H2 & H3 & H4 & H5).
  unfold run_full_setup.
  do 3 (apply host_then_files_bind; [within_auto; done|intros _]).
  apply host_then_files_try; [|intros e; within_auto; done].
  unfold run_full_setup_body.
  do 5 (apply host_then_files_bind; [done|intros _]).
  apply host_then_files_late.
  unfold create_input_bindings, create_component_source_files, create_readme.
  within_auto; done.
Qed.

(** X8. The host is used before the file system.  Whatever the host answers
    and whatever the file system does, the events of a full run split in
    two: a first part with no file-system operation, and a second part with
    no bus call.  So no entity is created or configured once the first
    directory or file has been touched. *)
Theorem host_calls_precede_file_operations (h : Host) (fp : Faults) (s : state) :
  exists before after,
    emitted (run_full_setup h fp) s = before ++ after
    /\ List.filter fs_event before = []
    /\ List.filter is_call after = [].
Proof.
  destruct (run_full_setup_host_then_files h fp s) as (before & after & Ht & Hb & Ha).
  exists before, after. unfold emitted. rewrite Ht. by rewrite drop_app_length.
Qed.

(** * Failed runs *)

Lemma raises_before_files_bind {A B} (m : M A) (k : A -> M B) :
  within host_only m -> (forall a, raises_before_files (k a)) ->
  raises_before_files (m ≫= k).
Proof.
  intros Hm Hk s e s1. rewrite run_bind.
  destruct (Hm s) as (o & evs & reg' & fs' & -> & _ & Hf & He).
  apply filter_nil_of_Forall in He. cbn in Hf. subst fs'.
  destruct o as [a|x].
  - intros Hrun. destruct (Hk a _ _ _ Hrun) as (Hfiles & evs' & Ht & He').
    cbn in *. split; [done|]. exists (evs ++ evs').
    by rewrite Ht, <- app_assoc, List.filter_app, He, He'.
  - intros [= <- <-]. cbn. split; [done|]. by exists evs.
Qed.

Lemma raises_before_files_total {A} (m : M A) :
  never_raises m -> raises_before_files m.
Proof.
  intros Hm s e s1 Hrun. destruct (Hm s) as (a & s' & Hret). congruence.
Qed.

Lemma run_full_setup_body_raises_before_files (h : Host) (fp : Faults) :
  console_accepts h ->
  (forall p, makedirs_fault fp p = None) ->
  raises_before_files (run_full_setup_body h fp).
Proof.
  intros Hcon Hd.
  destruct (scene_is_host_only h) as (H1 & H2 & H3 & H4 & H5).
  unfold run_full_setup_body.
  do 5 (apply raises_before_files_bind; [done|intros _]).
  apply raises_before_files_total.
  pose proof (create_input_bindings_never_raises h fp Hcon Hd).
  pose proof (create_component_source_files_never_raises h fp Hcon Hd).
  pose proof (create_readme_never_raises h fp Hcon).
  auto 40 with total.
Qed.

(** X9. A failed run that is not due to a directory has touched no file.
    On a console that accepts the script's lines, when directories exist or
    can be made, the run returns [False] only because a host call raised
    while the scene was built: the file store is then exactly as it was, no
    directory was made and no file opened, and the last thing the run did
    was to print the traceback. *)
Theorem failure_without_directory_fault_touches_no_file
    (h : Host) (fp : Faults) (s : state) :
  console_accepts h ->
  (forall p, makedirs_fault fp p = None) ->
  fst (run_full_setup h fp s) = Return false ->
  files (snd (run_full_setup h fp s)) = files s
  /\ List.filter fs_event (emitted (run_full_setup h fp) s) = []
  /\ exists e, last (trace (snd (run_full_setup h fp s))) = Some (Traceback e).
Proof.
  intros Hcon Hd.
  unfold emitted. rewrite run_full_setup_try, run_try by done.
  destruct (run_full_setup_body h fp (after_banner s)) as [[b|e] s1] eqn:Hbody.
  - by rewrite (run_full_setup_body_returns_true h fp _ _ _ Hbody).
  - intros _.
    destruct (run_full_setup_body_raises_before_files h fp Hcon Hd _ _ _ Hbody)
      as (Hfiles & evs & Ht & He).
    rewrite print_then by apply Hcon.
    unfold_prims. cbn in *. rewrite Ht. split_and!.
    + done.
    + rewrite <- !app_assoc, drop_app_length, !List.filter_app, He. reflexivity.
    + exists e. by rewrite last_snoc.
Qed.

(** The host rejects the third entity; the file system is healthy. *)
Lemma failure_without_directory_fault_touches_no_file_witness :
  files (snd (run_full_setup rejecting_host no_faults (fresh "/proj" ∅)))
  = files (fresh "/proj" ∅)
  /\ List.filter fs_event (emitted (run_full_setup rejecting_host no_faults) (fresh "/proj" ∅))
     = []
  /\ exists e, last (trace (snd (run_full_setup rejecting_host no_faults (fresh "/proj" ∅))))
               = Some (Traceback e).
Proof.
  apply (failure_without_directory_fault_touches_no_file rejecting_host no_faults
           (fresh "/proj" ∅)).
  - by intros t line.
  - reflexivity.
  - by vm_compute.
Defined.

(** Step over a scene method that returns: the files and the project path
    are as before. *)
Ltac over_scene_method m Hnr Hw :=
  rewrite (run_bind m);
  lazymatch goal with
  | |- context [m ?s] =>
      let a := fresh "a" in
      let s1 := fresh "s" in
      let Hrun := fresh "Hrun" in
      let Hp := fresh "Hp" in
      let Hf := fresh "Hf" in
      destruct (Hnr s) as (a & s1 & Hrun);
      destruct (within_facts host_only m s _ _ Hw Hrun) as (Hp & _ & Hf);
      cbn in Hf; rewrite Hrun; clear Hrun
  end.

Lemma over_scene (h : Host) {B} (k : M B) (s : state) :
  host_succeeds h ->
  exists s5,
    (setup_camera_entity h ≫= fun _ =>
     setup_vehicle_entity h ≫= fun _ =>
     setup_game_manager h ≫= fun _ =>
     setup_ground_plane h ≫= fun _ =>
     setup_lighting h ≫= fun _ => k) s = k s5
    /\ files s5 = files s /\ project_path s5 = project_path s.
Proof.
  intros Hh. destruct (scene_is_host_only h) as (H1 & H2 & H3 & H4 & H5).
  over_scene_method (setup_camera_entity h) (setup_camera_entity_never_raises h Hh) H1.
  over_scene_method (setup_vehicle_entity h) (setup_vehicle_entity_never_raises h Hh) H2.
  over_scene_method (setup_game_manager h) (setup_game_manager_never_raises h Hh) H3.
  over_scene_method (setup_ground_plane h) (setup_ground_plane_never_raises h Hh) H4.
  over_scene_method (setup_lighting h) (setup_lighting_never_raises h Hh) H5.
  eexists. split; [reflexivity|]. split; congruence.
Qed.

(** X10. A failed run is not rolled back.  Against a host whose calls
    succeed, when the bindings file can be written but the directory for the
    component sources cannot be made, the run returns [False] and leaves the
    bindings file in place, complete; nothing else in the file store has
    changed, so neither source file nor the guide has been written. *)
Theorem directory_fault_leaves_a_partial_scaffold
    (h : Host) (fp : Faults) (s : state) (e : exn) :
  host_succeeds h ->
  makedirs_fault fp (input_folder (project_path s)) = None ->
  open_fault fp (input_file (project_path s)) = None ->
  write_fault fp (input_file (project_path s)) = None ->
  makedirs_fault fp (gem_code_path (project_path s)) = Some e ->
  fst (run_full_setup h fp s) = Return false
  /\ files (snd (run_full_setup h fp s))
     = <[input_file (project_path s) := json_dumps bindings 4]> (files s)
  /\ last (trace (snd (run_full_setup h fp s))) = Some (Traceback e).
Proof.
  intros Hh Hmk Hopen Hwrite Hgem.
  pose proof (succeeds_Stdout h Hh) as Hcon.
  rewrite run_full_setup_try, run_try by done. unfold run_full_setup_body.
  lazymatch goal with
  | |- context [(_ ≫= fun _ => _ ≫= fun _ => _ ≫= fun _ => _ ≫= fun _ => _ ≫= fun _ => ?k)
                  (after_banner s)] =>
      destruct (over_scene h k (after_banner s) Hh) as (s5 & -> & Hf & Hp)
  end.
  destruct s5 as [reg5 pp5 tr5 fs5]. cbn in Hf, Hp. subst.
  rewrite run_bind, create_input_bindings_run by done. cbn zeta.
  rewrite Hmk, Hopen, Hwrite.
  rewrite run_bind, create_component_source_files_run by done. cbn zeta.
  rewrite Hgem. rewrite print_then by apply Hcon. unfold_prims. cbn.
  split_and!; [done | done | by rewrite last_snoc].
Qed.

(** The directory for the component sources cannot be made. *)
Lemma directory_fault_leaves_a_partial_scaffold_witness :
  fst (run_full_setup (stub_host []) (unmakeable "/proj/Gem/Code/Source/Components")
         (fresh "/proj" ∅)) = Return false
  /\ files (snd (run_full_setup (stub_host [])
                   (unmakeable "/proj/Gem/Code/Source/Components") (fresh "/proj" ∅)))
     = <[input_file (project_path (fresh "/proj" ∅)) := json_dumps bindings 4]>
         (files (fresh "/proj" ∅))
  /\ last (trace (snd (run_full_setup (stub_host [])
                         (unmakeable "/proj/Gem/Code/Source/Components")
                         (fresh "/proj" ∅))))
     = Some (Traceback "[Errno 30] Read-only file system").
Proof.
  apply (directory_fault_leaves_a_partial_scaffold (stub_host [])
           (unmakeable "/proj/Gem/Code/Source/Components") (fresh "/proj" ∅)).
  - apply stub_host_succeeds.
  - by vm_compute.
  - reflexivity.
  - reflexivity.
  - by vm_compute.
Defined.

(** * What the host is asked to attach *)

(** Sequencing when the first computation's results are known to satisfy
    [P]. *)
Lemma within_bind_ret (F : Footprint) `{!Lawful F} {A B} (P : A -> Prop)
    (m : M A) (k : A -> M B) :
  within F m -> returns_only P m -> (forall a, P a -> within F (k a)) ->
  within F (m ≫= k).
Proof.
  intros Hm HP Hk s. rewrite run_bind.
  destruct (Hm s) as (o & evs & reg1 & fs1 & Hrun & Hr & Hf & He). rewrite Hrun.
  destruct o as [a|e].
  - destruct (Hk a (HP _ _ _ Hrun) (mkState reg1 (project_path s) (trace s ++ evs) fs1))
      as (o2 & evs2 & reg2 & fs2 & -> & Hr2 & Hf2 & He2); cbn in *.
    exists o2, (evs ++ evs2), reg2, fs2. rewrite app_assoc.
    split_and!; [done | by etrans | by etrans | by apply Forall_app].
  - by exists (Raise e), evs, reg1, fs1.
Qed.

Lemma run_full_setup_guarded_attachments (h : Host) (fp : Faults) :
  within guarded_attachments (run_full_setup h fp).
Proof.
  unfold run_full_setup, run_full_setup_body,
    setup_camera_entity, setup_vehicle_entity, setup_game_manager,
    setup_ground_plane, setup_lighting,
    create_input_bindings, create_component_source_files, create_readme,
    create_entity, add_component, set_component_property.
  within_auto; try done; cbn; intros ->; done.
Qed.

Section Unresolved.

Variable h : Host.
Hypothesis Hbare : forall t names k, ~ resolves (hFindComponentTypeIds h t names k).

Lemma add_component_unresolved e n : returns_only (fun c => c = None) (add_component h e n).
Proof.
  intros [reg pp tr fs] c s'. unfold add_component. unfold_prims. cbn.
  destruct (hFindComponentTypeIds h tr [n] 0) as [[|ty tys]|] eqn:E; cbn.
  - host_any; [by intros [= <- _] | discriminate].
  - exfalso. apply (Hbare tr [n] 0%Z). by rewrite E.
  - discriminate.
Qed.

Lemma add_component_attaches_nothing e n : within no_attachment (add_component h e n).
Proof.
  unfold add_component.
  apply (within_bind_ret no_attachment (fun tys => list_truthy tys = false)).
  - within_auto; done.
  - intros s tys s'.
    unfold EditorComponentAPIBus_FindComponentTypeIdsByEntityType, bus.
    intros [= E _]. destruct tys as [|ty tys]; [done|].
    exfalso. apply (Hbare (trace s) [n] 0%Z). by rewrite E.
  - intros tys ->. within_auto; done.
Qed.

End Unresolved.

(** As [within_step], with what is known about [add_component] when the
    host resolves no component type. *)
Ltac unresolved_step h Hbare :=
  lazymatch goal with
  | |- within _ (add_component _ _ _ ≫= _) =>
      apply (within_bind_ret no_attachment (fun c => c = None));
      [apply add_component_attaches_nothing, Hbare
      |apply add_component_unresolved, Hbare
      |intros ? ->]
  | |- _ => within_step
  end.

(** X11. The host is never asked to attach nothing: every request to attach
    components in a full run names at least one type, and every lookup asks
    for a single type name among the components of game entities.  And when
    the host resolves no component type at all, a full run issues no request
    to attach a component and no property assignment. *)
Theorem attachments_need_a_resolved_type (h : Host) :
  (forall fp s, Forall attach_call_ok (emitted (run_full_setup h fp) s))
  /\ ((forall t names k, ~ resolves (hFindComponentTypeIds h t names k)) ->
      forall fp s, List.filter is_attach_call (emitted (run_full_setup h fp) s) = []).
Proof.
  split.
  - intros fp s. apply (within_emitted guarded_attachments),
      run_full_setup_guarded_attachments.
  - intros Hbare fp s. apply filter_nil_of_Forall.
    apply (within_emitted no_attachment).
    unfold run_full_setup, run_full_setup_body,
      setup_camera_entity, setup_vehicle_entity, setup_game_manager,
      setup_ground_plane, setup_lighting,
      create_input_bindings, create_component_source_files, create_readme,
      create_entity, set_component_property.
    repeat unresolved_step h Hbare; done.
Qed.

(** No component type is installed in the editor. *)
Lemma attachments_need_a_resolved_type_witness :
  List.filter is_attach_call (emitted (run_full_setup bare_host no_faults) (fresh "/proj" ∅))
  = [].
Proof.
  destruct (attachments_need_a_resolved_type bare_host) as [_ H].
  apply H. intros t names k Hr. exact Hr.
Defined.

(** * Whose entities the script touches *)

Section OwnEntities.

Variable h : Host.

Lemma create_entity_own name :
  within (own_entities h) (create_entity h name None)
  /\ returns_only (created_by h) (create_entity h name None).
Proof.
  split.
  - unfold create_entity, ToolsApplicationRequestBus_CreateNewEntity.
    apply (within_bind_ret (own_entities h) (created_by h)).
    + within_auto; done.
    + intros s e s'. unfold bus. intros [= E _]. by exists (trace s).
    + intros e He. within_auto; done.
  - intros [reg pp tr fs] e s'. unfold create_entity. unfold_prims. cbn.
    destruct (hCreateNewEntity h tr None) as [e0|] eqn:E; cbn; [|discriminate].
    repeat (host_any; [|discriminate]).
    intros [= <- _]. by exists tr.
Qed.

End OwnEntities.

Ltac own_step h :=
  lazymatch goal with
  | |- within _ (create_entity _ ?name None ≫= _) =>
      apply (within_bind_ret (own_entities h) (created_by h));
      [apply create_entity_own | apply create_entity_own | intros ? ?]
  | |- _ => within_step
  end.

(** X12. The script only touches entities it has created itself.  In a full
    run every entity is created without a parent, and every call that names
    an entity, attaches components to it or places it carries a handle the
    host answers such a creation request with; the script takes no entity
    handle from anywhere else. *)
Theorem only_own_entities_are_touched (h : Host) (fp : Faults) (s : state) :
  Forall (own_entity_call h) (emitted (run_full_setup h fp) s).
Proof.
  apply (within_emitted (own_entities h)).
  unfold run_full_setup, run_full_setup_body,
    setup_camera_entity, setup_vehicle_entity, setup_game_manager,
    setup_ground_plane, setup_lighting,
    create_input_bindings, create_component_source_files, create_readme,
    add_component, set_component_property.
  repeat own_step h; done.
Qed.

(** * Running again on the same object *)

(** X13. A second run builds the scene again.  On an object whose registry
    already holds the five roles, a run against a host whose calls succeed
    asks the host for five more entities and issues the same entity-level
    calls for them as a first run; the registry still holds exactly the five
    roles, in the same order, now with the new handles: the earlier handles
    are forgotten, not the entities. *)
Theorem rerun_builds_the_scene_again (h : Host) (fp : Faults) (s : state) :
  host_succeeds h ->
  map fst (created_entities s) = ["camera"; "vehicle"; "manager"; "ground"; "light"] ->
  exists camera vehicle manager ground light,
    created_entities (snd (run_full_setup h fp s)) =
    [("camera", camera); ("vehicle", vehicle); ("manager", manager);
     ("ground", ground); ("light", light)]
    /\ Forall (created_by h) [camera; vehicle; manager; ground; light]
    /\ List.filter entity_call (emitted (run_full_setup h fp) s)
       = scene_calls camera vehicle manager ground light.
Proof.
  intros Hh Hreg. destruct s as [reg pp tr fs]. cbn in Hreg.
  destruct reg as [|[k1 v1] [|[k2 v2] [|[k3 v3] [|[k4 v4] [|[k5 v5] [|]]]]]];
    try discriminate.
  cbn in Hreg. injection Hreg as -> -> -> -> ->.
  unfold emitted. rewrite run_full_setup_try, run_try by apply Hh.
  unfold after_banner, log. cbn.
  match goal with
  | |- context [run_full_setup_body h fp (mkState ?r ?p ?t ?f)] =>
      destruct (run_full_setup_body_scene h fp Hh r p t f)
        as (e1 & e2 & e3 & e4 & e5 & o & evs & fs' & -> & Hcalls & Hcreated)
  end.
  exists e1, e2, e3, e4, e5.
  destruct o as [b|e]; [|rewrite print_then by apply Hh]; unfold_prims; cbn;
    (split; [reflexivity|]; split; [exact Hcreated|]);
    rewrite <- !app_assoc, drop_app_length; cbn;
    rewrite ?List.filter_app, Hcalls; cbn; by rewrite ?app_nil_r.
Qed.

(** The object has run once against the stub, which hands out the handles
    100 to 104; the second run registers 105 to 109. *)
Lemma rerun_builds_the_scene_again_witness :
  exists camera vehicle manager ground light,
    created_entities
      (snd (run_full_setup (stub_host []) no_faults
              (snd (run_full_setup (stub_host []) no_faults (fresh "/proj" ∅))))) =
    [("camera", camera); ("vehicle", vehicle); ("manager", manager);
     ("ground", ground); ("light", light)]
    /\ Forall (created_by (stub_host [])) [camera; vehicle; manager; ground; light]
    /\ List.filter entity_call
         (emitted (run_full_setup (stub_host []) no_faults)
            (snd (run_full_setup (stub_host []) no_faults (fresh "/proj" ∅))))
       = scene_calls camera vehicle manager ground light.
Proof.
  apply (rerun_builds_the_scene_again (stub_host []) no_faults
           (snd (run_full_setup (stub_host []) no_faults (fresh "/proj" ∅)))).
  - apply stub_host_succeeds.
  - by vm_compute.
Defined.

(** * The closing report *)

Lemma log_mk (e : Event) reg pp tr fs :
  log e (mkState reg pp tr fs) = mkState reg pp (tr ++ [e]) fs.
Proof. reflexivity. Qed.

Lemma items_then {B} (k : list (string * EntityId) -> M B) (s : state) :
  (created_entities_items ≫= k) s = k (created_entities s) s.
Proof. reflexivity. Qed.

Lemma project_path_then {B} (k : string -> M B) (s : state) :
  (get_project_path ≫= k) s = k (project_path s) s.
Proof. reflexivity. Qed.

Lemma writers_are_contained (h : Host) (fp : Faults) :
  console_accepts h ->
  (forall p, makedirs_fault fp p = None) ->
  contained_writer fp (create_input_bindings h fp)
  /\ contained_writer fp (create_component_source_files h fp)
  /\ contained_writer fp (create_readme h fp).
Proof.
  intros Hcon Hd. split_and!; intros [reg pp tr fs].
  - rewrite create_input_bindings_run by done. cbn zeta. rewrite Hd.
    destruct (open_fault fp (input_file pp)) as [e|] eqn:Ho;
      [by eexists _, _|].
    destruct (write_fault fp (input_file pp)) as [[n e]|];
      eexists _, _; (split_and!; [done | done | done |]);
      intros Hall; by destruct (Hall (input_file pp)).
  - rewrite create_component_source_files_run by done. cbn zeta. rewrite Hd.
    destruct (open_fault fp (header_file pp)) as [e|] eqn:Ho;
      [by eexists _, _|].
    destruct (write_fault fp (header_file pp)) as [[n e]|];
      [eexists _, _; (split_and!; [done | done | done |]);
       intros Hall; by destruct (Hall (header_file pp))|].
    destruct (open_fault fp (cpp_file pp)) as [e|];
      [eexists _, _; (split_and!; [done | done | done |]);
       intros Hall; by destruct (Hall (header_file pp))|].
    destruct (write_fault fp (cpp_file pp)) as [[n e]|];
      eexists _, _; (split_and!; [done | done | done |]);
      intros Hall; by destruct (Hall (header_file pp)).
  - rewrite create_readme_run by done. cbn zeta.
    destruct (open_fault fp (readme_file pp)) as [e|] eqn:Ho;
      [by eexists _, _|].
    destruct (write_fault fp (readme_file pp)) as [[n e]|];
      eexists _, _; (split_and!; [done | done | done |]);
      intros Hall; by destruct (Hall (readme_file pp)).
Qed.

(** Step over a writer whose failures stay inside. *)
Ltac over_writer m Hm :=
  rewrite (run_bind m);
  lazymatch goal with
  | |- context [m ?s] =>
      let b := fresh "b" in
      let s1 := fresh "s" in
      let Hr := fresh "Hr" in
      let Hp := fresh "Hp" in
      let Hf := fresh "Hf" in
      destruct (Hm s) as (b & s1 & -> & Hr & Hp & Hf)
  end.

(** X14. The closing report does not depend on what the writers did.
    Against a host whose calls succeed and a file system where directories
    can be made, the run returns [True] and ends by printing the closing
    report: one line per registry entry, in registry order, then the next
    steps and the three artifacts as files created.  This is so whatever
    happened to opening and writing the files; when no file can be opened,
    the file store is exactly as before the run and the report still names
    the artifacts. *)
Theorem closing_report_ignores_the_writers (h : Host) (fp : Faults) (s : state) :
  host_succeeds h ->
  (forall p, makedirs_fault fp p = None) ->
  exists s' pre,
    run_full_setup h fp s = (Return true, s')
    /\ trace s' = pre ++ closing_report h (created_entities s') (project_path s)
    /\ ((forall p, open_fault fp p <> None) -> files s' = files s).
Proof.
  intros Hh Hd. pose proof (succeeds_Stdout h Hh) as Hcon.
  destruct (writers_are_contained h fp Hcon Hd) as (Hin & Hsrc & Hreadme).
  rewrite run_full_setup_try, run_try by done. unfold run_full_setup_body.
  lazymatch goal with
  | |- context [(_ ≫= fun _ => _ ≫= fun _ => _ ≫= fun _ => _ ≫= fun _ => _ ≫= fun _ => ?k)
                  (after_banner s)] =>
      destruct (over_scene h k (after_banner s) Hh) as (s5 & -> & Hf5 & Hp5)
  end.
  over_writer (create_input_bindings h fp) Hin.
  over_writer (create_component_source_files h fp) Hsrc.
  over_writer (create_readme h fp) Hreadme.
  destruct s2 as [reg8 pp8 tr8 fs8]. cbn in Hr1, Hp1, Hf1.
  unfold after_banner, log in Hf5, Hp5. cbn in Hf5, Hp5.
  rewrite !print_then by apply Hcon. rewrite !log_mk, items_then.
  cbn [created_entities].
  rewrite run_bind, for_each_print_run by apply Hcon.
  rewrite !print_then by apply Hcon. rewrite !log_mk, project_path_then.
  cbn [project_path]. rewrite !print_then by apply Hcon. rewrite !log_mk.
  eexists _, tr8. split; [reflexivity|]. cbn [trace created_entities files].
  split.
  - unfold closing_report, readme_file. rewrite <- !app_assoc.
    replace pp8 with (project_path s) by congruence. reflexivity.
  - intros Hall. rewrite Hf1, Hf0, Hf by done. done.
Qed.

(** No file can be opened: nothing is written, and the report is printed. *)
Lemma closing_report_ignores_the_writers_witness :
  exists s' pre,
    run_full_setup (stub_host []) read_only_files (fresh "/proj" ∅) = (Return true, s')
    /\ trace s' = pre ++ closing_report (stub_host []) (created_entities s')
                           (project_path (fresh "/proj" ∅))
    /\ ((forall p, open_fault read_only_files p <> None) ->
        files s' = files (fresh "/proj" ∅)).
Proof.
  apply (closing_report_ignores_the_writers (stub_host []) read_only_files (fresh "/proj" ∅)).
  - apply stub_host_succeeds.
  - reflexivity.
Defined.

(** * Concrete runs *)

Example dirname_examples :
  os_path_dirname "/home/dev/MyProject/Cache/pc" = "/home/dev/MyProject/Cache"
  /\ os_path_dirname (os_path_dirname "/home/dev/MyProject/Cache/pc") = "/home/dev/MyProject"
  /\ os_path_dirname "/usr" = "/"
  /\ os_path_dirname "usr" = ""
  /\ os_path_dirname "a//b" = "a"
  /\ os_path_dirname "//a" = "//".
Proof. by vm_compute. Qed.

Example join_examples :
  os_path_join "/proj" ["Config"; "Input"] = "/proj/Config/Input"
  /\ os_path_join "/proj/" ["Config"; "Input"] = "/proj/Config/Input"
  /\ os_path_join "" ["Config"; "Input"] = "Config/Input"
  /\ os_path_join "/proj" ["/etc"; "x"] = "/etc/x".
Proof. by vm_compute. Qed.

Example json_dumps_example :
  json_dumps (JDict [("version", JInt 1); ("bindings", JList [JDict [("name", JStr "a")]]);
                     ("empty", JList [])]) 4
  = "{" +:+ nl
    +:+ "    " +:+ dq +:+ "version" +:+ dq +:+ ": 1," +:+ nl
    +:+ "    " +:+ dq +:+ "bindings" +:+ dq +:+ ": [" +:+ nl
    +:+ "        {" +:+ nl
    +:+ "            " +:+ dq +:+ "name" +:+ dq +:+ ": " +:+ dq +:+ "a" +:+ dq +:+ nl
    +:+ "        }" +:+ nl
    +:+ "    ]," +:+ nl
    +:+ "    " +:+ dq +:+ "empty" +:+ dq +:+ ": []" +:+ nl
    +:+ "}".
Proof. by vm_compute. Qed.

(** [main()] against the stub editor and a healthy file system. *)
Example main_on_the_stub :
  fst (main (stub_host []) no_faults (boot ∅)) = Return true
  /\ project_path (snd (main (stub_host []) no_faults (boot ∅))) = "/home/dev/MyProject"
  /\ created_entities (snd (main (stub_host []) no_faults (boot ∅)))
     = [("camera", 100%N); ("vehicle", 101%N); ("manager", 102%N);
        ("ground", 103%N); ("light", 104%N)]
  /\ files (snd (main (stub_host []) no_faults (boot ∅)))
       !! "/home/dev/MyProject/Config/Input/vehicle_camera.inputbindings"
     = Some (json_dumps bindings 4)
  /\ files (snd (main (stub_host []) no_faults (boot ∅)))
       !! "/home/dev/MyProject/Gem/Code/Source/Components/VehicleCombatCameraComponent.h"
     = Some header_content
  /\ files (snd (main (stub_host []) no_faults (boot ∅)))
       !! "/home/dev/MyProject/Gem/Code/Source/Components/VehicleCombatCameraComponent.cpp"
     = Some cpp_content
  /\ files (snd (main (stub_host []) no_faults (boot ∅)))
       !! "/home/dev/MyProject/CAMERA_SETUP_README.md"
     = Some readme_content.
Proof. by vm_compute. Qed.

(** The host rejects the third entity: the exception reaches the handler of
    [run_full_setup], which prints the diagnostic and the traceback and
    returns [False]; two entities are registered and no file is touched. *)
Example run_with_a_rejecting_host :
  fst (run_full_setup rejecting_host no_faults (fresh "/proj" ∅)) = Return false
  /\ created_entities (snd (run_full_setup rejecting_host no_faults (fresh "/proj" ∅)))
     = [("camera", 100%N); ("vehicle", 101%N)]
  /\ List.filter (fun e => negb (is_call e || fs_event e))
       (drop 35 (trace (snd (run_full_setup rejecting_host no_faults (fresh "/proj" ∅)))))
     = [Stdout (nl +:+ "=== Setting up Game Manager ===");
        Stdout (nl +:+ "✗ Setup failed with error: entity limit reached");
        Traceback "entity limit reached"]
  /\ files (snd (run_full_setup rejecting_host no_faults (fresh "/proj" ∅))) = ∅.
Proof. by vm_compute. Qed.

(** No file can be opened: each writer prints its failure line and returns
    [False], and the run still returns [True]. *)
Example run_with_read_only_files :
  fst (run_full_setup (stub_host []) read_only_files (fresh "/proj" ∅)) = Return true
  /\ fst (create_input_bindings (stub_host []) read_only_files (fresh "/proj" ∅))
     = Return false
  /\ fst (create_component_source_files (stub_host []) read_only_files (fresh "/proj" ∅))
     = Return false
  /\ fst (create_readme (stub_host []) read_only_files (fresh "/proj" ∅)) = Return false
  /\ List.filter fs_event
       (trace (snd (run_full_setup (stub_host []) read_only_files (fresh "/proj" ∅))))
     = [Makedirs "/proj/Config/Input";
        OpenW "/proj/Config/Input/vehicle_camera.inputbindings";
        Makedirs "/proj/Gem/Code/Source/Components";
        OpenW "/proj/Gem/Code/Source/Components/VehicleCombatCameraComponent.h";
        OpenW "/proj/CAMERA_SETUP_README.md"]
  /\ files (snd (run_full_setup (stub_host []) read_only_files (fresh "/proj" ∅))) = ∅.
Proof. by vm_compute. Qed.

(** Two runs in a row against the stub editor, which hands out fresh
    handles each time: same result, same content in the four files. *)
Example two_runs_on_the_stub :
  fst (run_full_setup (stub_host []) no_faults
         (snd (run_full_setup (stub_host []) no_faults (fresh "/proj" ∅)))) = Return true
  /\ map (fun p => files (snd (run_full_setup (stub_host []) no_faults
                                (snd (run_full_setup (stub_host []) no_faults
                                        (fresh "/proj" ∅)))) ) !! p)
       ["/proj/Config/Input/vehicle_camera.inputbindings";
        "/proj/Gem/Code/Source/Components/VehicleCombatCameraComponent.h";
        "/proj/Gem/Code/Source/Components/VehicleCombatCameraComponent.cpp";
        "/proj/CAMERA_SETUP_README.md"]
     = [Some (json_dumps bindings 4); Some header_content; Some cpp_content;
        Some readme_content]
  /\ created_entities
       (snd (run_full_setup (stub_host []) no_faults
               (snd (run_full_setup (stub_host []) no_faults (fresh "/proj" ∅)))))
     = [("camera", 105%N); ("vehicle", 106%N); ("manager", 107%N);
        ("ground", 108%N); ("light", 109%N)].
Proof. split_and!; vm_compute; reflexivity. Qed.
